(** * Task ordering and optimistic moves of the Kanban board

    A shallow embedding of the task routes of the projects router
    (reorder, create, list, and the deletion of a project), of the update
    and delete routes of the tasks router, of the Mongoose queries they
    issue, and of the ProjectBoard page (the drag handler handleDragEnd,
    the columns it draws and its task callbacks), followed by the
    properties of the ordering engine. *)

From Stdlib Require Import List ZArith Lia Bool Arith String Permutation.
From Stdlib Require Import Sorting.Sorted.
Import ListNotations.

Set Implicit Arguments.

(** ** JavaScript array operations used by the routes and the page *)

Module JsArray.
Section Ops.
Variable A : Type.

(** [arr.findIndex(p)]; JavaScript's [-1] is [None]. *)
Fixpoint findIndex (p : A -> bool) (l : list A) : option nat :=
  match l with
  | [] => None
  | x :: r => if p x then Some 0
              else match findIndex p r with
                   | Some i => Some (S i)
                   | None => None
                   end
  end.

(** [arr.splice(start, deleteCount, ...items)] for a non-negative [start]:
    the removed elements and the array as it is left.  A [start] beyond
    the length is clamped to the length, which [firstn] and [skipn] do. *)
Definition splice (start deleteCount : nat) (items l : list A)
  : list A * list A :=
  (firstn deleteCount (skipn start l),
   firstn start l ++ items ++ skipn (start + deleteCount) l).

(** [arr.slice(0, n)] and [arr.slice(n)] for a non-negative [n]. *)
Definition slice_to (n : nat) (l : list A) : list A := firstn n l.
Definition slice_from (n : nat) (l : list A) : list A := skipn n l.

(** [arr.map((x, index) => f x index)], counting from [i]. *)
Fixpoint mapi_from (B : Type) (f : A -> nat -> B) (i : nat) (l : list A)
  : list B :=
  match l with
  | [] => []
  | x :: r => f x i :: mapi_from f (S i) r
  end.

Definition mapi (B : Type) (f : A -> nat -> B) (l : list A) : list B :=
  mapi_from f 0 l.
End Ops.
End JsArray.

(** ** The data model *)

(** Mongo object identifiers; only their equality matters. *)
Definition ObjectId := nat.

(** The [status] enum of the Task schema; the validators of the routes
    ([isIn(['todo', 'inprogress', 'done'])]) admit no other value. *)
Inductive Status : Type := todo | inprogress | done.

Definition Status_eqb (a b : Status) : bool :=
  match a, b with
  | todo, todo | inprogress, inprogress | done, done => true
  | _, _ => false
  end.

Module Task.
(** A document of the Task collection.  [order] is a JavaScript number
    that the routes only ever increment, decrement or set to an index;
    dates are milliseconds. *)
Record t : Type := mk {
  _id : ObjectId;
  projectId : ObjectId;
  title : string;
  description : string;
  status : Status;
  order : Z;
  createdAt : Z;
  updatedAt : Z
}.

Definition with_order (o : Z) (x : t) : t :=
  mk (_id x) (projectId x) (title x) (description x) (status x) o
     (createdAt x) (updatedAt x).

Definition with_status (s : Status) (x : t) : t :=
  mk (_id x) (projectId x) (title x) (description x) s (order x)
     (createdAt x) (updatedAt x).

Definition with_updatedAt (d : Z) (x : t) : t :=
  mk (_id x) (projectId x) (title x) (description x) (status x) (order x)
     (createdAt x) d.
End Task.

Module Project.
Record t : Type := mk {
  _id : ObjectId;
  name : string;
  description : string
}.
End Project.

(** ** Mongoose queries over a collection

    A collection is the list of its documents in storage order. *)

Module Mongo.
Section Coll.
Variable D : Type.

(** [Model.find(q)] *)
Definition find (q : D -> bool) (c : list D) : list D := filter q c.

(** [Model.findOne(q)] *)
Definition findOne (q : D -> bool) (c : list D) : option D := List.find q c.

(** [Model.updateOne(q, u)] (also [findByIdAndUpdate]): the first
    document that matches is updated, nothing is inserted. *)
Fixpoint updateOne (q : D -> bool) (u : D -> D) (c : list D) : list D :=
  match c with
  | [] => []
  | x :: r => if q x then u x :: r else x :: updateOne q u r
  end.

(** [Model.updateMany(q, u)] *)
Definition updateMany (q : D -> bool) (u : D -> D) (c : list D) : list D :=
  map (fun x => if q x then u x else x) c.

(** [Model.bulkWrite(ops)] with [updateOne] operations, applied in order. *)
Definition bulkWrite (ops : list ((D -> bool) * (D -> D))) (c : list D)
  : list D :=
  fold_left (fun acc op => updateOne (fst op) (snd op) acc) ops c.

(** [.sort(...)]: an insertion sort for the order [leb].  Mongo leaves
    the sequence of documents with equal keys open; this sort keeps them
    in storage order. *)
Fixpoint insert_sorted (leb : D -> D -> bool) (x : D) (l : list D)
  : list D :=
  match l with
  | [] => [x]
  | y :: r => if leb x y then x :: l else y :: insert_sorted leb x r
  end.

Definition sort (leb : D -> D -> bool) (l : list D) : list D :=
  fold_right (insert_sorted leb) [] l.
End Coll.
End Mongo.

(** [.sort({ order: 1 })] and [.sort({ order: -1 })] on tasks. *)
Definition order_asc (a b : Task.t) : bool := (Task.order a <=? Task.order b)%Z.
Definition order_desc (a b : Task.t) : bool := (Task.order b <=? Task.order a)%Z.

Definition sortByOrder (l : list Task.t) : list Task.t :=
  Mongo.sort order_asc l.
Definition sortByOrderDesc (l : list Task.t) : list Task.t :=
  Mongo.sort order_desc l.

(** The database: the two collections. *)
Record DB : Type := mkDB {
  projects : list Project.t;
  tasks : list Task.t
}.

(** ** The projects router *)

Inductive ErrorCode : Type :=
| VALIDATION_ERROR
| PROJECT_NOT_FOUND
| TASK_NOT_FOUND
| REORDER_ERROR.

(** What a handler sends: [res.json] with a task (or [null]) as [data],
    [res.status(201).json] with the created task, or an error body.  The
    project that [populate] attaches to the task of a reorder response is
    left out. *)
Inductive Response : Type :=
| Ok200 (data : option Task.t)
| Created201 (data : Task.t) (demo : bool)
| Failure (httpStatus : nat) (code : ErrorCode).

(** The body of a reorder request, as the client sends it.  [taskId]
    comes as a string of 24 hexadecimal digits (the validator is
    [isMongoId]) and the handler uses it in two ways.  The queries by
    [_id] cast it to an ObjectId whatever the case of its letters:
    [taskId] is that ObjectId.  The in-column branch compares the string
    itself with [t._id.toString()], which spells an ObjectId in lower
    case: [taskIdLowerCase] tells whether the request spells it so, as
    every answer of the server does. *)
Record ReorderBody : Type := mkReorder {
  taskId : ObjectId;
  sourceStatus : Status;
  destinationStatus : Status;
  destinationIndex : Z;
  taskIdLowerCase : bool
}.

Definition byId (i : ObjectId) (x : Task.t) : bool := Task._id x =? i.

Definition inProject (p : ObjectId) (x : Task.t) : bool :=
  Task.projectId x =? p.

(** The filter [{ projectId, status }]. *)
Definition inColumn (p : ObjectId) (s : Status) (x : Task.t) : bool :=
  inProject p x && Status_eqb (Task.status x) s.

Definition projectById (p : ObjectId) (x : Project.t) : bool :=
  Project._id x =? p.

(** The updates below carry [updatedAt: Date.now()], which is not what
    gets stored: the Task schema has [timestamps: true], and Mongoose
    puts a reading of its own clock in the [updatedAt] of every update.
    [d] is that reading. *)

(** [{ order: index, updatedAt: Date.now() }] *)
Definition setOrder (o d : Z) (x : Task.t) : Task.t :=
  Task.with_updatedAt d (Task.with_order o x).

(** [{ status, order, updatedAt: Date.now() }] *)
Definition setStatusOrder (s : Status) (o d : Z) (x : Task.t) : Task.t :=
  Task.with_updatedAt d (Task.with_order o (Task.with_status s x)).

(** [{ $inc: { order: k }, updatedAt: Date.now() }] *)
Definition incOrder (k d : Z) (x : Task.t) : Task.t :=
  Task.with_updatedAt d (Task.with_order (Task.order x + k)%Z x).

(** [t._id.toString() === taskId] *)
Definition sameIdString (body : ReorderBody) (t : Task.t) : bool :=
  byId (taskId body) t && taskIdLowerCase body.

(** The in-column branch after the column is loaded: take the task out,
    put it back at [destinationIndex], and number the column anew.
    [None] is the exception thrown when the task is not found. *)
Definition reorderInColumn (now : nat -> Z) (body : ReorderBody)
    (tasksInColumn : list Task.t) (c : list Task.t)
  : option (list Task.t) :=
  match JsArray.findIndex (sameIdString body) tasksInColumn with
  | None => None
  | Some currentIndex =>
      let '(removed, rest) := JsArray.splice currentIndex 1 [] tasksInColumn in
      match removed with
      | [] => None
      | movedTask :: _ =>
          let '(_, tasksInColumn') :=
            JsArray.splice (Z.to_nat (destinationIndex body)) 0 [movedTask] rest in
          let bulkOps :=
            JsArray.mapi
              (fun task index =>
                 (byId (Task._id task),
                  setOrder (Z.of_nat index) (now index)))
              tasksInColumn' in
          Some (Mongo.bulkWrite bulkOps c)
      end
  end.

(** The cross-column branch: three updates, the second and third keyed on
    the order the task had when it was read and on the requested index. *)
Definition reorderAcrossColumns (now : nat -> Z) (projectId : ObjectId)
    (body : ReorderBody) (task : Task.t) (c : list Task.t) : list Task.t :=
  let c1 :=
    Mongo.updateOne (byId (taskId body))
      (setStatusOrder (destinationStatus body) (destinationIndex body) (now 0))
      c in
  let c2 :=
    Mongo.updateMany
      (fun x => inColumn projectId (sourceStatus body) x
                && (Task.order task <? Task.order x)%Z)
      (incOrder (-1) (now 1))
      c1 in
  Mongo.updateMany
    (fun x => inColumn projectId (destinationStatus body) x
              && (destinationIndex body <=? Task.order x)%Z
              && negb (byId (taskId body) x))
    (incOrder 1 (now 2))
    c2.

(** [router.patch('/:id/tasks/reorder', ...)].  [now k] is the date
    Mongoose's timestamps store with the k-th update of the branch taken
    (the k-th operation of the bulk write, or the k-th of the three
    updates across columns).  An exception anywhere in the handler is
    answered with 500 and REORDER_ERROR. *)
Definition reorder (now : nat -> Z) (db : DB) (projectId : ObjectId)
    (body : ReorderBody) : DB * Response :=
  if (destinationIndex body <? 0)%Z then (db, Failure 400 VALIDATION_ERROR)
  else
    match Mongo.findOne (projectById projectId) (projects db) with
    | None => (db, Failure 404 PROJECT_NOT_FOUND)
    | Some _ =>
        match Mongo.findOne
                (fun x => byId (taskId body) x && inProject projectId x)
                (tasks db) with
        | None => (db, Failure 404 TASK_NOT_FOUND)
        | Some task =>
            let written :=
              if Status_eqb (sourceStatus body) (destinationStatus body) then
                reorderInColumn now body
                  (sortByOrder
                     (Mongo.find (inColumn projectId (sourceStatus body))
                        (tasks db)))
                  (tasks db)
              else
                Some (reorderAcrossColumns now projectId body task (tasks db))
            in
            match written with
            | None => (db, Failure 500 REORDER_ERROR)
            | Some c =>
                (mkDB (projects db) c,
                 Ok200 (Mongo.findOne (byId (taskId body)) c))
            end
        end
    end.

(** The body of a create-task request after [trim()] and the defaults of
    the destructuring ([description = ''], [status = 'todo']). *)
Record CreateBody : Type := mkCreate {
  newTitle : string;
  newDescription : string;
  newStatus : Status
}.

Definition validTask (body : CreateBody) : bool :=
  (1 <=? String.length (newTitle body))
  && (String.length (newTitle body) <=? 200)
  && (String.length (newDescription body) <=? 1000).

(** [router.post('/:id/tasks', ...)].  [connected] is
    [mongoose.connection.readyState === 1]; [freshId] and [mockId] are the
    identifiers Mongo and the demo branch make up; [now] is the date of
    the save.  The queries of the model do not throw, so the demo task of
    the [catch] block does not appear. *)
Definition createTask (connected : bool) (freshId mockId : ObjectId) (now : Z)
    (db : DB) (projectId : ObjectId) (body : CreateBody) : DB * Response :=
  if negb (validTask body) then (db, Failure 400 VALIDATION_ERROR)
  else if negb connected then
    (db,
     Created201
       (Task.mk mockId projectId (newTitle body) (newDescription body)
          (newStatus body) 0 now now)
       true)
  else
    match Mongo.findOne (projectById projectId) (projects db) with
    | None => (db, Failure 404 PROJECT_NOT_FOUND)
    | Some _ =>
        let lastTask :=
          Mongo.findOne (fun _ => true)
            (sortByOrderDesc
               (Mongo.find (inColumn projectId (newStatus body)) (tasks db))) in
        let nextOrder :=
          match lastTask with
          | Some l => (Task.order l + 1)%Z
          | None => 0%Z
          end in
        let savedTask :=
          Task.mk freshId projectId (newTitle body) (newDescription body)
            (newStatus body) nextOrder now now in
        (mkDB (projects db) (tasks db ++ [savedTask]),
         Created201 savedTask false)
    end.

(** ** The board page: the drop handler of ProjectBoard *)

Module Board.
(** A droppable position of the drag-and-drop library. *)
Record Location : Type := mkLoc {
  droppableId : Status;
  index : nat
}.

Record DropResult : Type := mkDrop {
  destination : option Location;
  source : Location;
  draggableId : ObjectId
}.

Record ReorderData : Type := mkData {
  d_taskId : ObjectId;
  d_sourceStatus : Status;
  d_destinationStatus : Status;
  d_sourceIndex : nat;
  d_destinationIndex : nat
}.

(** How the two awaited calls of the handler end: [reorderTasks] rejects
    (an error response, a timeout, a transport failure), or it resolves
    and [getTasks] rejects, or both resolve and [getTasks] carries
    [data] (possibly missing). *)
Inductive ApiRun : Type :=
| ReorderRejects
| GetTasksRejects
| GetTasksResolves (data : option (list Task.t)).

(** What the handler does to the page and to the network, in order. *)
Inductive Effect : Type :=
| SetDragInProgress (b : bool)
| SetTasks (l : list Task.t)
| CallReorderTasks (data : ReorderData)
| CallGetTasks
| HandleError.

(** [handleDragEnd(result)] with [tasks] the state the handler closes
    over.  [originalTasks] is a copy of the array and the optimistic
    update works on another copy and on a fresh object for the moved
    task, so no array or task object of the snapshot is mutated. *)
Definition handleDragEnd (tasks : list Task.t) (result : DropResult)
    (api : ApiRun) : list Effect :=
  SetDragInProgress false ::
  match destination result with
  | None => []
  | Some dest =>
      if Status_eqb (droppableId dest) (droppableId (source result))
         && (index dest =? index (source result))
      then []
      else
        match List.find (byId (draggableId result)) tasks with
        | None => []
        | Some task =>
            let originalTasks := tasks in
            let taskIndex :=
              match JsArray.findIndex (byId (draggableId result)) tasks with
              | Some i => i
              | None => List.length tasks - 1
              end in
            let newTasks := snd (JsArray.splice taskIndex 1 [] tasks) in
            let updatedTask := Task.with_status (droppableId dest) task in
            let destinationTasks :=
              filter (fun x => Status_eqb (Task.status x) (droppableId dest))
                newTasks in
            let insertIndex := index dest in
            let allTasksBeforeDestination :=
              filter
                (fun x => negb (Status_eqb (Task.status x) (droppableId dest)))
                newTasks in
            let finalTasks :=
              allTasksBeforeDestination
              ++ JsArray.slice_to insertIndex destinationTasks
              ++ [updatedTask]
              ++ JsArray.slice_from insertIndex destinationTasks in
            let reorderData :=
              mkData (draggableId result) (droppableId (source result))
                (droppableId dest) (index (source result)) (index dest) in
            SetTasks finalTasks ::
            CallReorderTasks reorderData ::
            match api with
            | ReorderRejects => [SetTasks originalTasks; HandleError]
            | GetTasksRejects =>
                [CallGetTasks; SetTasks originalTasks; HandleError]
            | GetTasksResolves data =>
                [CallGetTasks;
                 SetTasks (match data with Some l => l | None => [] end)]
            end
        end
  end.

(** The [tasks] state of the page after a run of effects. *)
Definition tasksAfter (tasks : list Task.t) (es : list Effect)
  : list Task.t :=
  fold_left
    (fun acc e => match e with SetTasks l => l | _ => acc end) es tasks.

(** The states [tasks] goes through, oldest first. *)
Definition rendered (es : list Effect) : list (list Task.t) :=
  flat_map (fun e => match e with SetTasks l => [l] | _ => [] end) es.
End Board.

(** ** Vocabulary of the properties *)

(** The ordered task list of a column, as every reader loads it. *)
Definition column (db : DB) (p : ObjectId) (s : Status) : list Task.t :=
  sortByOrder (Mongo.find (inColumn p s) (tasks db)).

Definition orders (l : list Task.t) : list Z := map Task.order l.

(** [0, 1, ..., n-1] *)
Definition upto (n : nat) : list Z := map Z.of_nat (seq 0 n).

(** A column is dense when its orders, sorted, are exactly [0 .. n-1]. *)
Definition dense (db : DB) (p : ObjectId) (s : Status) : Prop :=
  orders (column db p s) = upto (List.length (column db p s)).

Definition denseb (db : DB) (p : ObjectId) (s : Status) : bool :=
  if list_eq_dec Z.eq_dec (orders (column db p s))
       (upto (List.length (column db p s)))
  then true else false.

(** Mongo keeps [_id] unique in a collection. *)
Definition uniqueIds (c : list Task.t) : Prop :=
  NoDup (map Task._id c).

(** A task without its modification date. *)
Definition untimed (x : Task.t) : Task.t := Task.with_updatedAt 0 x.

(** The tasks a response carries. *)
Definition responseTasks (r : Response) : list Task.t :=
  match r with
  | Ok200 (Some x) => [x]
  | Ok200 None => []
  | Created201 x _ => [x]
  | Failure _ _ => []
  end.

Definition succeeded (r : Response) : bool :=
  match r with
  | Ok200 _ => true
  | _ => false
  end.

(** The position of a task in its column, when it is there. *)
Definition indexInColumn (db : DB) (p : ObjectId) (s : Status) (i : ObjectId)
  : option nat :=
  JsArray.findIndex (byId i) (column db p s).

(** What no move touches: identity, owner, texts and creation date. *)
Definition sameIdentity (a b : Task.t) : Prop :=
  Task._id a = Task._id b /\
  Task.projectId a = Task.projectId b /\
  Task.title a = Task.title b /\
  Task.description a = Task.description b /\
  Task.createdAt a = Task.createdAt b.

(** The claim of a move that changes nothing but column and order. *)
Definition sameButColumnAndOrder (a b : Task.t) : Prop :=
  sameIdentity a b /\ Task.updatedAt a = Task.updatedAt b.

(** The move of the page failed: one of the awaited calls rejected. *)
Definition moveFailed (api : Board.ApiRun) : bool :=
  match api with
  | Board.ReorderRejects | Board.GetTasksRejects => true
  | Board.GetTasksResolves _ => false
  end.

(** Identifier and order of each task of a list. *)
Definition assignments (l : list Task.t) : list (ObjectId * Z) :=
  map (fun x => (Task._id x, Task.order x)) l.

(** The claim of a response that carries the task lists of the columns
    the move touched. *)
Definition respondsWithColumns (db' : DB) (p : ObjectId) (body : ReorderBody)
    (r : Response) : Prop :=
  forall x,
    In x (column db' p (sourceStatus body))
    \/ In x (column db' p (destinationStatus body)) ->
    In x (responseTasks r).

(** Identity and column: what the renumbering writes keep. *)
Definition sameCard (a b : Task.t) : Prop :=
  sameIdentity a b /\ Task.status a = Task.status b.

(** ** Closed forms of the two branches

    Each is proved below to be what the branch computes on a collection
    with unique identifiers ([reorder_in_column], [reorder_across]). *)

(** The task as the bulk write of the column [l] leaves it: numbered by
    its position in [l] when it is there, untouched otherwise. *)
Definition renumbered (now : nat -> Z) (i : nat) (l : list Task.t)
    (x : Task.t) : Task.t :=
  match JsArray.findIndex (byId (Task._id x)) l with
  | Some k => setOrder (Z.of_nat (i + k)) (now (i + k)) x
  | None => x
  end.

(** The operations the in-column branch hands to [bulkWrite]. *)
Definition renumberOps (now : nat -> Z) (i : nat) (l : list Task.t)
  : list ((Task.t -> bool) * (Task.t -> Task.t)) :=
  JsArray.mapi_from
    (fun task index =>
       (byId (Task._id task), setOrder (Z.of_nat index) (now index)))
    i l.

(** The column as the in-column branch rearranges it: the task at [i]
    taken out and put back at [j]. *)
Definition movedColumn (col : list Task.t) (i j : nat) : list Task.t :=
  match nth_error col i with
  | Some x => snd (JsArray.splice j 0 [x] (firstn i col ++ skipn (i + 1) col))
  | None => col
  end.

(** The task as the three updates of the cross-column branch leave it. *)
Definition crossed (now : nat -> Z) (p : ObjectId) (body : ReorderBody)
    (task : Task.t) (x : Task.t) : Task.t :=
  let x1 :=
    if byId (taskId body) x
    then setStatusOrder (destinationStatus body) (destinationIndex body)
           (now 0) x
    else x in
  let x2 :=
    if inColumn p (sourceStatus body) x1
       && (Task.order task <? Task.order x1)%Z
    then incOrder (-1) (now 1) x1
    else x1 in
  if inColumn p (destinationStatus body) x2
     && (destinationIndex body <=? Task.order x2)%Z
     && negb (byId (taskId body) x2)
  then incOrder 1 (now 2) x2
  else x2.

(** The order of integers, as the sort decides it. *)
Definition leZ (a b : Z) : Prop := (a <=? b)%Z = true.

(** The order of a task of the source column once the gap is closed, and
    of a task of the destination column once space is made. *)
Definition closeGap (i z : Z) : Z := if (i <? z)%Z then (z + -1)%Z else z.
Definition openGap (j z : Z) : Z := if (j <=? z)%Z then (z + 1)%Z else z.

(** ** Sample boards

    Small databases on which the properties are exercised. *)

Module Sample.
Definition project : Project.t := Project.mk 7 "Board" "".

Definition task (i : ObjectId) (s : Status) (o : Z) : Task.t :=
  Task.mk i 7 "Task" "" s o 10 10.

(** The date Mongoose stores with the k-th update of a request. *)
Definition clock (k : nat) : Z := (100 + Z.of_nat k)%Z.

(** One column of three tasks. *)
Definition todo3 : DB :=
  mkDB [project] [task 1 todo 0; task 2 todo 1; task 3 todo 2].

(** Two tasks to do, two in progress, none done. *)
Definition board : DB :=
  mkDB [project]
    [task 1 todo 0; task 2 todo 1; task 3 inprogress 0; task 4 inprogress 1].

(** A column whose middle task was deleted. *)
Definition gappy : DB :=
  mkDB [project] [task 1 todo 0; task 3 todo 2].
End Sample.

(** The identifiers of a list of tasks without one of them, in sequence. *)
Definition idsWithout (tid : ObjectId) (l : list Task.t) : list ObjectId :=
  map Task._id (filter (fun x => negb (byId tid x)) l).

(** ** More queries *)

(** [Model.countDocuments(q)] *)
Definition countDocuments (D : Type) (q : D -> bool) (c : list D) : nat :=
  List.length (filter q c).

(** [Model.deleteMany(q)] *)
Definition deleteMany (D : Type) (q : D -> bool) (c : list D) : list D :=
  filter (fun x => negb (q x)) c.

(** [Model.findByIdAndDelete(id)]: the first document that matches is
    removed. *)
Fixpoint deleteOne (D : Type) (q : D -> bool) (c : list D) : list D :=
  match c with
  | [] => []
  | x :: r => if q x then r else x :: deleteOne q r
  end.

(** [arr.sort(cmp)]: the sort of JavaScript arrays is stable, and [a]
    stays before [b] when [cmp(a, b) <= 0]. *)
Definition arraySort (A : Type) (cmp : A -> A -> Z) (l : list A) : list A :=
  Mongo.sort (fun a b => (cmp a b <=? 0)%Z) l.

(** ** The projects router: listing the tasks, deleting a project *)

(** The position of a status among the status strings, as Mongo compares
    them: 'done' < 'inprogress' < 'todo'. *)
Definition statusRank (s : Status) : nat :=
  match s with
  | done => 0
  | inprogress => 1
  | todo => 2
  end.

(** [.sort({ status: 1, order: 1, createdAt: 1 })] *)
Definition byStatusOrderCreated (a b : Task.t) : bool :=
  if statusRank (Task.status a) <? statusRank (Task.status b) then true
  else if statusRank (Task.status b) <? statusRank (Task.status a) then false
  else if (Task.order a <? Task.order b)%Z then true
  else if (Task.order b <? Task.order a)%Z then false
  else (Task.createdAt a <=? Task.createdAt b)%Z.

(** What [GET /:id/tasks] sends: the tasks and their count, the three
    sample tasks of the demo branch, or an error body. *)
Inductive TasksResponse : Type :=
| TasksOk (data : list Task.t) (count : nat)
| TasksDemo
| TasksFailure (httpStatus : nat) (code : ErrorCode).

(** [router.get('/:id/tasks', ...)] *)
Definition getTasks (connected : bool) (db : DB) (projectId : ObjectId)
  : TasksResponse :=
  if negb connected then TasksDemo
  else
    match Mongo.findOne (projectById projectId) (projects db) with
    | None => TasksFailure 404 PROJECT_NOT_FOUND
    | Some _ =>
        let found :=
          Mongo.sort byStatusOrderCreated
            (Mongo.find (inProject projectId) (tasks db)) in
        TasksOk found (List.length found)
    end.

(** What [DELETE /:id] sends: the name of the deleted project and the
    number of deleted tasks (in the demo branch 'Sample Project' and 3),
    or an error body. *)
Inductive DeleteProjectResponse : Type :=
| ProjectDeleted (deletedProject : string) (deletedTasksCount : nat)
    (demo : bool)
| DeleteProjectFailure (httpStatus : nat) (code : ErrorCode).

(** [router.delete('/:id', ...)]: the tasks of the project are deleted
    first, then the project. *)
Definition deleteProject (connected : bool) (db : DB) (projectId : ObjectId)
  : DB * DeleteProjectResponse :=
  if negb connected then (db, ProjectDeleted "Sample Project" 3 true)
  else
    match Mongo.findOne (projectById projectId) (projects db) with
    | None => (db, DeleteProjectFailure 404 PROJECT_NOT_FOUND)
    | Some project =>
        let taskCount := countDocuments (inProject projectId) (tasks db) in
        let remaining := deleteMany (inProject projectId) (tasks db) in
        (mkDB (deleteOne (projectById projectId) (projects db)) remaining,
         ProjectDeleted (Project.name project) taskCount false)
    end.

(** ** The tasks router *)

(** What [DELETE /api/tasks/:id] sends. *)
Inductive DeleteTaskResponse : Type :=
| TaskDeleted (id : ObjectId) (title : string) (projectId : ObjectId)
| TaskDeletedDemo (id : ObjectId)
| DeleteTaskFailure (httpStatus : nat) (code : ErrorCode).

(** [router.delete('/:id', ...)] of the tasks router: the task is removed
    and no other task is written. *)
Definition deleteTask (connected : bool) (db : DB) (id : ObjectId)
  : DB * DeleteTaskResponse :=
  if negb connected then (db, TaskDeletedDemo id)
  else
    match Mongo.findOne (byId id) (tasks db) with
    | None => (db, DeleteTaskFailure 404 TASK_NOT_FOUND)
    | Some task =>
        (mkDB (projects db) (deleteOne (byId id) (tasks db)),
         TaskDeleted (Task._id task) (Task.title task) (Task.projectId task))
    end.

(** The body of [PUT /api/tasks/:id].  The handler hands all of it to
    [findByIdAndUpdate] ([...updateData]), so every key of it that the
    schema knows is stored.  Five keys are modelled, each optional: the
    four the validators of the route name (the title and the description
    after [trim()]) and [projectId], which no validator looks at and
    which is stored like the others.  A body with other keys of the
    schema ([_id], [createdAt]) or with a value Mongoose cannot cast is
    outside this record; an [updatedAt] of the body is overwritten like
    the one the handler adds. *)
Record UpdateBody : Type := mkUpdate {
  u_title : option string;
  u_description : option string;
  u_status : option Status;
  u_order : option Z;
  u_projectId : option ObjectId
}.

Definition validUpdate (body : UpdateBody) : bool :=
  match u_title body with
  | Some t => (1 <=? String.length t) && (String.length t <=? 200)
  | None => true
  end
  && match u_description body with
     | Some d => String.length d <=? 1000
     | None => true
     end
  && match u_order body with
     | Some o => (0 <=? o)%Z
     | None => true
     end.

Definition orElse (A : Type) (o : option A) (d : A) : A :=
  match o with
  | Some a => a
  | None => d
  end.

(** [{ ...updateData, updatedAt: Date.now() }] applied to a task, with
    [order] the order of [updateData] when the handler is done with it
    and [d] the date Mongoose's timestamps store with the update. *)
Definition applyUpdate (body : UpdateBody) (order : option Z) (d : Z)
    (x : Task.t) : Task.t :=
  Task.mk (Task._id x)
    (orElse (u_projectId body) (Task.projectId x))
    (orElse (u_title body) (Task.title x))
    (orElse (u_description body) (Task.description x))
    (orElse (u_status body) (Task.status x))
    (orElse order (Task.order x))
    (Task.createdAt x) d.

(** What [PUT /api/tasks/:id] sends. *)
Inductive UpdateResponse : Type :=
| TaskUpdated (data : option Task.t)
| TaskUpdatedDemo
| UpdateFailure (httpStatus : nat) (code : ErrorCode).

(** The order a task gets when it is put at the end of a column:
    [lastTask ? lastTask.order + 1 : 0]. *)
Definition nextOrderIn (c : list Task.t) (p : ObjectId) (s : Status) : Z :=
  match Mongo.findOne (fun _ => true)
          (sortByOrderDesc (Mongo.find (inColumn p s) c)) with
  | Some l => (Task.order l + 1)%Z
  | None => 0%Z
  end.

(** [router.put('/:id', ...)] of the tasks router.  A change of status
    overwrites the order of the body with the next order of the new
    column in the project the task is stored under, also when the body
    names another project.  [now] is the date Mongoose's timestamps
    store with the update. *)
Definition updateTask (connected : bool) (now : Z) (db : DB) (id : ObjectId)
    (body : UpdateBody) : DB * UpdateResponse :=
  if negb (validUpdate body) then (db, UpdateFailure 400 VALIDATION_ERROR)
  else if negb connected then (db, TaskUpdatedDemo)
  else
    match Mongo.findOne (byId id) (tasks db) with
    | None => (db, UpdateFailure 404 TASK_NOT_FOUND)
    | Some currentTask =>
        let order :=
          match u_status body with
          | Some s =>
              if negb (Status_eqb s (Task.status currentTask))
              then Some (nextOrderIn (tasks db) (Task.projectId currentTask) s)
              else u_order body
          | None => u_order body
          end in
        let c :=
          Mongo.updateOne (byId id) (applyUpdate body order now) (tasks db) in
        (mkDB (projects db) c, TaskUpdated (Mongo.findOne (byId id) c))
    end.

(** ** The board page: what a column shows, and the task callbacks *)

(** [a.order || 0] *)
Definition orZero (o : Z) : Z := if (o =? 0)%Z then 0%Z else o.

(** [getTasksByStatus(status)] over the [tasks] of the page. *)
Definition getTasksByStatus (tasks : list Task.t) (status : Status)
  : list Task.t :=
  arraySort
    (fun a b => (orZero (Task.order a) - orZero (Task.order b))%Z)
    (filter (fun task => Status_eqb (Task.status task) status) tasks).

(** [handleTaskUpdate], [handleTaskCreate] and [handleTaskDelete], each as
    the function it hands to [setTasks]. *)
Definition handleTaskUpdate (updatedTask : Task.t) (prevTasks : list Task.t)
  : list Task.t :=
  map (fun task =>
         if Task._id task =? Task._id updatedTask then updatedTask else task)
    prevTasks.

Definition handleTaskCreate (newTask : Task.t) (prevTasks : list Task.t)
  : list Task.t :=
  prevTasks ++ [newTask].

Definition handleTaskDelete (taskId : ObjectId) (prevTasks : list Task.t)
  : list Task.t :=
  filter (fun task => negb (Task._id task =? taskId)) prevTasks.

(** A task without its texts and its modification date: what decides
    where it is shown. *)
Definition bare (x : Task.t) : Task.t :=
  Task.mk (Task._id x) (Task.projectId x) EmptyString EmptyString
    (Task.status x) (Task.order x) (Task.createdAt x) 0.

(** What an update of one task keeps of every task: identifier and
    creation date, and everything of the tasks it does not name. *)
Definition keptByUpdate (id : ObjectId) (a b : Task.t) : Prop :=
  Task._id b = Task._id a /\
  Task.createdAt b = Task.createdAt a /\
  (Task._id a <> id -> b = a).

(** The page is in step with the database when its tasks are the stored
    tasks of the project, in some arrangement. *)
Definition inSync (page : list Task.t) (db : DB) (p : ObjectId) : Prop :=
  Permutation page (Mongo.find (inProject p) (tasks db)).

(** ** Writes keep a relation between a document and its updated self *)

Section Kept.
Variable D : Type.
Variable R : D -> D -> Prop.
Hypothesis R_refl : forall x, R x x.
Hypothesis R_trans : forall x y z, R x y -> R y z -> R x z.

Lemma kept_refl (c : list D) : Forall2 R c c.
Proof. induction c; constructor; auto. Qed.

Lemma kept_trans (a b c : list D) :
  Forall2 R a b -> Forall2 R b c -> Forall2 R a c.
Proof.
  intros Hab; revert c.
  induction Hab as [|x y a b Hxy _ IH]; intros c Hbc.
  - inversion Hbc; constructor.
  - inversion Hbc; subst. constructor; eauto.
Qed.

Lemma updateOne_kept (q : D -> bool) (u : D -> D) (c : list D) :
  (forall x, R x (u x)) -> Forall2 R c (Mongo.updateOne q u c).
Proof.
  intros Hu. induction c as [|x r IH]; simpl.
  - constructor.
  - destruct (q x); constructor; auto using kept_refl.
Qed.

Lemma updateMany_kept (q : D -> bool) (u : D -> D) (c : list D) :
  (forall x, R x (u x)) -> Forall2 R c (Mongo.updateMany q u c).
Proof.
  intros Hu. unfold Mongo.updateMany.
  induction c as [|x r IH]; simpl; constructor; auto.
  destruct (q x); auto.
Qed.

Lemma bulkWrite_kept (ops : list ((D -> bool) * (D -> D))) (c : list D) :
  Forall (fun op => forall x, R x (snd op x)) ops ->
  Forall2 R c (Mongo.bulkWrite ops c).
Proof.
  unfold Mongo.bulkWrite. intros Hops; revert c.
  induction Hops as [|op ops Hop _ IH]; intros c; simpl.
  - apply kept_refl.
  - eapply kept_trans; [apply updateOne_kept, Hop | apply IH].
Qed.
End Kept.

Lemma mapi_from_Forall (A B : Type) (P : B -> Prop) (f : A -> nat -> B)
    (l : list A) (i : nat) :
  (forall x k, P (f x k)) -> Forall P (JsArray.mapi_from f i l).
Proof.
  intros Hf; revert i. induction l; intros i; simpl; constructor; auto.
Qed.

Lemma sameIdentity_refl (x : Task.t) : sameIdentity x x.
Proof. repeat split. Qed.

Lemma sameIdentity_trans (x y z : Task.t) :
  sameIdentity x y -> sameIdentity y z -> sameIdentity x z.
Proof.
  unfold sameIdentity. intros (?&?&?&?&?) (?&?&?&?&?).
  repeat split; congruence.
Qed.

Local Ltac identity_kept :=
  first
    [ apply updateOne_kept; [exact sameIdentity_refl |]
    | apply updateMany_kept; [exact sameIdentity_refl |] ];
  intros ?; repeat split.

Lemma reorderAcrossColumns_identity now p body task c :
  Forall2 sameIdentity c (reorderAcrossColumns now p body task c).
Proof.
  unfold reorderAcrossColumns; cbv zeta.
  eapply kept_trans; [exact sameIdentity_trans | | identity_kept].
  eapply kept_trans; [exact sameIdentity_trans | | identity_kept].
  identity_kept.
Qed.

Lemma reorderInColumn_identity now body col c c' :
  reorderInColumn now body col c = Some c' -> Forall2 sameIdentity c c'.
Proof.
  unfold reorderInColumn.
  destruct (JsArray.findIndex _ col) as [i|]; [|discriminate].
  unfold JsArray.splice.
  destruct (firstn 1 (skipn i col)) as [|m ?]; [discriminate|].
  intros [= <-].
  apply bulkWrite_kept;
    [exact sameIdentity_refl | exact sameIdentity_trans |].
  apply mapi_from_Forall. intros x k y; repeat split.
Qed.

(** Every answer of the reorder route leaves the projects alone and keeps
    each stored task where it is, with its identity. *)
Lemma reorder_identity now db p body :
  projects (fst (reorder now db p body)) = projects db /\
  Forall2 sameIdentity (tasks db) (tasks (fst (reorder now db p body))).
Proof.
  unfold reorder.
  destruct (destinationIndex body <? 0)%Z;
    [split; [reflexivity | apply kept_refl, sameIdentity_refl]|].
  destruct (Mongo.findOne _ (projects db));
    [|split; [reflexivity | apply kept_refl, sameIdentity_refl]].
  destruct (Mongo.findOne _ (tasks db)) as [task|];
    [|split; [reflexivity | apply kept_refl, sameIdentity_refl]].
  destruct (Status_eqb _ _).
  - destruct (reorderInColumn _ _ _ _) as [c'|] eqn:E; simpl.
    + split; [reflexivity | eapply reorderInColumn_identity; eauto].
    + split; [reflexivity | apply kept_refl, sameIdentity_refl].
  - simpl. split; [reflexivity | apply reorderAcrossColumns_identity].
Qed.

(** ** The sort of a query *)


Section SortFacts.
Variable D : Type.
Variable leb : D -> D -> bool.

Lemma insert_sorted_perm (x : D) (l : list D) :
  Permutation (Mongo.insert_sorted leb x l) (x :: l).
Proof.
  induction l as [|y r IH]; simpl.
  - apply Permutation_refl.
  - destruct (leb x y).
    + apply Permutation_refl.
    + eapply Permutation_trans; [apply perm_skip, IH | apply perm_swap].
Qed.

Lemma sort_perm (l : list D) : Permutation (Mongo.sort leb l) l.
Proof.
  induction l as [|x r IH]; simpl.
  - constructor.
  - eapply Permutation_trans; [apply insert_sorted_perm|].
    apply perm_skip, IH.
Qed.

Lemma sort_length (l : list D) :
  List.length (Mongo.sort leb l) = List.length l.
Proof. apply Permutation_length, sort_perm. Qed.

Lemma sort_In (x : D) (l : list D) : In x (Mongo.sort leb l) <-> In x l.
Proof.
  split; apply Permutation_in;
    [apply sort_perm | apply Permutation_sym, sort_perm].
Qed.

Hypothesis leb_total : forall a b, leb a b = false -> leb b a = true.
Hypothesis leb_trans :
  forall a b c, leb a b = true -> leb b c = true -> leb a c = true.

Let le (a b : D) : Prop := leb a b = true.

Lemma insert_sorted_sorted (x : D) (l : list D) :
  StronglySorted le l -> StronglySorted le (Mongo.insert_sorted leb x l).
Proof.
  induction 1 as [|y r Hr IH Hy]; simpl.
  - repeat constructor.
  - destruct (leb x y) eqn:E.
    + constructor; [constructor; assumption|].
      constructor; [exact E|].
      rewrite Forall_forall in *. intros z Hz.
      eapply leb_trans; [exact E | apply Hy, Hz].
    + constructor; [exact IH|].
      rewrite Forall_forall in *. intros z Hz.
      apply (Permutation_in _ (insert_sorted_perm x r)) in Hz.
      destruct Hz as [<-|Hz]; [apply leb_total, E | apply Hy, Hz].
Qed.

Lemma sort_sorted (l : list D) : StronglySorted le (Mongo.sort leb l).
Proof.
  induction l; simpl; [constructor | apply insert_sorted_sorted; assumption].
Qed.

(** The first document of a sorted query is below every document. *)
Lemma sort_head_least (m : D) (r l : list D) :
  Mongo.sort leb l = m :: r ->
  In m l /\ forall x, In x l -> x = m \/ leb m x = true.
Proof.
  intros E. split.
  - apply sort_In. rewrite E. left; reflexivity.
  - intros x Hx. apply sort_In in Hx. rewrite E in Hx.
    destruct Hx as [->|Hx]; [left; reflexivity | right].
    pose proof (sort_sorted l) as S. rewrite E in S.
    inversion S as [|? ? _ Hall]; subst.
    rewrite Forall_forall in Hall. apply Hall, Hx.
Qed.
End SortFacts.

(** Sorting commutes with a map that keeps the comparison. *)
Lemma sort_map (D E : Type) (leb : D -> D -> bool) (leb' : E -> E -> bool)
    (f : D -> E) (l : list D) :
  (forall a b, leb' (f a) (f b) = leb a b) ->
  map f (Mongo.sort leb l) = Mongo.sort leb' (map f l).
Proof.
  intros Hf.
  assert (Hins : forall x r,
             map f (Mongo.insert_sorted leb x r)
             = Mongo.insert_sorted leb' (f x) (map f r)).
  { intros x r. induction r as [|y r IH]; simpl; [reflexivity|].
    rewrite Hf. destruct (leb x y); simpl; [reflexivity | now rewrite IH]. }
  induction l as [|x r IH]; simpl; [reflexivity|].
  now rewrite Hins, IH.
Qed.

Lemma order_asc_total a b : order_asc a b = false -> order_asc b a = true.
Proof. unfold order_asc. rewrite Z.leb_gt, Z.leb_le. lia. Qed.

Lemma order_asc_trans a b c :
  order_asc a b = true -> order_asc b c = true -> order_asc a c = true.
Proof. unfold order_asc. rewrite !Z.leb_le. lia. Qed.

Lemma order_desc_total a b : order_desc a b = false -> order_desc b a = true.
Proof. unfold order_desc. rewrite Z.leb_gt, Z.leb_le. lia. Qed.

Lemma order_desc_trans a b c :
  order_desc a b = true -> order_desc b c = true -> order_desc a c = true.
Proof. unfold order_desc. rewrite !Z.leb_le. lia. Qed.

(** ** Facts about columns *)

Lemma column_perm db p s :
  Permutation (column db p s) (Mongo.find (inColumn p s) (tasks db)).
Proof. apply sort_perm. Qed.

Lemma column_In db p s x :
  In x (column db p s) <-> In x (tasks db) /\ inColumn p s x = true.
Proof.
  unfold column, sortByOrder. rewrite sort_In.
  unfold Mongo.find. apply filter_In.
Qed.

Lemma Status_eqb_eq a b : Status_eqb a b = true <-> a = b.
Proof. destruct a, b; simpl; split; congruence. Qed.

Lemma Status_eqb_refl a : Status_eqb a a = true.
Proof. now apply Status_eqb_eq. Qed.

Lemma inColumn_spec p s x :
  inColumn p s x = true <-> Task.projectId x = p /\ Task.status x = s.
Proof.
  unfold inColumn, inProject.
  rewrite andb_true_iff, Nat.eqb_eq, Status_eqb_eq. reflexivity.
Qed.

Lemma byId_spec i x : byId i x = true <-> Task._id x = i.
Proof. unfold byId. apply Nat.eqb_eq. Qed.

(** The string comparison of the in-column branch finds the task the
    request names when the request spells its identifier in lower case,
    and no task otherwise. *)
Lemma sameIdString_lower body x :
  taskIdLowerCase body = true -> sameIdString body x = byId (taskId body) x.
Proof. unfold sameIdString. intros ->. apply andb_true_r. Qed.

Lemma sameIdString_other body x :
  taskIdLowerCase body = false -> sameIdString body x = false.
Proof. unfold sameIdString. intros ->. apply andb_false_r. Qed.

Lemma sameIdString_byId body x :
  sameIdString body x = true -> byId (taskId body) x = true.
Proof. unfold sameIdString. intros H. apply andb_true_iff in H. tauto. Qed.

Lemma findIndex_ext (A : Type) (q q' : A -> bool) (l : list A) :
  (forall x, q x = q' x) -> JsArray.findIndex q l = JsArray.findIndex q' l.
Proof.
  intros H. induction l as [|x l IH]; simpl; [reflexivity|].
  now rewrite H, IH.
Qed.

Lemma findIndex_sameIdString body l :
  taskIdLowerCase body = true ->
  JsArray.findIndex (sameIdString body) l
  = JsArray.findIndex (byId (taskId body)) l.
Proof. intros H. apply findIndex_ext. intros x. now apply sameIdString_lower. Qed.

Lemma upto_nth (n k : nat) :
  k < n -> nth_error (upto n) k = Some (Z.of_nat k).
Proof.
  intros Hk. unfold upto.
  rewrite nth_error_map, nth_error_nth' with (d := 0) by (rewrite length_seq; lia).
  rewrite seq_nth by lia. reflexivity.
Qed.

(** In a dense column the k-th task has order k. *)
Lemma dense_nth db p s k x :
  dense db p s -> nth_error (column db p s) k = Some x ->
  Task.order x = Z.of_nat k.
Proof.
  unfold dense, orders. intros Hd Hk.
  assert (Hlt : k < List.length (column db p s))
    by (apply nth_error_Some; congruence).
  pose proof (upto_nth Hlt) as Hu. rewrite <- Hd in Hu.
  rewrite nth_error_map, Hk in Hu. simpl in Hu. congruence.
Qed.

Lemma denseb_spec db p s : denseb db p s = true <-> dense db p s.
Proof.
  unfold denseb, dense.
  destruct (list_eq_dec _ _ _); split; congruence.
Qed.

(** Unique identifiers name one stored task. *)
Lemma uniqueIds_inj c x y :
  uniqueIds c -> In x c -> In y c -> Task._id x = Task._id y -> x = y.
Proof.
  unfold uniqueIds. induction c as [|z r IH]; simpl; [tauto|].
  intros Hn [->|Hx] [->|Hy] E; auto.
  - inversion Hn as [|? ? Hnin _]; subst. exfalso; apply Hnin.
    rewrite E. now apply in_map.
  - inversion Hn as [|? ? Hnin _]; subst. exfalso; apply Hnin.
    rewrite <- E. now apply in_map.
  - inversion Hn; subst. auto.
Qed.

(** ** Failures write nothing *)

Lemma reorder_failure_no_write now db p body st code :
  snd (reorder now db p body) = Failure st code ->
  fst (reorder now db p body) = db.
Proof.
  unfold reorder.
  destruct (destinationIndex body <? 0)%Z; [reflexivity|].
  destruct (Mongo.findOne _ (projects db)); [|reflexivity].
  destruct (Mongo.findOne _ (tasks db)); [|reflexivity].
  destruct (if Status_eqb _ _ then _ else _); [discriminate | reflexivity].
Qed.

Lemma findIndex_None (A : Type) (q : A -> bool) (l : list A) :
  JsArray.findIndex q l = None <-> forall x, In x l -> q x = false.
Proof.
  induction l as [|y r IH]; simpl.
  - split; [intros _ x [] | reflexivity].
  - destruct (q y) eqn:E.
    + split; [discriminate|]. intros H. specialize (H y (or_introl eq_refl)).
      congruence.
    + destruct (JsArray.findIndex q r).
      * split; [discriminate|]. intros H.
        assert (Some n = None) by (apply IH; intros; apply H; now right).
        discriminate.
      * split; [|reflexivity]. intros _ x [<-|Hx]; [exact E|].
        now apply IH.
Qed.

Lemma findIndex_Some (A : Type) (q : A -> bool) (l : list A) (i : nat) :
  JsArray.findIndex q l = Some i ->
  exists x, nth_error l i = Some x /\ q x = true.
Proof.
  revert i. induction l as [|y r IH]; simpl; [discriminate|].
  intros i. destruct (q y) eqn:E.
  - intros [= <-]. exists y. split; [reflexivity | exact E].
  - destruct (JsArray.findIndex q r) as [j|]; [|discriminate].
    intros [= <-]. simpl. apply IH. reflexivity.
Qed.

Lemma find_some_In (A : Type) (q : A -> bool) (l : list A) (x : A) :
  Mongo.findOne q l = Some x -> In x l /\ q x = true.
Proof. apply find_some. Qed.

(** The in-column branch does check the caller's belief: when the task is
    not in the column named by the request, the handler throws before any
    write and answers 500. *)
Lemma reorder_in_column_stale now db p body task :
  uniqueIds (tasks db) ->
  (0 <= destinationIndex body)%Z ->
  Mongo.findOne (projectById p) (projects db) <> None ->
  Mongo.findOne (fun x => byId (taskId body) x && inProject p x) (tasks db)
  = Some task ->
  Task.status task <> sourceStatus body ->
  destinationStatus body = sourceStatus body ->
  reorder now db p body = (db, Failure 500 REORDER_ERROR).
Proof.
  intros Hu Hi Hp Ht Hs Hd. unfold reorder.
  apply Z.ltb_ge in Hi. rewrite Hi.
  destruct (Mongo.findOne (projectById p) (projects db)); [|congruence].
  rewrite Ht, Hd, Status_eqb_refl.
  unfold reorderInColumn.
  replace (JsArray.findIndex _ _) with (@None nat); [reflexivity|].
  symmetry. apply findIndex_None. intros x Hx.
  destruct (sameIdString body x) eqn:E; [exfalso | reflexivity].
  apply sameIdString_byId in E.
  apply (column_In db p (sourceStatus body)) in Hx. destruct Hx as [Hx Hc].
  apply find_some_In in Ht. destruct Ht as [Ht Hq].
  apply andb_true_iff in Hq. destruct Hq as [Hq _].
  apply byId_spec in E, Hq.
  assert (x = task) by (eapply uniqueIds_inj; eauto; congruence).
  subst x. apply inColumn_spec in Hc. tauto.
Qed.

(** ** The page: rollback and the same-position guard *)

(** A drop on the place the drag started from does nothing but clear the
    drag flag: no state is set and no request is sent. *)
Lemma handleDragEnd_same_position tasks s i tid api :
  Board.handleDragEnd tasks
    (Board.mkDrop (Some (Board.mkLoc s i)) (Board.mkLoc s i) tid) api
  = [Board.SetDragInProgress false].
Proof.
  unfold Board.handleDragEnd; simpl.
  now rewrite Status_eqb_refl, Nat.eqb_refl.
Qed.

(** C6: when the pending move of the page fails (the reorder call or the
    reload that follows it rejects), the tasks of the page are exactly the
    snapshot taken before the optimistic update: the last state rendered
    is the snapshot, whatever was rendered optimistically before it. *)
Theorem C6_rollback_restores_snapshot
    (tasks : list Task.t) (result : Board.DropResult) (api : Board.ApiRun) :
  moveFailed api = true ->
  Board.tasksAfter tasks (Board.handleDragEnd tasks result api) = tasks /\
  last (Board.rendered (Board.handleDragEnd tasks result api)) tasks = tasks.
Proof.
  intros Hfail. unfold Board.handleDragEnd.
  destruct (Board.destination result) as [dest|]; [|split; reflexivity].
  destruct (_ && _); [split; reflexivity|].
  destruct (find _ tasks) as [task|]; [|split; reflexivity].
  destruct api; try discriminate; split; reflexivity.
Qed.

(** The rollback scenario: snapshot [T1, T2, T3], optimistic rendering
    [T2, T3, T1], failed call, snapshot again. *)
Lemma C6_rollback_witness :
  moveFailed Board.ReorderRejects = true /\
  Board.rendered
    (Board.handleDragEnd (tasks Sample.todo3)
       (Board.mkDrop (Some (Board.mkLoc todo 2)) (Board.mkLoc todo 0) 1)
       Board.ReorderRejects)
  = [[Sample.task 2 todo 1; Sample.task 3 todo 2; Sample.task 1 todo 0];
     tasks Sample.todo3] /\
  Board.tasksAfter (tasks Sample.todo3)
    (Board.handleDragEnd (tasks Sample.todo3)
       (Board.mkDrop (Some (Board.mkLoc todo 2)) (Board.mkLoc todo 0) 1)
       Board.ReorderRejects)
  = tasks Sample.todo3.
Proof.
  split; [reflexivity|]. split; [reflexivity|].
  apply (C6_rollback_restores_snapshot (tasks Sample.todo3)
           (Board.mkDrop (Some (Board.mkLoc todo 2)) (Board.mkLoc todo 0) 1)
           Board.ReorderRejects).
  reflexivity.
Defined.

(** ** Conservation *)

Lemma Forall2_length_filter (A : Type) (R : A -> A -> Prop) (f : A -> bool)
    (a b : list A) :
  (forall x y, R x y -> f x = f y) -> Forall2 R a b ->
  List.length (filter f a) = List.length (filter f b).
Proof.
  intros Hf. induction 1 as [|x y a b Hxy _ IH]; simpl; [reflexivity|].
  rewrite (Hf _ _ Hxy). destruct (f y); simpl; congruence.
Qed.

(** C10, as the code has it: a move, whatever its outcome, leaves the
    projects alone and keeps every stored task in place with its
    identifier, project, title, description and creation date; it writes
    at most the column, the order and the modification date.  No task is
    created or destroyed, so the number of tasks of the project is
    unchanged. *)
Theorem C10_move_conserves_tasks
    (now : nat -> Z) (db : DB) (p : ObjectId) (body : ReorderBody) :
  let db' := fst (reorder now db p body) in
  projects db' = projects db /\
  Forall2 sameIdentity (tasks db) (tasks db') /\
  List.length (tasks db') = List.length (tasks db) /\
  List.length (Mongo.find (inProject p) (tasks db'))
  = List.length (Mongo.find (inProject p) (tasks db)).
Proof.
  intros db'. destruct (reorder_identity now db p body) as [Hp Ht].
  fold db' in Hp, Ht. repeat split; auto.
  - symmetry. eapply Forall2_length; eauto.
  - symmetry. unfold Mongo.find.
    eapply Forall2_length_filter; [|exact Ht].
    intros x y (_ & E & _). unfold inProject. now rewrite E.
Qed.

(** C10, as stated, fails on the modification date: the in-column move of
    the scenario rewrites [updatedAt] of the tasks of the column. *)
Lemma C10_move_writes_updatedAt :
  ~ Forall2 sameButColumnAndOrder
      (tasks Sample.todo3)
      (tasks (fst (reorder Sample.clock Sample.todo3 7
                     (mkReorder 1 todo todo 2 true)))).
Proof.
  intros H. inversion H as [|x y a b [_ Hu] _]; subst.
  vm_compute in Hu. discriminate.
Qed.

(** ** The response of a move *)

(** C4, as stated, fails: after task 1 goes from "todo" to the head of
    "inprogress", the response carries one task while the two columns hold
    four. *)
Lemma C4_response_is_one_task :
  let body := mkReorder 1 todo inprogress 0 true in
  let r := reorder Sample.clock Sample.board 7 body in
  succeeded (snd r) = true /\
  ~ respondsWithColumns (fst r) 7 body (snd r).
Proof.
  split; [reflexivity|]. intros H.
  specialize (H (Task.mk 2 7 "Task" "" todo 0 10 101)).
  vm_compute in H.
  destruct H as [E|[]]; [left; left; reflexivity | discriminate E].
Qed.

Lemma sameCard_refl x : sameCard x x.
Proof. split; [apply sameIdentity_refl | reflexivity]. Qed.

Lemma sameCard_trans x y z : sameCard x y -> sameCard y z -> sameCard x z.
Proof.
  intros [H1 E1] [H2 E2]. split; [eapply sameIdentity_trans; eauto | congruence].
Qed.

Lemma findOne_kept (D : Type) (R : D -> D -> Prop) (q : D -> bool)
    (c c' : list D) (x : D) :
  (forall a b, R a b -> q a = q b) -> Forall2 R c c' ->
  Mongo.findOne q c = Some x ->
  exists y, Mongo.findOne q c' = Some y /\ R x y.
Proof.
  intros Hq. unfold Mongo.findOne.
  induction 1 as [|a b c c' Hab _ IH]; simpl; [discriminate|].
  rewrite <- (Hq _ _ Hab). destruct (q a).
  - intros [= <-]. eauto.
  - exact IH.
Qed.

Lemma findOne_updateOne (D : Type) (q : D -> bool) (u : D -> D)
    (c : list D) (x : D) :
  Mongo.findOne q c = Some x -> q (u x) = true ->
  Mongo.findOne q (Mongo.updateOne q u c) = Some (u x).
Proof.
  unfold Mongo.findOne. induction c as [|a c IH]; simpl; [discriminate|].
  destruct (q a) eqn:E.
  - intros [= <-] Hu. simpl. now rewrite Hu.
  - intros Hx Hu. simpl. rewrite E. auto.
Qed.

Lemma findOne_weaken (D : Type) (q q' : D -> bool) (c : list D) (x : D) :
  Mongo.findOne (fun a => q a && q' a) c = Some x ->
  exists y, Mongo.findOne q c = Some y.
Proof.
  unfold Mongo.findOne. induction c as [|a c IH]; simpl; [discriminate|].
  destruct (q a); simpl; eauto.
Qed.

Lemma byId_sameCard i a b : sameCard a b -> byId i a = byId i b.
Proof. intros [(E & _) _]. unfold byId. now rewrite E. Qed.

(** C4, as the code has it: the response of a successful move carries one
    task, the moved one as it is read back after the writes, in the
    column the request named as destination; the task lists of the
    columns are not part of it. *)
Theorem C4_response_is_moved_task
    (now : nat -> Z) (db db' : DB) (p : ObjectId) (body : ReorderBody)
    (r : Response) :
  uniqueIds (tasks db) ->
  reorder now db p body = (db', r) ->
  succeeded r = true ->
  exists t,
    r = Ok200 (Some t) /\
    responseTasks r = [t] /\
    Mongo.findOne (byId (taskId body)) (tasks db') = Some t /\
    In t (tasks db') /\
    Task._id t = taskId body /\
    Task.status t = destinationStatus body.
Proof.
  intros Hu. unfold reorder.
  destruct (destinationIndex body <? 0)%Z;
    [intros [= <- <-]; discriminate|].
  destruct (Mongo.findOne _ (projects db));
    [|intros [= <- <-]; discriminate].
  destruct (Mongo.findOne _ (tasks db)) as [task|] eqn:Et;
    [|intros [= <- <-]; discriminate].
  destruct (findOne_weaken _ _ _ Et) as [x Hx].
  assert (Hfin : forall c,
             (exists y, Mongo.findOne (byId (taskId body)) c = Some y
                        /\ Task.status y = destinationStatus body) ->
             (mkDB (projects db) c,
              Ok200 (Mongo.findOne (byId (taskId body)) c)) = (db', r) ->
             succeeded r = true ->
             exists t,
               r = Ok200 (Some t) /\ responseTasks r = [t] /\
               Mongo.findOne (byId (taskId body)) (tasks db') = Some t /\
               In t (tasks db') /\ Task._id t = taskId body /\
               Task.status t = destinationStatus body).
  { intros c (y & Hy & Hs) [= <- <-] _. simpl. rewrite Hy.
    exists y. repeat split; auto.
    - apply find_some_In in Hy. tauto.
    - apply find_some_In in Hy. now apply byId_spec. }
  destruct (Status_eqb _ _) eqn:Es.
  - destruct (reorderInColumn _ _ _ _) as [c|] eqn:Ec;
      [|intros [= <- <-]; discriminate].
    apply Hfin.
    assert (Hk : Forall2 sameCard (tasks db) c).
    { revert Ec. unfold reorderInColumn.
      destruct (JsArray.findIndex _ _) as [i|]; [|discriminate].
      unfold JsArray.splice.
      destruct (firstn 1 (skipn i _)) as [|m ?]; [discriminate|].
      intros [= <-].
      apply bulkWrite_kept; [exact sameCard_refl | exact sameCard_trans |].
      apply mapi_from_Forall. intros a k b; repeat split. }
    destruct (findOne_kept (byId (taskId body)) (byId_sameCard _) Hk Hx)
      as (y & Hy & Hxy).
    exists y. split; [exact Hy|].
    destruct Hxy as [_ <-].
    revert Ec. unfold reorderInColumn.
    destruct (JsArray.findIndex _ _) as [i|] eqn:Ei; [|discriminate].
    intros _. apply findIndex_Some in Ei. destruct Ei as (z & Hz & Hq).
    apply nth_error_In in Hz.
    apply (column_In db p (sourceStatus body)) in Hz. destruct Hz as [Hz Hc].
    apply find_some_In in Hx. destruct Hx as [Hx Hq'].
    apply sameIdString_byId in Hq.
    apply byId_spec in Hq, Hq'.
    assert (z = x) by (eapply uniqueIds_inj; eauto; congruence). subst z.
    apply inColumn_spec in Hc. apply Status_eqb_eq in Es.
    destruct Hc; congruence.
  - apply Hfin. unfold reorderAcrossColumns; cbv zeta.
    set (u := setStatusOrder _ _ _).
    assert (H1 : Mongo.findOne (byId (taskId body))
                   (Mongo.updateOne (byId (taskId body)) u (tasks db))
                 = Some (u x)).
    { apply findOne_updateOne; [exact Hx|].
      apply find_some_In in Hx. exact (proj2 Hx). }
    match goal with
    | |- exists y, Mongo.findOne _ (Mongo.updateMany ?q3 ?u3
                                      (Mongo.updateMany ?q2 ?u2 ?c1)) = _ /\ _ =>
        assert (Hk : Forall2 sameCard c1
                       (Mongo.updateMany q3 u3 (Mongo.updateMany q2 u2 c1)))
    end.
    { eapply kept_trans; [exact sameCard_trans | |];
        (apply updateMany_kept; [exact sameCard_refl |]);
        intros a; repeat split. }
    destruct (findOne_kept (byId (taskId body)) (byId_sameCard _) Hk H1)
      as (y & Hy & Hxy).
    exists y. split; [exact Hy|]. destruct Hxy as [_ <-]. reflexivity.
Qed.

Lemma C4_response_is_moved_task_witness :
  exists t,
    snd (reorder Sample.clock Sample.board 7 (mkReorder 1 todo inprogress 0 true))
    = Ok200 (Some t) /\
    Task._id t = 1 /\ Task.status t = inprogress.
Proof.
  destruct (@C4_response_is_moved_task Sample.clock Sample.board
              (fst (reorder Sample.clock Sample.board 7
                      (mkReorder 1 todo inprogress 0 true)))
              7 (mkReorder 1 todo inprogress 0 true)
              (snd (reorder Sample.clock Sample.board 7
                      (mkReorder 1 todo inprogress 0 true))))
    as (t & E & _ & _ & _ & Hi & Hs).
  - unfold uniqueIds. simpl.
    repeat constructor; simpl; intuition discriminate.
  - reflexivity.
  - reflexivity.
  - exists t. repeat split; assumption.
Defined.

(** ** The order of a new task *)

(** Without a database connection nothing is stored and the answer is a
    demo task of order 0, whatever the column holds. *)
Lemma createTask_demo freshId mockId now db p body :
  validTask body = true ->
  exists t,
    createTask false freshId mockId now db p body = (db, Created201 t true) /\
    Task.order t = 0%Z.
Proof.
  intros Hv. unfold createTask. rewrite Hv. simpl.
  eexists. split; reflexivity.
Qed.

(** C9, as stated, fails when the column has a gap: with orders 0 and 2
    in "todo", the task created there gets order 3, not the count 2. *)
Lemma C9_new_order_is_not_the_count :
  let r := createTask true 9 99 50 Sample.gappy 7 (mkCreate "New" "" todo) in
  List.length (column Sample.gappy 7 todo) = 2 /\
  orders (responseTasks (snd r)) = [3%Z] /\
  orders (column (fst r) 7 todo) = [0; 2; 3]%Z.
Proof. repeat split; reflexivity. Qed.

Lemma column_nil db p s :
  column db p s = [] <-> Mongo.find (inColumn p s) (tasks db) = [].
Proof.
  split; intros H; apply length_zero_iff_nil.
  - rewrite <- (Permutation_length (column_perm db p s)), H. reflexivity.
  - rewrite (Permutation_length (column_perm db p s)), H. reflexivity.
Qed.

Lemma dense_bound db p s x :
  dense db p s -> In x (column db p s) ->
  (0 <= Task.order x < Z.of_nat (List.length (column db p s)))%Z.
Proof.
  intros Hd Hx. apply In_nth_error in Hx. destruct Hx as [k Hk].
  rewrite (@dense_nth _ _ _ _ _ Hd Hk).
  assert (k < List.length (column db p s))
    by (apply nth_error_Some; congruence).
  lia.
Qed.

(** C9, as the code has it: with the database connected, a valid request
    for an existing project appends one task whose order is 0 in an empty
    column and otherwise one more than the largest order of the column;
    that is the count of the column's tasks when the column is dense. *)
Theorem C9_new_task_order
    (freshId mockId : ObjectId) (now : Z) (db : DB) (p : ObjectId)
    (body : CreateBody) :
  validTask body = true ->
  Mongo.findOne (projectById p) (projects db) <> None ->
  let col := column db p (newStatus body) in
  exists t,
    createTask true freshId mockId now db p body
    = (mkDB (projects db) (tasks db ++ [t]), Created201 t false) /\
    Task.projectId t = p /\
    Task.status t = newStatus body /\
    (col = [] -> Task.order t = 0%Z) /\
    (col <> [] ->
     exists m, In m col /\ Task.order t = (Task.order m + 1)%Z /\
               forall x, In x col -> (Task.order x <= Task.order m)%Z) /\
    (dense db p (newStatus body) ->
     Task.order t = Z.of_nat (List.length col)).
Proof.
  intros Hv Hp col. unfold createTask. rewrite Hv. simpl.
  destruct (Mongo.findOne (projectById p) (projects db)); [|congruence].
  set (F := Mongo.find (inColumn p (newStatus body)) (tasks db)).
  assert (HF : forall x, In x col <-> In x F).
  { intros x. unfold col. rewrite column_In. unfold F, Mongo.find.
    now rewrite filter_In. }
  destruct (sortByOrderDesc F) as [|m r] eqn:E; simpl.
  - assert (Hnil : col = []).
    { apply column_nil. fold F. apply length_zero_iff_nil.
      unfold sortByOrderDesc in E.
      rewrite <- (sort_length order_desc F), E. reflexivity. }
    eexists; split; [reflexivity|]. simpl.
    repeat split; try congruence.
    intros _. rewrite Hnil. reflexivity.
  - destruct (@sort_head_least _ _ order_desc_total order_desc_trans _ _ _ E)
      as [Hm Hmax].
    assert (Hle : forall x, In x col -> (Task.order x <= Task.order m)%Z).
    { intros x Hx. apply HF in Hx. destruct (Hmax x Hx) as [->|Hd]; [lia|].
      unfold order_desc in Hd. now apply Z.leb_le. }
    apply HF in Hm.
    eexists; split; [reflexivity|]. simpl.
    repeat split.
    + intros Hnil. rewrite Hnil in Hm. destruct Hm.
    + intros _. exists m. repeat split; auto.
    + intros Hd.
      pose proof (@dense_bound _ _ _ _ Hd Hm) as Hb. fold col in Hb.
      destruct (List.length col) as [|n] eqn:El; [lia|].
      assert (Hn : n < List.length col) by lia.
      apply nth_error_Some in Hn.
      destruct (nth_error col n) as [x|] eqn:Ex; [|congruence].
      pose proof (@dense_nth _ _ _ _ _ Hd Ex) as Ho.
      apply nth_error_In in Ex. specialize (Hle x Ex). lia.
Qed.

Lemma C9_new_task_order_witness :
  validTask (mkCreate "New" "" todo) = true /\
  exists t,
    createTask true 9 99 50 Sample.todo3 7 (mkCreate "New" "" todo)
    = (mkDB (projects Sample.todo3) (tasks Sample.todo3 ++ [t]),
       Created201 t false) /\
    Task.order t = 3%Z.
Proof.
  split; [reflexivity|].
  destruct (@C9_new_task_order 9 99 50 Sample.todo3 7 (mkCreate "New" "" todo))
    as (t & E & _ & _ & _ & _ & Hd).
  - reflexivity.
  - discriminate.
  - exists t. split; [exact E|].
    apply Hd. apply denseb_spec. reflexivity.
Defined.

(** ** What the bulk write of the in-column branch stores *)

Lemma map_fixed (A : Type) (f : A -> A) (l : list A) :
  (forall a, In a l -> f a = a) -> map f l = l.
Proof.
  induction l as [|x l IH]; simpl; intros H; [reflexivity|].
  rewrite H by now left. f_equal. apply IH. intros; apply H; now right.
Qed.

(** With unique identifiers, updating by identifier touches one task. *)
Lemma updateOne_byId c i u :
  uniqueIds c ->
  Mongo.updateOne (byId i) u c = Mongo.updateMany (byId i) u c.
Proof.
  unfold uniqueIds, Mongo.updateMany.
  induction c as [|x r IH]; simpl; [reflexivity|].
  intros Hn. inversion Hn as [|? ? Hnin Hr]; subst.
  destruct (byId i x) eqn:E.
  - f_equal. apply byId_spec in E. subst i.
    symmetry. apply map_fixed.
    intros a Ha. destruct (byId (Task._id x) a) eqn:Ea; [|reflexivity].
    apply byId_spec in Ea. exfalso. apply Hnin. rewrite <- Ea.
    now apply in_map.
  - f_equal. auto.
Qed.

Lemma updateMany_ids (q : Task.t -> bool) (u : Task.t -> Task.t) c :
  (forall x, Task._id (u x) = Task._id x) ->
  map Task._id (Mongo.updateMany q u c) = map Task._id c.
Proof.
  intros Hu. unfold Mongo.updateMany. rewrite map_map.
  apply map_ext. intros x. destruct (q x); auto.
Qed.

Lemma bulkWrite_renumbered now l : forall i c,
  uniqueIds c -> NoDup (map Task._id l) ->
  Mongo.bulkWrite (renumberOps now i l) c = map (renumbered now i l) c.
Proof.
  induction l as [|t l IH]; intros i c Hu Hl.
  - simpl. symmetry. apply map_fixed. reflexivity.
  - unfold renumberOps, Mongo.bulkWrite in *. simpl.
    inversion Hl as [|? ? Hnin Hl']; subst.
    rewrite updateOne_byId by exact Hu.
    rewrite IH; [| |exact Hl'].
    + unfold Mongo.updateMany. rewrite map_map. apply map_ext.
      intros x. unfold renumbered at 2. simpl.
      unfold byId at 2. rewrite Nat.eqb_sym. fold (byId (Task._id t) x).
      destruct (byId (Task._id t) x) eqn:E.
      * unfold renumbered. simpl.
        apply byId_spec in E.
        replace (JsArray.findIndex _ l) with (@None nat).
        -- now rewrite Nat.add_0_r.
        -- symmetry. apply findIndex_None. intros a Ha.
           destruct (byId (Task._id x) a) eqn:Ea; [|reflexivity].
           apply byId_spec in Ea. exfalso. apply Hnin.
           rewrite <- E, <- Ea. now apply in_map.
      * unfold renumbered.
        destruct (JsArray.findIndex _ l) as [k|]; [|reflexivity].
        now rewrite Nat.add_succ_comm.
    + unfold uniqueIds. rewrite updateMany_ids; [exact Hu|].
      intros x. reflexivity.
Qed.

Lemma findIndex_nth l : forall k x,
  NoDup (map Task._id l) -> nth_error l k = Some x ->
  JsArray.findIndex (byId (Task._id x)) l = Some k.
Proof.
  induction l as [|y l IH]; intros k x Hn Hk; [destruct k; discriminate|].
  inversion Hn as [|? ? Hnin Hl]; subst. simpl.
  destruct k as [|k]; simpl in Hk.
  - injection Hk as ->. unfold byId. now rewrite Nat.eqb_refl.
  - destruct (byId (Task._id x) y) eqn:E.
    + apply byId_spec in E. exfalso. apply Hnin. rewrite E.
      apply in_map. eapply nth_error_In; eauto.
    + now rewrite (IH k x Hl Hk).
Qed.

Lemma NoDup_map_filter (A B : Type) (f : A -> B) (q : A -> bool) l :
  NoDup (map f l) -> NoDup (map f (filter q l)).
Proof.
  induction l as [|x l IH]; simpl; [auto|].
  intros Hn. inversion Hn as [|? ? Hnin Hl]; subst.
  destruct (q x); simpl; auto.
  constructor; auto. intros Hin. apply Hnin.
  apply in_map_iff in Hin. destruct Hin as (y & <- & Hy).
  apply in_map. apply filter_In in Hy. tauto.
Qed.

Lemma column_ids db p s :
  uniqueIds (tasks db) -> NoDup (map Task._id (column db p s)).
Proof.
  intros Hu.
  eapply Permutation_NoDup;
    [apply Permutation_map, Permutation_sym, column_perm|].
  apply NoDup_map_filter, Hu.
Qed.

(** Taking the k-th element out and putting it back at k changes nothing. *)
Lemma splice_back (A : Type) (l : list A) : forall k x,
  nth_error l k = Some x ->
  JsArray.splice k 1 [] l = ([x], firstn k l ++ skipn (k + 1) l) /\
  snd (JsArray.splice k 0 [x] (firstn k l ++ skipn (k + 1) l)) = l.
Proof.
  unfold JsArray.splice.
  induction l as [|y l IH]; intros k x Hk; [destruct k; discriminate|].
  destruct k as [|k]; simpl in *.
  - injection Hk as ->. split; reflexivity.
  - destruct (IH k x Hk) as [E1 E2]. simpl in E1, E2.
    injection E1 as E1. rewrite E1. split; [reflexivity|].
    f_equal. rewrite Nat.add_0_r in *. exact E2.
Qed.

Lemma nth_error_cut (A : Type) (l : list A) : forall k x,
  nth_error l k = Some x -> l = firstn k l ++ x :: skipn (k + 1) l.
Proof.
  induction l as [|y l IH]; intros k x Hk; [destruct k; discriminate|].
  destruct k as [|k]; simpl in *.
  - now injection Hk as ->.
  - f_equal. now apply IH.
Qed.

Lemma movedColumn_perm col i j : Permutation (movedColumn col i j) col.
Proof.
  unfold movedColumn.
  destruct (nth_error col i) as [x|] eqn:E; [|apply Permutation_refl].
  unfold JsArray.splice; simpl. rewrite Nat.add_0_r.
  set (rest := firstn i col ++ skipn (i + 1) col).
  apply Permutation_trans with (x :: rest).
  - apply Permutation_sym.
    rewrite <- (firstn_skipn j rest) at 1. apply Permutation_middle.
  - rewrite (nth_error_cut _ _ E) at 1. apply Permutation_middle.
Qed.

Lemma movedColumn_same col i x :
  nth_error col i = Some x -> movedColumn col i i = col.
Proof.
  intros E. unfold movedColumn. rewrite E.
  exact (proj2 (splice_back _ _ E)).
Qed.

Lemma findOne_found (D : Type) (q : D -> bool) (c : list D) (x : D) :
  In x c -> q x = true -> Mongo.findOne q c <> None.
Proof.
  intros Hx Hq Hn. unfold Mongo.findOne in Hn.
  rewrite (find_none _ _ Hn _ Hx) in Hq. discriminate.
Qed.

Lemma reorderInColumn_eq now body col c i x :
  taskIdLowerCase body = true ->
  JsArray.findIndex (byId (taskId body)) col = Some i ->
  nth_error col i = Some x ->
  reorderInColumn now body col c
  = Some (Mongo.bulkWrite
            (renumberOps now 0
               (movedColumn col i (Z.to_nat (destinationIndex body))))
            c).
Proof.
  intros Hl Hk Hx. unfold reorderInColumn.
  rewrite (@findIndex_sameIdString body col Hl), Hk.
  rewrite (proj1 (splice_back _ _ Hx)).
  unfold movedColumn. rewrite Hx. reflexivity.
Qed.

(** A request that spells the identifier otherwise than the server does
    finds no task in the column, whatever the column holds. *)
Lemma reorderInColumn_other now body col c :
  taskIdLowerCase body = false -> reorderInColumn now body col c = None.
Proof.
  intros Hl. unfold reorderInColumn.
  replace (JsArray.findIndex (sameIdString body) col) with (@None nat);
    [reflexivity|].
  symmetry. apply findIndex_None. intros x _. now apply sameIdString_other.
Qed.

(** The in-column branch, in one equation. *)
Lemma reorder_in_column now db p s tid idx i :
  uniqueIds (tasks db) -> (0 <= idx)%Z ->
  Mongo.findOne (projectById p) (projects db) <> None ->
  indexInColumn db p s tid = Some i ->
  let c' :=
    map (renumbered now 0 (movedColumn (column db p s) i (Z.to_nat idx)))
      (tasks db) in
  reorder now db p (mkReorder tid s s idx true)
  = (mkDB (projects db) c', Ok200 (Mongo.findOne (byId tid) c')).
Proof.
  intros Hu Hi Hp Hk c'. unfold reorder; simpl.
  apply Z.ltb_ge in Hi. rewrite Hi.
  destruct (Mongo.findOne (projectById p) (projects db)); [|congruence].
  unfold indexInColumn in Hk.
  destruct (findIndex_Some _ _ Hk) as (x & Hx & Hq).
  assert (Hin : In x (tasks db) /\ inColumn p s x = true)
    by (apply column_In; eapply nth_error_In; eauto).
  destruct (Mongo.findOne (fun x0 => byId tid x0 && inProject p x0) (tasks db))
    eqn:Et.
  2:{ exfalso. eapply findOne_found; [exact (proj1 Hin) | | exact Et].
      cbv beta. rewrite Hq. simpl. destruct Hin as [_ Hc].
      unfold inColumn in Hc. apply andb_true_iff in Hc. tauto. }
  rewrite Status_eqb_refl. fold (column db p s).
  rewrite (@reorderInColumn_eq now (mkReorder tid s s idx true) _ (tasks db)
             i x eq_refl Hk Hx).
  cbv [destinationIndex taskId].
  rewrite bulkWrite_renumbered; [reflexivity | exact Hu |].
  eapply Permutation_NoDup;
    [apply Permutation_map, Permutation_sym, movedColumn_perm|].
  apply column_ids, Hu.
Qed.

(** ** The same-position move on the server *)

(** C5, as stated, fails on the server: asking for task 1 of the
    three-task column at index 0, where it is, writes to every task of
    the column: each of the three has afterwards the date Mongoose gave
    to its update, not the date it had. *)
Lemma C5_server_writes_on_same_position :
  let r := reorder Sample.clock Sample.todo3 7 (mkReorder 1 todo todo 0 true) in
  indexInColumn Sample.todo3 7 todo 1 = Some 0 /\
  succeeded (snd r) = true /\
  tasks (fst r) <> tasks Sample.todo3 /\
  map Task._id (tasks (fst r)) = [1; 2; 3] /\
  map Task.updatedAt (tasks (fst r)) = map Sample.clock [0; 1; 2].
Proof. repeat split; try reflexivity. vm_compute. discriminate. Qed.

Lemma setOrder_same x d :
  setOrder (Task.order x) d x = Task.with_updatedAt d x.
Proof. destruct x; reflexivity. Qed.

Lemma untimed_with_updatedAt x d : untimed (Task.with_updatedAt d x) = untimed x.
Proof. destruct x; reflexivity. Qed.

(** In a dense column, numbering the column as it stands rewrites each
    task with the order it has. *)
Lemma renumbered_dense now db p s x :
  uniqueIds (tasks db) -> dense db p s -> In x (tasks db) ->
  renumbered now 0 (column db p s) x = x \/
  exists k, nth_error (column db p s) k = Some x /\
            renumbered now 0 (column db p s) x
            = Task.with_updatedAt (now k) x.
Proof.
  intros Hu Hd Hx. unfold renumbered.
  destruct (JsArray.findIndex _ _) as [k|] eqn:Ek; [right | now left].
  destruct (findIndex_Some _ _ Ek) as (y & Hy & Hq).
  apply byId_spec in Hq.
  assert (Hyc : In y (tasks db))
    by (eapply column_In, nth_error_In; eauto).
  assert (y = x) by (eapply uniqueIds_inj; eauto). subst y.
  exists k. split; [exact Hy|]. simpl.
  rewrite <- (@dense_nth _ _ _ _ _ Hd Hy). apply setOrder_same.
Qed.

(** C5, as the code has it: a move to the place where the task already is
    gets short-circuited on the page only: [handleDragEnd] clears the
    drag-in-progress flag and returns, before it touches the tasks of
    the page or sends any request.  The route has no such check: for a
    request that spells the identifier of the task in lower case, as the
    page does, on a dense column it succeeds and issues one update for
    each task of the column; every one of them stores the order the task
    already has, and with it the date Mongoose gives to the update, so
    no column and no order changes but every task of the column is
    written. *)
Theorem C5_same_position_move
    (now : nat -> Z) (db : DB) (p : ObjectId) (s : Status) (tid : ObjectId)
    (i : nat) (pageTasks : list Task.t) (api : Board.ApiRun) :
  uniqueIds (tasks db) ->
  dense db p s ->
  Mongo.findOne (projectById p) (projects db) <> None ->
  indexInColumn db p s tid = Some i ->
  let r := reorder now db p (mkReorder tid s s (Z.of_nat i) true) in
  Board.handleDragEnd pageTasks
    (Board.mkDrop (Some (Board.mkLoc s i)) (Board.mkLoc s i) tid) api
  = [Board.SetDragInProgress false] /\
  succeeded (snd r) = true /\
  map untimed (tasks (fst r)) = map untimed (tasks db) /\
  forall k x,
    nth_error (column db p s) k = Some x ->
    In (Task.with_updatedAt (now k) x) (tasks (fst r)).
Proof.
  intros Hu Hd Hp Hk r.
  split; [apply handleDragEnd_same_position|].
  assert (Hr : r = reorder now db p (mkReorder tid s s (Z.of_nat i) true))
    by reflexivity.
  rewrite (@reorder_in_column now db p s tid (Z.of_nat i) i Hu
             (Nat2Z.is_nonneg i) Hp Hk) in Hr.
  rewrite Nat2Z.id in Hr.
  destruct (findIndex_Some _ _ Hk) as (t & Ht & _).
  rewrite (@movedColumn_same _ _ _ Ht) in Hr.
  rewrite Hr. simpl. split; [reflexivity|]. split.
  - rewrite map_map. apply map_ext_in. intros x Hx.
    destruct (@renumbered_dense now _ _ _ _ Hu Hd Hx) as [->|(k & _ & ->)];
      [reflexivity | apply untimed_with_updatedAt].
  - intros k x Hx.
    assert (Hxc : In x (tasks db))
      by (eapply column_In, nth_error_In; eauto).
    pose proof (@findIndex_nth _ _ _ (@column_ids db p s Hu) Hx) as Hf.
    replace (Task.with_updatedAt (now k) x)
      with (renumbered now 0 (column db p s) x); [now apply in_map|].
    unfold renumbered. rewrite Hf. simpl.
    rewrite <- (@dense_nth _ _ _ _ _ Hd Hx). apply setOrder_same.
Qed.

Lemma C5_same_position_move_witness :
  indexInColumn Sample.todo3 7 todo 2 = Some 1 /\
  map untimed
    (tasks (fst (reorder Sample.clock Sample.todo3 7 (mkReorder 2 todo todo 1 true))))
  = map untimed (tasks Sample.todo3).
Proof.
  split; [reflexivity|].
  apply (@C5_same_position_move Sample.clock Sample.todo3 7 todo 2 1
           [] Board.ReorderRejects).
  - unfold uniqueIds. simpl.
    repeat constructor; simpl; intuition discriminate.
  - apply denseb_spec. reflexivity.
  - discriminate.
  - reflexivity.
Defined.

(** ** What the cross-column branch stores *)

Lemma reorderAcrossColumns_crossed now p body task c :
  uniqueIds c ->
  reorderAcrossColumns now p body task c = map (crossed now p body task) c.
Proof.
  intros Hu. unfold reorderAcrossColumns; cbv zeta.
  rewrite updateOne_byId by exact Hu.
  unfold Mongo.updateMany. rewrite !map_map. reflexivity.
Qed.

Lemma crossed_id now p body task x :
  Task._id (crossed now p body task x) = Task._id x.
Proof.
  unfold crossed.
  repeat match goal with |- context [if ?b then _ else _] => destruct b end;
    reflexivity.
Qed.

Lemma crossed_projectId now p body task x :
  Task.projectId (crossed now p body task x) = Task.projectId x.
Proof.
  unfold crossed.
  repeat match goal with |- context [if ?b then _ else _] => destruct b end;
    reflexivity.
Qed.

Lemma crossed_uniqueIds now p body task c :
  uniqueIds c -> uniqueIds (map (crossed now p body task) c).
Proof.
  unfold uniqueIds. rewrite map_map.
  rewrite (map_ext (fun x => Task._id (crossed now p body task x)) Task._id);
    [intros H; exact H|].
  intros x. apply crossed_id.
Qed.

Lemma findOne_map (D : Type) (q : D -> bool) (h : D -> D) (c : list D) :
  (forall x, q (h x) = q x) ->
  Mongo.findOne q (map h c) = option_map h (Mongo.findOne q c).
Proof.
  intros Hq. unfold Mongo.findOne.
  induction c as [|x c IH]; simpl; [reflexivity|].
  rewrite Hq. destruct (q x); [reflexivity | exact IH].
Qed.

(** The cross-column branch, in one equation. *)
Lemma reorder_across now db p body task :
  uniqueIds (tasks db) ->
  (0 <= destinationIndex body)%Z ->
  Mongo.findOne (projectById p) (projects db) <> None ->
  Mongo.findOne (fun x => byId (taskId body) x && inProject p x) (tasks db)
  = Some task ->
  sourceStatus body <> destinationStatus body ->
  let c' := map (crossed now p body task) (tasks db) in
  reorder now db p body
  = (mkDB (projects db) c', Ok200 (Mongo.findOne (byId (taskId body)) c')).
Proof.
  intros Hu Hi Hp Ht Hs c'. unfold reorder.
  apply Z.ltb_ge in Hi. rewrite Hi.
  destruct (Mongo.findOne (projectById p) (projects db)); [|congruence].
  rewrite Ht.
  destruct (Status_eqb _ _) eqn:E; [apply Status_eqb_eq in E; congruence|].
  rewrite reorderAcrossColumns_crossed by exact Hu. reflexivity.
Qed.

Section FieldsOfUpdates.
Variables (p i : ObjectId) (s s' : Status) (o k d : Z) (x : Task.t).

Lemma byId_incOrder : byId i (incOrder k d x) = byId i x.
Proof. reflexivity. Qed.

Lemma inColumn_incOrder : inColumn p s (incOrder k d x) = inColumn p s x.
Proof. reflexivity. Qed.

Lemma order_incOrder : Task.order (incOrder k d x) = (Task.order x + k)%Z.
Proof. reflexivity. Qed.

Lemma byId_setStatusOrder : byId i (setStatusOrder s' o d x) = byId i x.
Proof. reflexivity. Qed.

Lemma inColumn_setStatusOrder :
  inColumn p s (setStatusOrder s' o d x) = inProject p x && Status_eqb s' s.
Proof. reflexivity. Qed.

Lemma order_setStatusOrder : Task.order (setStatusOrder s' o d x) = o.
Proof. reflexivity. Qed.
End FieldsOfUpdates.

Lemma untimed_inc_dec x d d' :
  untimed (incOrder 1 d (incOrder (-1) d' x)) = untimed x.
Proof.
  destruct x.
  unfold untimed, incOrder, Task.with_updatedAt, Task.with_order; simpl.
  f_equal. lia.
Qed.

Lemma untimed_dec_inc x d d' :
  untimed (incOrder (-1) d (incOrder 1 d' x)) = untimed x.
Proof.
  destruct x.
  unfold untimed, incOrder, Task.with_updatedAt, Task.with_order; simpl.
  f_equal. lia.
Qed.

Lemma Status_eqb_neq a b : a <> b -> Status_eqb a b = false.
Proof.
  intros H. destruct (Status_eqb a b) eqn:E; [|reflexivity].
  apply Status_eqb_eq in E. congruence.
Qed.

(** The cross-column branch only casts the identifier of the request:
    how the request spells it makes no difference there. *)
Lemma reorder_across_spelling now db p tid A B idx lower :
  A <> B ->
  reorder now db p (mkReorder tid A B idx lower)
  = reorder now db p (mkReorder tid A B idx true).
Proof.
  intros Hab. unfold reorder.
  cbn [taskId sourceStatus destinationStatus destinationIndex].
  rewrite (Status_eqb_neq Hab). reflexivity.
Qed.

Local Ltac open_crossed :=
  unfold crossed;
  cbv [taskId sourceStatus destinationStatus destinationIndex].

Local Ltac open_crossed_inner :=
  unfold crossed at 2;
  cbv [taskId sourceStatus destinationStatus destinationIndex].

Local Ltac booleans := cbn [andb negb].

(** The moved task after the first move of a round trip. *)
Lemma crossed_moved now p tid A B j T :
  A <> B -> byId tid T = true ->
  crossed now p (mkReorder tid A B j true) T T = setStatusOrder B j (now 0) T.
Proof.
  intros Hab Hid. open_crossed. rewrite Hid.
  rewrite inColumn_setStatusOrder, (Status_eqb_neq (not_eq_sym Hab)).
  rewrite andb_false_r. booleans.
  rewrite byId_setStatusOrder, Hid. booleans.
  rewrite andb_false_r. reflexivity.
Qed.

(** There and back again, task by task. *)
Lemma round_trip_pointwise now1 now2 p tid A B i j T x :
  A <> B ->
  byId tid T = true -> inColumn p A T = true -> Task.order T = i ->
  (byId tid x = true -> x = T) ->
  (inColumn p A x = true -> Task.order x = i -> x = T) ->
  untimed
    (crossed now2 p (mkReorder tid B A i true) (setStatusOrder B j (now1 0) T)
       (crossed now1 p (mkReorder tid A B j true) T x))
  = untimed x.
Proof.
  intros Hab Hid HA Ho Huniq Hord.
  destruct (byId tid x) eqn:Ex.
  - rewrite (Huniq eq_refl). rewrite crossed_moved by assumption.
    open_crossed.
    rewrite !byId_setStatusOrder, Hid.
    rewrite inColumn_setStatusOrder, (Status_eqb_neq Hab).
    rewrite andb_false_r. booleans.
    rewrite !byId_setStatusOrder, Hid. booleans.
    rewrite andb_false_r.
    apply inColumn_spec in HA. destruct HA as [_ Hs].
    destruct T.
    unfold untimed, setStatusOrder, Task.with_updatedAt, Task.with_order,
      Task.with_status; simpl in *.
    subst. reflexivity.
  - assert (Hne : inColumn p A x = true -> Task.order x <> i).
    { intros Hc Hi. rewrite (Hord Hc Hi) in Ex. congruence. }
    assert (HAB : inColumn p A x = true -> inColumn p B x = false).
    { intros Hc. destruct (inColumn p B x) eqn:E; [|reflexivity].
      apply inColumn_spec in Hc, E. destruct Hc, E. congruence. }
    open_crossed_inner. rewrite Ex. booleans.
    destruct (inColumn p A x) eqn:EA.
    + specialize (Hne eq_refl). specialize (HAB eq_refl). booleans.
      destruct (Task.order T <? Task.order x)%Z eqn:Elt.
      * rewrite inColumn_incOrder, HAB. booleans.
        open_crossed.
        rewrite byId_incOrder, Ex, inColumn_incOrder, HAB. booleans.
        rewrite inColumn_incOrder, EA, order_incOrder, byId_incOrder, Ex.
        apply Z.ltb_lt in Elt.
        replace (i <=? Task.order x + -1)%Z with true
          by (symmetry; apply Z.leb_le; lia).
        booleans. apply untimed_inc_dec.
      * rewrite HAB. booleans.
        open_crossed. rewrite Ex, HAB. booleans. rewrite EA.
        apply Z.ltb_ge in Elt.
        replace (i <=? Task.order x)%Z with false
          by (symmetry; apply Z.leb_gt; lia).
        reflexivity.
    + booleans. destruct (inColumn p B x) eqn:EB; booleans.
      * destruct (j <=? Task.order x)%Z eqn:Ele; booleans.
        -- rewrite Ex. booleans. open_crossed.
           rewrite byId_incOrder, Ex, inColumn_incOrder, EB.
           rewrite order_setStatusOrder, order_incOrder.
           apply Z.leb_le in Ele.
           replace (j <? Task.order x + 1)%Z with true
             by (symmetry; apply Z.ltb_lt; lia).
           booleans. rewrite !inColumn_incOrder, EA. booleans.
           apply untimed_dec_inc.
        -- open_crossed. rewrite Ex, EB, order_setStatusOrder.
           apply Z.leb_gt in Ele.
           replace (j <? Task.order x)%Z with false
             by (symmetry; apply Z.ltb_ge; lia).
           booleans. rewrite EA. reflexivity.
      * open_crossed. rewrite Ex, EB. booleans. rewrite EA. reflexivity.
Qed.

(** ** The round trip *)

Lemma filter_map_comm (A : Type) (q : A -> bool) (f : A -> A) (l : list A) :
  (forall x, q (f x) = q x) -> filter q (map f l) = map f (filter q l).
Proof.
  intros Hq. induction l as [|x l IH]; simpl; [reflexivity|].
  rewrite Hq. destruct (q x); simpl; now rewrite IH.
Qed.

(** The ordered list of a column without its dates depends on the stored
    tasks without their dates only. *)
Lemma column_untimed db p s :
  map untimed (column db p s)
  = sortByOrder (Mongo.find (inColumn p s) (map untimed (tasks db))).
Proof.
  unfold column, sortByOrder, Mongo.find.
  rewrite (sort_map order_asc order_asc untimed) by reflexivity.
  rewrite filter_map_comm by reflexivity. reflexivity.
Qed.

Lemma column_untimed_eq db db' p s :
  map untimed (tasks db') = map untimed (tasks db) ->
  map untimed (column db' p s) = map untimed (column db p s).
Proof. intros E. rewrite !column_untimed, E. reflexivity. Qed.

(** The task a position of a column names. *)
Lemma indexInColumn_task db p s tid i :
  uniqueIds (tasks db) -> indexInColumn db p s tid = Some i ->
  exists T,
    nth_error (column db p s) i = Some T /\
    In T (tasks db) /\ byId tid T = true /\ inColumn p s T = true /\
    Mongo.findOne (fun x => byId tid x && inProject p x) (tasks db) = Some T.
Proof.
  intros Hu Hk. unfold indexInColumn in Hk.
  destruct (findIndex_Some _ _ Hk) as (T & HT & Hid).
  assert (Hin : In T (tasks db) /\ inColumn p s T = true)
    by (apply column_In; eapply nth_error_In; eauto).
  destruct Hin as [Hin Hc]. exists T. repeat split; auto.
  assert (Hq : (fun x => byId tid x && inProject p x) T = true).
  { cbv beta. rewrite Hid. unfold inColumn in Hc.
    apply andb_true_iff in Hc. now rewrite (proj1 Hc). }
  destruct (Mongo.findOne _ (tasks db)) as [T'|] eqn:E.
  - f_equal. apply find_some_In in E. destruct E as [Hin' Hq'].
    apply andb_true_iff in Hq'. destruct Hq' as [Hq' _].
    apply byId_spec in Hq', Hid.
    eapply uniqueIds_inj; eauto. congruence.
  - exfalso. eapply findOne_found; eauto.
Qed.

(** Moving a task of a dense column to another column, at any index, and
    back to the order it had restores every stored task but for the
    modification dates. *)
Lemma round_trip_tasks now1 now2 db p tid A B i j :
  uniqueIds (tasks db) ->
  Mongo.findOne (projectById p) (projects db) <> None ->
  dense db p A -> A <> B ->
  indexInColumn db p A tid = Some i ->
  let r1 := reorder now1 db p (mkReorder tid A B (Z.of_nat j) true) in
  let r2 := reorder now2 (fst r1) p (mkReorder tid B A (Z.of_nat i) true) in
  succeeded (snd r1) = true /\
  succeeded (snd r2) = true /\
  map untimed (tasks (fst r2)) = map untimed (tasks db).
Proof.
  intros Hu Hp Hd Hab Hk r1 r2.
  destruct (indexInColumn_task _ _ _ _ Hu Hk) as (T & HT & Hin & Hid & Hc & Hf).
  pose proof (@dense_nth _ _ _ _ _ Hd HT) as Ho.
  assert (E1 : r1 = reorder now1 db p (mkReorder tid A B (Z.of_nat j) true))
    by reflexivity.
  rewrite (@reorder_across now1 db p (mkReorder tid A B (Z.of_nat j) true) T
             Hu (Nat2Z.is_nonneg j) Hp Hf Hab) in E1.
  cbv [taskId] in E1.
  set (c1 := map (crossed now1 p (mkReorder tid A B (Z.of_nat j) true) T) (tasks db))
    in *.
  set (T1 := setStatusOrder B (Z.of_nat j) (now1 0) T).
  assert (Hf1 : Mongo.findOne (fun x => byId tid x && inProject p x) c1
                = Some T1).
  { unfold c1. rewrite findOne_map.
    - rewrite Hf. simpl. f_equal. now apply crossed_moved.
    - intros x. unfold byId, inProject.
      now rewrite crossed_id, crossed_projectId. }
  assert (E2 : r2 = reorder now2 (fst r1) p (mkReorder tid B A (Z.of_nat i) true))
    by reflexivity.
  rewrite E1 in E2. cbv [fst] in E2.
  rewrite (@reorder_across now2 (mkDB (projects db) c1) p
             (mkReorder tid B A (Z.of_nat i) true) T1
             (crossed_uniqueIds _ _ _ _ Hu) (Nat2Z.is_nonneg i) Hp Hf1
             (not_eq_sym Hab)) in E2.
  rewrite E1, E2. cbv [fst snd tasks succeeded].
  repeat split.
  unfold c1. rewrite !map_map. apply map_ext_in. intros x Hx.
  apply round_trip_pointwise; auto.
  - intros Hq. apply byId_spec in Hq, Hid.
    eapply uniqueIds_inj; eauto. congruence.
  - intros Hcx Hox.
    assert (Hxc : In x (column db p A)) by (apply column_In; auto).
    apply In_nth_error in Hxc. destruct Hxc as [k Hxk].
    pose proof (@dense_nth _ _ _ _ _ Hd Hxk) as Hok.
    assert (k = i) by lia. subst k. congruence.
Qed.

(** C7: on a board with unique identifiers whose columns A and B are
    dense, moving the task at index i of A to a valid index j of B and
    then back to index i of A succeeds twice and restores the ordered
    task lists of A and of B (members, sequence, orders and every other
    field but the modification date, which each write refreshes). *)
Theorem C7_round_trip
    (now1 now2 : nat -> Z) (db : DB) (p tid : ObjectId) (A B : Status)
    (i j : nat) (lower1 lower2 : bool) :
  uniqueIds (tasks db) ->
  Mongo.findOne (projectById p) (projects db) <> None ->
  dense db p A -> dense db p B -> A <> B ->
  indexInColumn db p A tid = Some i ->
  j <= List.length (column db p B) ->
  let r1 := reorder now1 db p (mkReorder tid A B (Z.of_nat j) lower1) in
  let r2 :=
    reorder now2 (fst r1) p (mkReorder tid B A (Z.of_nat i) lower2) in
  succeeded (snd r1) = true /\
  succeeded (snd r2) = true /\
  map untimed (column (fst r2) p A) = map untimed (column db p A) /\
  map untimed (column (fst r2) p B) = map untimed (column db p B) /\
  orders (column (fst r2) p A) = orders (column db p A) /\
  orders (column (fst r2) p B) = orders (column db p B).
Proof.
  intros Hu Hp HdA _ Hab Hk _ r1 r2. subst r1 r2.
  assert (Hba : B <> A) by congruence.
  rewrite (@reorder_across_spelling now1 db p tid A B (Z.of_nat j) lower1 Hab).
  rewrite (@reorder_across_spelling now2 _ p tid B A (Z.of_nat i) lower2 Hba).
  set (r1 := reorder now1 db p (mkReorder tid A B (Z.of_nat j) true)).
  set (r2 := reorder now2 (fst r1) p (mkReorder tid B A (Z.of_nat i) true)).
  destruct (@round_trip_tasks now1 now2 db p tid A B i j Hu Hp HdA Hab Hk)
    as (S1 & S2 & E).
  fold r1 in S1. fold r1 r2 in S2, E.
  assert (HA := column_untimed_eq _ _ p A E).
  assert (HB := column_untimed_eq _ _ p B E).
  assert (Hord : forall l l', map untimed l = map untimed l' ->
                              orders l = orders l').
  { intros l l' H. unfold orders.
    rewrite (map_ext Task.order (fun x => Task.order (untimed x)))
      by reflexivity.
    rewrite <- (map_map untimed Task.order l), H, map_map. reflexivity. }
  repeat split; auto.
Qed.

Lemma C7_round_trip_witness :
  indexInColumn Sample.board 7 todo 1 = Some 0 /\
  let r1 := reorder Sample.clock Sample.board 7
              (mkReorder 1 todo inprogress 1 true) in
  let r2 := reorder Sample.clock (fst r1) 7 (mkReorder 1 inprogress todo 0 true) in
  assignments (column (fst r1) 7 inprogress)
  = [(3, 0%Z); (1, 1%Z); (4, 2%Z)] /\
  map untimed (column (fst r2) 7 todo)
  = map untimed (column Sample.board 7 todo) /\
  map untimed (column (fst r2) 7 inprogress)
  = map untimed (column Sample.board 7 inprogress).
Proof.
  split; [reflexivity|]. split; [reflexivity|].
  destruct (@C7_round_trip Sample.clock Sample.clock Sample.board 7 1
              todo inprogress 0 1 true true)
    as (_ & _ & HA & HB & _).
  - unfold uniqueIds. simpl.
    repeat constructor; simpl; intuition discriminate.
  - discriminate.
  - apply denseb_spec. reflexivity.
  - apply denseb_spec. reflexivity.
  - discriminate.
  - reflexivity.
  - simpl. lia.
  - split; assumption.
Defined.

(** ** Density after an in-column move *)

Lemma orders_sortByOrder l :
  orders (sortByOrder l) = Mongo.sort Z.leb (orders l).
Proof.
  unfold orders, sortByOrder. apply sort_map. reflexivity.
Qed.

(** Two sorted lists of integers with the same members are equal. *)
Lemma sorted_perm_eq (l1 : list Z) : forall l2,
  StronglySorted leZ l1 -> StronglySorted leZ l2 -> Permutation l1 l2 ->
  l1 = l2.
Proof.
  induction l1 as [|x l1 IH]; intros l2 S1 S2 P.
  - apply Permutation_nil in P. now subst.
  - destruct l2 as [|y l2];
      [apply Permutation_sym, Permutation_nil in P; discriminate|].
    apply StronglySorted_inv in S1, S2.
    destruct S1 as [S1 H1], S2 as [S2 H2].
    rewrite Forall_forall in H1, H2.
    assert (x = y).
    { assert (Hx : In x (y :: l2))
        by (eapply Permutation_in; [exact P | now left]).
      assert (Hy : In y (x :: l1))
        by (eapply Permutation_in; [apply Permutation_sym, P | now left]).
      destruct Hx as [->|Hx]; [reflexivity|].
      destruct Hy as [->|Hy]; [reflexivity|].
      specialize (H1 _ Hy). specialize (H2 _ Hx).
      unfold leZ in H1, H2. apply Z.leb_le in H1, H2. lia. }
    subst y. f_equal. apply IH; auto.
    eapply Permutation_cons_inv; eauto.
Qed.

Lemma upto_sorted_from (n : nat) : forall a,
  StronglySorted leZ (map Z.of_nat (seq a n)).
Proof.
  induction n as [|n IH]; intros a; simpl; constructor; [apply IH|].
  apply Forall_forall. intros z Hz.
  apply in_map_iff in Hz. destruct Hz as (k & <- & Hk).
  apply in_seq in Hk. unfold leZ. apply Z.leb_le. lia.
Qed.

Lemma leb_total_Z a b : (a <=? b)%Z = false -> (b <=? a)%Z = true.
Proof. rewrite Z.leb_gt, Z.leb_le. lia. Qed.

Lemma leb_trans_Z a b c :
  (a <=? b)%Z = true -> (b <=? c)%Z = true -> (a <=? c)%Z = true.
Proof. rewrite !Z.leb_le. lia. Qed.

(** Sorting any arrangement of [0 .. n-1] gives [0 .. n-1]. *)
Lemma sort_upto (l : list Z) (n : nat) :
  Permutation l (upto n) -> Mongo.sort Z.leb l = upto n.
Proof.
  intros P. apply sorted_perm_eq.
  - apply (@sort_sorted Z Z.leb leb_total_Z leb_trans_Z).
  - apply upto_sorted_from.
  - eapply Permutation_trans; [apply sort_perm | exact P].
Qed.

(** Density, read on the stored tasks rather than on the sorted column. *)
Lemma dense_perm db p s (n : nat) :
  Permutation (orders (Mongo.find (inColumn p s) (tasks db))) (upto n) ->
  dense db p s.
Proof.
  intros P. unfold dense, column.
  rewrite orders_sortByOrder, (@sort_upto _ _ P).
  unfold sortByOrder. rewrite sort_length.
  apply Permutation_length in P. unfold orders, upto in P.
  rewrite !length_map, length_seq in P. now rewrite P.
Qed.

Lemma dense_perm_inv db p s :
  dense db p s ->
  Permutation (orders (Mongo.find (inColumn p s) (tasks db)))
    (upto (List.length (Mongo.find (inColumn p s) (tasks db)))).
Proof.
  unfold dense. intros Hd.
  rewrite <- (Permutation_length (column_perm db p s)), <- Hd.
  unfold orders. apply Permutation_map, Permutation_sym, column_perm.
Qed.

Lemma renumbered_inColumn now i l p s x :
  inColumn p s (renumbered now i l x) = inColumn p s x.
Proof. unfold renumbered. destruct (JsArray.findIndex _ l); reflexivity. Qed.

(** Numbering a list with unique identifiers gives its members the
    orders [0 .. n-1], in sequence. *)
Lemma renumbered_orders now l :
  NoDup (map Task._id l) ->
  map (fun x => Task.order (renumbered now 0 l x)) l = upto (List.length l).
Proof.
  intros Hn. apply nth_error_ext. intros k.
  unfold upto. rewrite !nth_error_map, nth_error_seq.
  destruct (nth_error l k) as [x|] eqn:E; simpl.
  - assert (Hk : k < List.length l) by (apply nth_error_Some; congruence).
    apply Nat.ltb_lt in Hk. rewrite Hk. simpl.
    unfold renumbered. rewrite (@findIndex_nth _ _ _ Hn E). reflexivity.
  - apply nth_error_None in E.
    assert (Hk : (k <? List.length l) = false) by (apply Nat.ltb_ge; lia).
    now rewrite Hk.
Qed.

(** The in-column branch leaves its column dense, whatever the index and
    whatever the orders of the column were. *)
Lemma reorder_in_column_dense now db p s tid idx i :
  uniqueIds (tasks db) -> (0 <= idx)%Z ->
  Mongo.findOne (projectById p) (projects db) <> None ->
  indexInColumn db p s tid = Some i ->
  let r := reorder now db p (mkReorder tid s s idx true) in
  succeeded (snd r) = true /\
  dense (fst r) p s /\
  List.length (column (fst r) p s) = List.length (column db p s).
Proof.
  intros Hu Hi Hp Hk r.
  assert (Hr : r = reorder now db p (mkReorder tid s s idx true)) by reflexivity.
  rewrite (@reorder_in_column now db p s tid idx i Hu Hi Hp Hk) in Hr.
  set (l' := movedColumn (column db p s) i (Z.to_nat idx)) in *.
  set (F := Mongo.find (inColumn p s) (tasks db)).
  assert (HF : Mongo.find (inColumn p s) (map (renumbered now 0 l') (tasks db))
               = map (renumbered now 0 l') F).
  { unfold Mongo.find, F. apply filter_map_comm.
    intros x. apply renumbered_inColumn. }
  assert (Hl' : Permutation F l').
  { eapply Permutation_trans; [apply Permutation_sym, column_perm|].
    apply Permutation_sym, movedColumn_perm. }
  assert (Hn : NoDup (map Task._id l')).
  { eapply Permutation_NoDup; [apply Permutation_map, Hl'|].
    apply NoDup_map_filter, Hu. }
  rewrite Hr. cbn [fst snd succeeded]. split; [reflexivity|]. split.
  - apply dense_perm with (n := List.length l'). cbn [tasks].
    rewrite HF. unfold orders. rewrite map_map.
    rewrite <- (@renumbered_orders now l' Hn).
    apply Permutation_map, Hl'.
  - unfold column at 1, sortByOrder. rewrite sort_length. cbn [tasks].
    rewrite HF, length_map. unfold F.
    symmetry. apply Permutation_length, column_perm.
Qed.

Lemma renumbered_id now i l x :
  Task._id (renumbered now i l x) = Task._id x.
Proof. unfold renumbered. destruct (JsArray.findIndex _ l); reflexivity. Qed.

Lemma findOne_byId c tid T :
  uniqueIds c -> In T c -> byId tid T = true ->
  Mongo.findOne (byId tid) c = Some T.
Proof.
  intros Hu Hin Hid.
  destruct (Mongo.findOne (byId tid) c) as [T'|] eqn:E.
  - apply find_some_In in E. destruct E as [Hin' Hid'].
    apply byId_spec in Hid, Hid'. f_equal.
    eapply uniqueIds_inj; eauto. congruence.
  - exfalso. eapply findOne_found; eauto.
Qed.

(** An index at or beyond the end of the column puts the task last. *)
Lemma movedColumn_last col i j x :
  nth_error col i = Some x -> List.length col <= S j ->
  movedColumn col i j = firstn i col ++ skipn (i + 1) col ++ [x] /\
  nth_error (movedColumn col i j) (List.length col - 1) = Some x.
Proof.
  intros Hx Hj. unfold movedColumn. rewrite Hx.
  unfold JsArray.splice; simpl. rewrite Nat.add_0_r.
  set (rest := firstn i col ++ skipn (i + 1) col).
  assert (Hi : i < List.length col) by (apply nth_error_Some; congruence).
  assert (Hlen : List.length rest = List.length col - 1).
  { unfold rest. rewrite length_app, length_firstn, length_skipn. lia. }
  rewrite firstn_all2, skipn_all2 by lia.
  split.
  - unfold rest. now rewrite <- app_assoc.
  - rewrite <- Hlen, nth_error_app2, Nat.sub_diag by lia. reflexivity.
Qed.

(** The in-column branch clamps: with an index at or beyond the length of
    the column, the moved task comes back with the last order of the
    column. *)
Lemma reorder_in_column_appends now db p s tid idx i :
  uniqueIds (tasks db) ->
  Mongo.findOne (projectById p) (projects db) <> None ->
  indexInColumn db p s tid = Some i ->
  (Z.of_nat (List.length (column db p s)) <= idx)%Z ->
  let r := reorder now db p (mkReorder tid s s idx true) in
  exists t,
    snd r = Ok200 (Some t) /\
    Task._id t = tid /\
    Task.order t = (Z.of_nat (List.length (column (fst r) p s)) - 1)%Z.
Proof.
  intros Hu Hp Hk Hidx r.
  assert (Hi : (0 <= idx)%Z) by lia.
  destruct (@reorder_in_column_dense now db p s tid idx i Hu Hi Hp Hk)
    as (_ & _ & Hlen).
  fold r in Hlen. rewrite Hlen.
  assert (Hr : r = reorder now db p (mkReorder tid s s idx true)) by reflexivity.
  rewrite (@reorder_in_column now db p s tid idx i Hu Hi Hp Hk) in Hr.
  destruct (indexInColumn_task _ _ _ _ Hu Hk) as (T & HT & Hin & Hid & _ & _).
  rewrite Hr. cbn [snd].
  rewrite findOne_map by (intros x; unfold byId; now rewrite renumbered_id).
  rewrite (@findOne_byId _ _ _ Hu Hin Hid). simpl.
  eexists. split; [reflexivity|]. split.
  - rewrite renumbered_id. now apply byId_spec.
  - assert (Hj : List.length (column db p s) <= S (Z.to_nat idx)) by lia.
    destruct (@movedColumn_last _ _ _ _ HT Hj) as [_ Hnth].
    assert (Hn : NoDup (map Task._id
                          (movedColumn (column db p s) i (Z.to_nat idx)))).
    { eapply Permutation_NoDup;
        [apply Permutation_map, Permutation_sym, movedColumn_perm|].
      apply column_ids, Hu. }
    unfold renumbered. rewrite (@findIndex_nth _ _ _ Hn Hnth).
    assert (0 < List.length (column db p s))
      by (apply Nat.lt_le_trans with (S i); [lia |
          apply nth_error_Some; congruence]).
    cbn [setOrder Task.with_updatedAt Task.with_order Task.order]. lia.
Qed.

(** ** Density after a cross-column move *)

Lemma upto_split (i n : nat) :
  i <= n -> upto n = upto i ++ map Z.of_nat (seq i (n - i)).
Proof.
  intros Hi. unfold upto. rewrite <- map_app, <- seq_app.
  do 2 f_equal. lia.
Qed.

Lemma closeGap_perm (O : list Z) (i n : nat) :
  i < n -> Permutation (Z.of_nat i :: O) (upto n) ->
  Permutation (map (closeGap (Z.of_nat i)) O) (upto (n - 1)).
Proof.
  intros Hi P.
  rewrite (@upto_split i n) in P by lia.
  replace (n - i) with (S (n - 1 - i)) in P by lia. simpl in P.
  apply Permutation_sym in P.
  apply (Permutation_trans (Permutation_middle _ _ _)) in P.
  apply Permutation_cons_inv, Permutation_sym in P.
  apply (Permutation_map (closeGap (Z.of_nat i))) in P.
  eapply Permutation_trans; [exact P|].
  rewrite (@upto_split i (n - 1)) by lia. rewrite map_app.
  replace (map (closeGap (Z.of_nat i)) (upto i)) with (upto i).
  - replace (map (closeGap (Z.of_nat i)) (map Z.of_nat (seq (S i) (n - 1 - i))))
      with (map Z.of_nat (seq i (n - 1 - i))); [apply Permutation_refl|].
    rewrite <- seq_shift, !map_map. apply map_ext_in.
    intros k Hk. apply in_seq in Hk. unfold closeGap.
    replace (Z.of_nat i <? Z.of_nat (S k))%Z with true
      by (symmetry; apply Z.ltb_lt; lia).
    lia.
  - symmetry. unfold upto. rewrite map_map. apply map_ext_in.
    intros k Hk. apply in_seq in Hk. unfold closeGap.
    replace (Z.of_nat i <? Z.of_nat k)%Z with false
      by (symmetry; apply Z.ltb_ge; lia).
    reflexivity.
Qed.

Lemma openGap_perm (O : list Z) (j m : nat) :
  j <= m -> Permutation O (upto m) ->
  Permutation (Z.of_nat j :: map (openGap (Z.of_nat j)) O) (upto (S m)).
Proof.
  intros Hj P.
  apply (Permutation_map (openGap (Z.of_nat j))) in P.
  eapply Permutation_trans; [apply perm_skip, P|].
  rewrite (@upto_split j m), (@upto_split j (S m)) by lia.
  rewrite map_app.
  replace (S m - j) with (S (m - j)) by lia. simpl.
  replace (map (openGap (Z.of_nat j)) (upto j)) with (upto j).
  - replace (map (openGap (Z.of_nat j)) (map Z.of_nat (seq j (m - j))))
      with (map Z.of_nat (seq (S j) (m - j))); [apply Permutation_middle|].
    rewrite <- seq_shift, !map_map. apply map_ext_in.
    intros k Hk. apply in_seq in Hk. unfold openGap.
    replace (Z.of_nat j <=? Z.of_nat k)%Z with true
      by (symmetry; apply Z.leb_le; lia).
    lia.
  - symmetry. unfold upto. rewrite map_map. apply map_ext_in.
    intros k Hk. apply in_seq in Hk. unfold openGap.
    replace (Z.of_nat j <=? Z.of_nat k)%Z with false
      by (symmetry; apply Z.leb_gt; lia).
    reflexivity.
Qed.

Lemma filter_map_gen (A : Type) (q : A -> bool) (f : A -> A) (l : list A) :
  filter q (map f l) = map f (filter (fun x => q (f x)) l).
Proof.
  induction l as [|x l IH]; simpl; [reflexivity|].
  destruct (q (f x)); simpl; now rewrite IH.
Qed.

Lemma byId_other c T y :
  NoDup (Task._id T :: map Task._id c) -> In y c ->
  byId (Task._id T) y = false.
Proof.
  intros Hn Hy. inversion Hn as [|? ? Hnin _]; subst.
  destruct (byId (Task._id T) y) eqn:E; [|reflexivity].
  apply byId_spec in E. exfalso. apply Hnin. rewrite <- E. now apply in_map.
Qed.

(** Taking a task out of the tasks a query selects. *)
Lemma filter_without (q : Task.t -> bool) c T :
  uniqueIds c -> In T c -> q T = true ->
  Permutation (filter q c)
    (T :: filter (fun x => q x && negb (byId (Task._id T) x)) c).
Proof.
  unfold uniqueIds. induction c as [|x c IH]; simpl; [tauto|].
  intros Hn [->|Hin] Hq.
  - rewrite Hq. unfold byId at 1. rewrite Nat.eqb_refl. simpl.
    apply perm_skip.
    rewrite (filter_ext_in (fun x => q x && negb (byId (Task._id T) x)) q);
      [apply Permutation_refl|].
    intros y Hy. rewrite (@byId_other _ _ _ Hn Hy). simpl. apply andb_true_r.
  - inversion Hn as [|? ? Hnin Hc]; subst.
    assert (Hx : byId (Task._id T) x = false).
    { destruct (byId (Task._id T) x) eqn:E; [|reflexivity].
      apply byId_spec in E. exfalso. apply Hnin. rewrite E. now apply in_map. }
    rewrite Hx. simpl. rewrite andb_true_r.
    destruct (q x).
    + eapply Permutation_trans; [apply perm_skip, IH; auto|]. apply perm_swap.
    + auto.
Qed.

(** Adding a task to the tasks a query selects. *)
Lemma filter_with (q : Task.t -> bool) c T :
  uniqueIds c -> In T c -> q T = false ->
  Permutation (filter (fun x => q x || byId (Task._id T) x) c)
    (T :: filter q c).
Proof.
  unfold uniqueIds. induction c as [|x c IH]; simpl; [tauto|].
  intros Hn [->|Hin] Hq.
  - rewrite Hq. unfold byId at 1. rewrite Nat.eqb_refl. simpl.
    apply perm_skip.
    rewrite (filter_ext_in (fun x => q x || byId (Task._id T) x) q);
      [apply Permutation_refl|].
    intros y Hy. rewrite (@byId_other _ _ _ Hn Hy). apply orb_false_r.
  - inversion Hn as [|? ? Hnin Hc]; subst.
    assert (Hx : byId (Task._id T) x = false).
    { destruct (byId (Task._id T) x) eqn:E; [|reflexivity].
      apply byId_spec in E. exfalso. apply Hnin. rewrite E. now apply in_map. }
    rewrite Hx, orb_false_r.
    destruct (q x).
    + eapply Permutation_trans; [apply perm_skip, IH; auto|]. apply perm_swap.
    + auto.
Qed.

(** What the cross-column branch does to a task other than the moved one. *)
Lemma crossed_other now p tid A B j T x :
  A <> B -> byId tid x = false ->
  crossed now p (mkReorder tid A B j true) T x
  = if inColumn p A x && (Task.order T <? Task.order x)%Z
    then incOrder (-1) (now 1) x
    else if inColumn p B x && (j <=? Task.order x)%Z
         then incOrder 1 (now 2) x
         else x.
Proof.
  intros Hab Ex. open_crossed. rewrite Ex. booleans.
  destruct (inColumn p A x) eqn:EA; booleans.
  - assert (EB : inColumn p B x = false).
    { destruct (inColumn p B x) eqn:E; [|reflexivity].
      apply inColumn_spec in EA, E. destruct EA, E. congruence. }
    destruct (Task.order T <? Task.order x)%Z.
    + rewrite inColumn_incOrder, EB. reflexivity.
    + rewrite EB. reflexivity.
  - rewrite Ex, andb_true_r. reflexivity.
Qed.

Lemma crossed_other_inColumn now p tid A B j T x s :
  A <> B -> byId tid x = false ->
  inColumn p s (crossed now p (mkReorder tid A B j true) T x) = inColumn p s x.
Proof.
  intros Hab Ex. rewrite crossed_other by assumption.
  destruct (_ && _); [reflexivity|]. destruct (_ && _); reflexivity.
Qed.

Lemma crossed_moved_inColumn now p tid A B j T s :
  A <> B -> byId tid T = true -> inColumn p A T = true ->
  inColumn p s (crossed now p (mkReorder tid A B j true) T T) = Status_eqb B s.
Proof.
  intros Hab Hid Hc. rewrite crossed_moved by assumption.
  rewrite inColumn_setStatusOrder.
  unfold inColumn in Hc. apply andb_true_iff in Hc.
  now rewrite (proj1 Hc).
Qed.

(** The cross-column branch, on a board with unique identifiers and
    dense source and destination columns, for a task that is in the
    source column the request names and an index within the destination
    column: both columns are dense afterwards, one task shorter and one
    task longer, and the third column is as it was. *)
Lemma reorder_across_dense now db p tid A B i j :
  uniqueIds (tasks db) ->
  Mongo.findOne (projectById p) (projects db) <> None ->
  dense db p A -> dense db p B -> A <> B ->
  indexInColumn db p A tid = Some i ->
  j <= List.length (column db p B) ->
  let r := reorder now db p (mkReorder tid A B (Z.of_nat j) true) in
  succeeded (snd r) = true /\
  dense (fst r) p A /\
  dense (fst r) p B /\
  S (List.length (column (fst r) p A)) = List.length (column db p A) /\
  List.length (column (fst r) p B) = S (List.length (column db p B)) /\
  forall C, C <> A -> C <> B -> column (fst r) p C = column db p C.
Proof.
  intros Hu Hp HdA HdB Hab Hk Hj r.
  destruct (@indexInColumn_task db p A tid i Hu Hk)
    as (T & HT & Hin & Hid & Hc & Hf).
  pose proof (@dense_nth _ _ _ _ _ HdA HT) as Ho.
  assert (Hi : i < List.length (column db p A))
    by (apply nth_error_Some; congruence).
  assert (Hr : r = reorder now db p (mkReorder tid A B (Z.of_nat j) true))
    by reflexivity.
  rewrite (@reorder_across now db p (mkReorder tid A B (Z.of_nat j) true) T
             Hu (Nat2Z.is_nonneg j) Hp Hf Hab) in Hr.
  set (h := crossed now p (mkReorder tid A B (Z.of_nat j) true) T) in *.
  assert (Htid : tid = Task._id T) by (symmetry; now apply byId_spec).
  assert (Huniq : forall x, In x (tasks db) -> byId tid x = true -> x = T).
  { intros x Hx Hq. apply byId_spec in Hq.
    eapply uniqueIds_inj; eauto. congruence. }
  assert (HsT : Task.status T = A) by (apply inColumn_spec in Hc; tauto).
  assert (HqT : forall s, s <> A -> inColumn p s T = false).
  { intros s Hs. destruct (inColumn p s T) eqn:E; [|reflexivity].
    apply inColumn_spec in E. destruct E. congruence. }
  (* the tasks each column query selects after the move *)
  assert (Hsel : forall s (q' : Task.t -> bool),
             (forall x, In x (tasks db) -> inColumn p s (h x) = q' x) ->
             Mongo.find (inColumn p s) (map h (tasks db))
             = map h (filter q' (tasks db))).
  { intros s q' Hq'. unfold Mongo.find. rewrite filter_map_gen.
    f_equal. apply filter_ext_in. exact Hq'. }
  assert (HselA : Mongo.find (inColumn p A) (map h (tasks db))
                  = map h (filter (fun x => inColumn p A x
                                            && negb (byId (Task._id T) x))
                             (tasks db))).
  { apply Hsel. intros x Hx. rewrite <- Htid.
    destruct (byId tid x) eqn:Ex.
    - rewrite (Huniq x Hx Ex). unfold h.
      rewrite crossed_moved_inColumn by assumption.
      rewrite (Status_eqb_neq (not_eq_sym Hab)), andb_false_r. reflexivity.
    - unfold h. rewrite crossed_other_inColumn by assumption.
      now rewrite andb_true_r. }
  assert (HselB : Mongo.find (inColumn p B) (map h (tasks db))
                  = map h (filter (fun x => inColumn p B x
                                            || byId (Task._id T) x)
                             (tasks db))).
  { apply Hsel. intros x Hx. rewrite <- Htid.
    destruct (byId tid x) eqn:Ex.
    - rewrite (Huniq x Hx Ex). unfold h.
      rewrite crossed_moved_inColumn by assumption.
      rewrite Status_eqb_refl, orb_true_r. reflexivity.
    - unfold h. rewrite crossed_other_inColumn by assumption.
      now rewrite orb_false_r. }
  pose proof (@filter_without (inColumn p A) (tasks db) T Hu Hin Hc) as PA.
  pose proof (@filter_with (inColumn p B) (tasks db) T Hu Hin
                (HqT B (not_eq_sym Hab))) as PB.
  set (FA := filter (fun x => inColumn p A x && negb (byId (Task._id T) x))
               (tasks db)) in *.
  set (G := filter (fun x => inColumn p B x || byId (Task._id T) x)
              (tasks db)) in *.
  (* orders after the move *)
  assert (HoA : orders (map h FA) = map (closeGap (Z.of_nat i)) (orders FA)).
  { unfold orders. rewrite !map_map. apply map_ext_in. intros x Hx.
    apply filter_In in Hx. destruct Hx as [_ Hx].
    apply andb_true_iff in Hx. destruct Hx as [HxA HxT].
    apply negb_true_iff in HxT. rewrite <- Htid in HxT.
    unfold h. rewrite crossed_other by assumption.
    rewrite HxA, Ho. unfold closeGap. booleans.
    destruct (Z.of_nat i <? Task.order x)%Z; [reflexivity|].
    assert (EB : inColumn p B x = false).
    { destruct (inColumn p B x) eqn:E; [|reflexivity].
      apply inColumn_spec in HxA, E. destruct HxA, E. congruence. }
    now rewrite EB. }
  assert (HoB : forall x, In x (Mongo.find (inColumn p B) (tasks db)) ->
                          Task.order (h x)
                          = openGap (Z.of_nat j) (Task.order x)).
  { intros x Hx. apply filter_In in Hx. destruct Hx as [Hx HxB].
    assert (Ex : byId tid x = false).
    { destruct (byId tid x) eqn:E; [|reflexivity].
      rewrite (Huniq x Hx E) in HxB.
      rewrite (HqT B (not_eq_sym Hab)) in HxB. discriminate. }
    assert (EA : inColumn p A x = false).
    { destruct (inColumn p A x) eqn:E; [|reflexivity].
      apply inColumn_spec in HxB, E. destruct HxB, E. congruence. }
    unfold h. rewrite crossed_other by assumption.
    rewrite EA, HxB. unfold openGap. booleans.
    destruct (Z.of_nat j <=? Task.order x)%Z; reflexivity. }
  pose proof (dense_perm_inv HdA) as DA.
  pose proof (dense_perm_inv HdB) as DB'.
  assert (LA : List.length (Mongo.find (inColumn p A) (tasks db))
               = List.length (column db p A))
    by (symmetry; apply Permutation_length, column_perm).
  assert (LB : List.length (Mongo.find (inColumn p B) (tasks db))
               = List.length (column db p B))
    by (symmetry; apply Permutation_length, column_perm).
  assert (LA' : List.length (column db p A) = S (List.length FA)).
  { rewrite <- LA. apply (Permutation_length PA). }
  assert (LG : List.length G = S (List.length (column db p B))).
  { rewrite <- LB. apply (Permutation_length PB). }
  rewrite Hr. cbn [fst snd succeeded].
  split; [reflexivity|]. split; [|split; [|split; [|split]]].
  - apply dense_perm with (n := List.length (column db p A) - 1).
    cbn [tasks]. rewrite HselA, HoA.
    apply closeGap_perm; [exact Hi|].
    rewrite <- LA, <- Ho.
    eapply Permutation_trans; [|exact DA].
    apply Permutation_sym.
    exact (Permutation_map Task.order PA).
  - apply dense_perm with (n := S (List.length (column db p B))).
    cbn [tasks]. rewrite HselB.
    eapply Permutation_trans.
    { unfold orders. apply Permutation_map, Permutation_map. exact PB. }
    rewrite map_map. cbn [map]. unfold h at 1.
    rewrite crossed_moved by assumption.
    rewrite order_setStatusOrder.
    unfold Mongo.find in HoB.
    rewrite (map_ext_in (fun x => Task.order (h x))
               (fun x => openGap (Z.of_nat j) (Task.order x)) _ HoB).
    rewrite <- (map_map Task.order (openGap (Z.of_nat j))).
    apply openGap_perm; [exact Hj|].
    rewrite <- LB. exact DB'.
  - unfold column at 1, sortByOrder. rewrite sort_length. cbn [tasks].
    rewrite HselA, length_map. lia.
  - unfold column at 1, sortByOrder. rewrite sort_length. cbn [tasks].
    rewrite HselB, length_map. exact LG.
  - intros C HCA HCB. unfold column. cbn [tasks]. f_equal.
    rewrite (Hsel C (inColumn p C)).
    + apply map_fixed. intros x Hx.
      apply filter_In in Hx. destruct Hx as [Hx HxC].
      assert (Ex : byId tid x = false).
      { destruct (byId tid x) eqn:E; [|reflexivity].
        rewrite (Huniq x Hx E), (HqT C HCA) in HxC. discriminate. }
      unfold h. rewrite crossed_other by assumption.
      apply inColumn_spec in HxC. destruct HxC as [_ HxC].
      assert (EA : inColumn p A x = false).
      { destruct (inColumn p A x) eqn:E; [|reflexivity].
        apply inColumn_spec in E. destruct E. congruence. }
      assert (EB : inColumn p B x = false).
      { destruct (inColumn p B x) eqn:E; [|reflexivity].
        apply inColumn_spec in E. destruct E. congruence. }
      now rewrite EA, EB.
    + intros x Hx. destruct (byId tid x) eqn:Ex.
      * rewrite (Huniq x Hx Ex). unfold h.
        rewrite crossed_moved_inColumn by assumption.
        rewrite (HqT C HCA). apply Status_eqb_neq. congruence.
      * unfold h. now rewrite crossed_other_inColumn by assumption.
Qed.

(** The in-column branch leaves the other columns as they were. *)
Lemma reorder_in_column_others now db p s tid idx i C :
  uniqueIds (tasks db) -> (0 <= idx)%Z ->
  Mongo.findOne (projectById p) (projects db) <> None ->
  indexInColumn db p s tid = Some i ->
  C <> s ->
  column (fst (reorder now db p (mkReorder tid s s idx true))) p C = column db p C.
Proof.
  intros Hu Hi Hp Hk HC.
  rewrite (@reorder_in_column now db p s tid idx i Hu Hi Hp Hk).
  cbn [fst]. unfold column. cbn [tasks]. f_equal.
  unfold Mongo.find.
  rewrite filter_map_comm by (intros x; apply renumbered_inColumn).
  apply map_fixed. intros x Hx.
  apply filter_In in Hx. destruct Hx as [Hx HxC].
  unfold renumbered.
  destruct (JsArray.findIndex _ _) as [k|] eqn:Ek; [exfalso | reflexivity].
  destruct (findIndex_Some _ _ Ek) as (y & Hy & Hq).
  apply nth_error_In in Hy.
  apply (Permutation_in _ (movedColumn_perm _ _ _)) in Hy.
  apply column_In in Hy. destruct Hy as [Hy Hys].
  apply byId_spec in Hq.
  assert (y = x) by (eapply uniqueIds_inj; eauto). subst y.
  apply inColumn_spec in HxC, Hys. destruct HxC, Hys. congruence.
Qed.

(** On a board with unique identifiers whose columns are all dense, a
    move of a task that is in the source column the request names, to
    any index within the column (in-column, where a larger index is
    clamped and the identifier has to be spelled as the server spells
    it) or to an index up to the length of the destination column
    (cross-column), succeeds and leaves every column dense. *)
Lemma reorder_keeps_density now db p body i :
  uniqueIds (tasks db) ->
  Mongo.findOne (projectById p) (projects db) <> None ->
  (forall s, dense db p s) ->
  indexInColumn db p (sourceStatus body) (taskId body) = Some i ->
  (0 <= destinationIndex body)%Z ->
  (sourceStatus body <> destinationStatus body ->
   (destinationIndex body
    <= Z.of_nat (List.length (column db p (destinationStatus body))))%Z) ->
  (sourceStatus body = destinationStatus body ->
   taskIdLowerCase body = true) ->
  let r := reorder now db p body in
  succeeded (snd r) = true /\ forall s, dense (fst r) p s.
Proof.
  intros Hu Hp Hd Hk Hi Hj Hl r. subst r.
  destruct body as [tid A B idx lower]. cbn [sourceStatus destinationStatus
    taskId destinationIndex taskIdLowerCase] in *.
  destruct (Status_eqb A B) eqn:E.
  - apply Status_eqb_eq in E. subst B. rewrite (Hl eq_refl).
    destruct (@reorder_in_column_dense now db p A tid idx i Hu Hi Hp Hk)
      as (S1 & D1 & _).
    split; [exact S1|]. intros s.
    destruct (Status_eqb s A) eqn:Es.
    + apply Status_eqb_eq in Es. subst s. exact D1.
    + assert (Hs : s <> A)
        by (intros ->; rewrite Status_eqb_refl in Es; discriminate).
      unfold dense.
      rewrite (@reorder_in_column_others now db p A tid idx i s Hu Hi Hp Hk Hs).
      apply Hd.
  - assert (Hab : A <> B)
      by (intros ->; rewrite Status_eqb_refl in E; discriminate).
    specialize (Hj Hab). rewrite (@reorder_across_spelling _ _ _ _ _ _ _ lower Hab).
    rewrite <- (Z2Nat.id idx Hi) in *.
    assert (Hjn : Z.to_nat idx <= List.length (column db p B)) by lia.
    destruct (@reorder_across_dense now db p tid A B i (Z.to_nat idx)
                Hu Hp (Hd A) (Hd B) Hab Hk Hjn)
      as (S1 & DA & DB' & _ & _ & HC).
    split; [exact S1|]. intros s.
    destruct (Status_eqb s A) eqn:EsA;
      [apply Status_eqb_eq in EsA; subst s; exact DA|].
    destruct (Status_eqb s B) eqn:EsB;
      [apply Status_eqb_eq in EsB; subst s; exact DB'|].
    assert (HsA : s <> A)
      by (intros ->; rewrite Status_eqb_refl in EsA; discriminate).
    assert (HsB : s <> B)
      by (intros ->; rewrite Status_eqb_refl in EsB; discriminate).
    unfold dense. rewrite (HC s HsA HsB). apply Hd.
Qed.

(** ** What the cross-column branch misses

    [reorder_keeps_density] asks for an index within the destination
    column and for a task that is in the source column the request
    names.  The in-column branch clamps the first ([reorder_in_column_dense],
    [reorder_in_column_appends]) and rejects a request that breaks the
    second ([reorder_in_column_stale]); the cross-column branch checks
    neither, and on the sample board each one breaks a column. *)

(** C1: on a dense board, the accepted cross-column move of task 1 from
    "todo" to index 5 of "inprogress" (which holds two tasks) succeeds
    and leaves "inprogress" with the orders 0, 1, 5: the cross-column
    branch stores the requested index as it is. *)
Theorem C1_cross_column_move_leaves_gap :
  let r := reorder Sample.clock Sample.board 7
             (mkReorder 1 todo inprogress 5 true) in
  dense Sample.board 7 todo /\
  dense Sample.board 7 inprogress /\
  dense Sample.board 7 done /\
  succeeded (snd r) = true /\
  orders (column (fst r) 7 inprogress) = [0; 1; 5]%Z /\
  ~ dense (fst r) 7 inprogress.
Proof.
  repeat split; try reflexivity.
  intros H. apply denseb_spec in H. vm_compute in H. discriminate.
Qed.

(** C2: the same move, index 5 into a column of two tasks: the moved task
    comes back with order 5 while the destination column, now three tasks
    long, ends at position 2. *)
Theorem C2_cross_column_index_not_clamped :
  let r := reorder Sample.clock Sample.board 7
             (mkReorder 1 todo inprogress 5 true) in
  List.length (column Sample.board 7 inprogress) = 2 /\
  succeeded (snd r) = true /\
  orders (responseTasks (snd r)) = [5%Z] /\
  List.length (column (fst r) 7 inprogress) = 3.
Proof. repeat split; reflexivity. Qed.

(** C3: task 1 is in "todo"; a request that names "inprogress" as its
    source and "done" as its destination is not rejected: it succeeds,
    moves the task to "done" and shifts task 4 of "inprogress", which now
    shares order 0 with task 3. *)
Theorem C3_cross_column_stale_source_is_written :
  let r := reorder Sample.clock Sample.board 7
             (mkReorder 1 inprogress done 0 true) in
  Mongo.findOne (byId 1) (tasks Sample.board) = Some (Sample.task 1 todo 0) /\
  succeeded (snd r) = true /\
  tasks (fst r) <> tasks Sample.board /\
  assignments (column (fst r) 7 done) = [(1, 0%Z)] /\
  assignments (column (fst r) 7 inprogress) = [(3, 0%Z); (4, 0%Z)].
Proof. repeat split; try reflexivity. vm_compute. discriminate. Qed.

(** ** Sorted permutations of tasks *)

Lemma sorted_tasks_eq (l1 : list Task.t) : forall l2,
  StronglySorted (fun a b => order_asc a b = true) l1 ->
  StronglySorted (fun a b => order_asc a b = true) l2 ->
  NoDup (orders l1) -> Permutation l1 l2 -> l1 = l2.
Proof.
  induction l1 as [|x l1 IH]; intros l2 S1 S2 Hn P.
  - apply Permutation_nil in P. now subst.
  - destruct l2 as [|y l2];
      [apply Permutation_sym, Permutation_nil in P; discriminate|].
    apply StronglySorted_inv in S1, S2.
    destruct S1 as [S1 H1], S2 as [S2 H2].
    rewrite Forall_forall in H1, H2.
    simpl in Hn. inversion Hn as [|? ? Hnin Hn']; subst.
    assert (x = y).
    { assert (Hx : In x (y :: l2))
        by (eapply Permutation_in; [exact P | now left]).
      assert (Hy : In y (x :: l1))
        by (eapply Permutation_in; [apply Permutation_sym, P | now left]).
      destruct Hx as [->|Hx]; [reflexivity|].
      destruct Hy as [->|Hy]; [reflexivity|].
      specialize (H1 _ Hy). specialize (H2 _ Hx).
      unfold order_asc in H1, H2. apply Z.leb_le in H1, H2.
      exfalso. apply Hnin.
      replace (Task.order x) with (Task.order y) by lia.
      now apply in_map. }
    subst y. f_equal. apply IH; auto.
    eapply Permutation_cons_inv; eauto.
Qed.

Lemma upto_NoDup (n : nat) : NoDup (upto n).
Proof.
  unfold upto. generalize 0.
  induction n as [|n IH]; intros a; simpl; constructor; [|apply IH].
  intros H. apply in_map_iff in H. destruct H as (k & E & Hk).
  apply in_seq in Hk. lia.
Qed.

Lemma StronglySorted_orders (l : list Task.t) :
  StronglySorted leZ (orders l) ->
  StronglySorted (fun a b => order_asc a b = true) l.
Proof.
  induction l as [|x l IH]; simpl; intros S; [constructor|].
  apply StronglySorted_inv in S. destruct S as [S H].
  constructor; [auto|].
  rewrite Forall_forall in *. intros y Hy.
  apply (H (Task.order y)). now apply in_map.
Qed.

(** A list of the selected tasks whose orders are [0 .. n-1] in sequence
    is the sorted query. *)
Lemma sortByOrder_is (L F : list Task.t) (n : nat) :
  Permutation L F -> orders L = upto n -> sortByOrder F = L.
Proof.
  intros P Ho. symmetry. apply sorted_tasks_eq.
  - apply StronglySorted_orders. rewrite Ho. apply upto_sorted_from.
  - apply (@sort_sorted _ _ order_asc_total order_asc_trans).
  - rewrite Ho. apply upto_NoDup.
  - eapply Permutation_trans; [exact P|]. apply Permutation_sym, sort_perm.
Qed.

Lemma findIndex_app_hit (A : Type) (q : A -> bool) (l1 l2 : list A) (x : A) :
  (forall y, In y l1 -> q y = false) -> q x = true ->
  JsArray.findIndex q (l1 ++ x :: l2) = Some (List.length l1).
Proof.
  intros H1 Hx. induction l1 as [|y l1 IH]; simpl.
  - now rewrite Hx.
  - rewrite (H1 y) by now left. rewrite IH; [reflexivity|].
    intros; apply H1; now right.
Qed.

Lemma filter_app_miss (A : Type) (q : A -> bool) (l1 l2 : list A) (x : A) :
  (forall y, In y (l1 ++ l2) -> q y = true) -> q x = false ->
  filter q (l1 ++ x :: l2) = l1 ++ l2.
Proof.
  intros H Hx. rewrite filter_app. simpl. rewrite Hx.
  rewrite <- filter_app. apply forallb_filter_id.
  apply forallb_forall. exact H.
Qed.

(** The in-column branch, as a sequence: the column afterwards is the
    rearranged column, numbered anew. *)
Lemma reorder_in_column_sequence now db p s tid idx i :
  uniqueIds (tasks db) -> (0 <= idx)%Z ->
  Mongo.findOne (projectById p) (projects db) <> None ->
  indexInColumn db p s tid = Some i ->
  let l' := movedColumn (column db p s) i (Z.to_nat idx) in
  column (fst (reorder now db p (mkReorder tid s s idx true))) p s
  = map (renumbered now 0 l') l'.
Proof.
  intros Hu Hi Hp Hk l'.
  rewrite (@reorder_in_column now db p s tid idx i Hu Hi Hp Hk).
  cbn [fst]. fold l'. unfold column. cbn [tasks].
  assert (Hl' : Permutation l' (Mongo.find (inColumn p s) (tasks db))).
  { eapply Permutation_trans; [apply movedColumn_perm | apply column_perm]. }
  assert (Hn : NoDup (map Task._id l')).
  { eapply Permutation_NoDup;
      [apply Permutation_map, Permutation_sym, Hl'|].
    apply NoDup_map_filter, Hu. }
  apply sortByOrder_is with (n := List.length l').
  - unfold Mongo.find.
    rewrite filter_map_comm by (intros x; apply renumbered_inColumn).
    apply Permutation_map, Hl'.
  - unfold orders. rewrite map_map. apply renumbered_orders, Hn.
Qed.

Lemma findIndex_map (A : Type) (q : A -> bool) (g : A -> A) (l : list A) :
  (forall x, q (g x) = q x) ->
  JsArray.findIndex q (map g l) = JsArray.findIndex q l.
Proof.
  intros Hq. induction l as [|x l IH]; simpl; [reflexivity|].
  now rewrite Hq, IH.
Qed.

Lemma firstn_In (A : Type) (n : nat) (l : list A) (y : A) :
  In y (firstn n l) -> In y l.
Proof.
  intros H. rewrite <- (firstn_skipn n l). apply in_or_app. now left.
Qed.

Lemma skipn_In (A : Type) (n : nat) (l : list A) (y : A) :
  In y (skipn n l) -> In y l.
Proof.
  intros H. rewrite <- (firstn_skipn n l). apply in_or_app. now right.
Qed.

(** A column cut at the moved task. *)
Lemma column_cut col i x tid :
  NoDup (map Task._id col) -> nth_error col i = Some x ->
  byId tid x = true ->
  let rest := firstn i col ++ skipn (i + 1) col in
  (forall y, In y rest -> byId tid y = false) /\
  List.length rest = List.length col - 1 /\
  filter (fun y => negb (byId tid y)) col = rest.
Proof.
  intros Hn Hx Hid rest.
  assert (Hi : i < List.length col) by (apply nth_error_Some; congruence).
  pose proof (nth_error_cut _ _ Hx) as Hcut.
  assert (Hrest : forall y, In y rest -> byId tid y = false).
  { intros y Hy. destruct (byId tid y) eqn:E; [exfalso | reflexivity].
    rewrite Hcut, map_app in Hn. simpl in Hn.
    apply NoDup_remove_2 in Hn. apply Hn.
    apply byId_spec in Hid, E. rewrite Hid, <- E, <- map_app.
    now apply in_map. }
  split; [exact Hrest|]. split.
  - unfold rest. rewrite length_app, length_firstn, length_skipn. lia.
  - rewrite Hcut at 1. apply filter_app_miss.
    + intros y Hy. fold rest in Hy. now rewrite (Hrest y Hy).
    + now rewrite Hid.
Qed.

Lemma movedColumn_unfold col i j x :
  nth_error col i = Some x ->
  movedColumn col i j
  = firstn j (firstn i col ++ skipn (i + 1) col)
    ++ x :: skipn j (firstn i col ++ skipn (i + 1) col).
Proof.
  intros Hx. unfold movedColumn. rewrite Hx.
  unfold JsArray.splice; simpl. now rewrite Nat.add_0_r.
Qed.

(** After an in-column move the task sits at the requested index of its
    column, or last when the index is beyond the end. *)
Lemma reorder_in_column_index now db p s tid idx i :
  uniqueIds (tasks db) -> (0 <= idx)%Z ->
  Mongo.findOne (projectById p) (projects db) <> None ->
  indexInColumn db p s tid = Some i ->
  indexInColumn (fst (reorder now db p (mkReorder tid s s idx true))) p s tid
  = Some (Nat.min (Z.to_nat idx) (List.length (column db p s) - 1)).
Proof.
  intros Hu Hi Hp Hk. unfold indexInColumn at 1.
  rewrite (@reorder_in_column_sequence now db p s tid idx i Hu Hi Hp Hk).
  rewrite findIndex_map
    by (intros x; unfold byId; now rewrite renumbered_id).
  destruct (@indexInColumn_task db p s tid i Hu Hk)
    as (T & HT & _ & Hid & _ & _).
  destruct (@column_cut _ _ _ tid (@column_ids db p s Hu) HT Hid)
    as (Hrest & Hlen & _).
  rewrite (@movedColumn_unfold _ _ (Z.to_nat idx) _ HT).
  rewrite findIndex_app_hit.
  - now rewrite length_firstn, Hlen.
  - intros y Hy. apply Hrest. eapply firstn_In; eauto.
  - exact Hid.
Qed.

(** An in-column move keeps the other tasks of the column in the sequence
    they had. *)
Lemma reorder_in_column_relative now db p s tid idx i :
  uniqueIds (tasks db) -> (0 <= idx)%Z ->
  Mongo.findOne (projectById p) (projects db) <> None ->
  indexInColumn db p s tid = Some i ->
  idsWithout tid (column (fst (reorder now db p (mkReorder tid s s idx true))) p s)
  = idsWithout tid (column db p s).
Proof.
  intros Hu Hi Hp Hk. unfold idsWithout.
  rewrite (@reorder_in_column_sequence now db p s tid idx i Hu Hi Hp Hk).
  rewrite filter_map_comm
    by (intros x; unfold byId; now rewrite renumbered_id).
  rewrite map_map.
  rewrite (map_ext _ Task._id) by (intros x; apply renumbered_id).
  destruct (@indexInColumn_task db p s tid i Hu Hk)
    as (T & HT & _ & Hid & _ & _).
  destruct (@column_cut _ _ _ tid (@column_ids db p s Hu) HT Hid)
    as (Hrest & _ & Hcol).
  rewrite Hcol, (@movedColumn_unfold _ _ (Z.to_nat idx) _ HT).
  f_equal. rewrite filter_app_miss.
  - apply firstn_skipn.
  - intros y Hy. rewrite firstn_skipn in Hy. now rewrite (Hrest y Hy).
  - now rewrite Hid.
Qed.

(** ** The columns after a cross-column move, as sequences *)

Lemma app_inv_length (A : Type) (l1 : list A) : forall l2 r1 r2,
  l1 ++ r1 = l2 ++ r2 -> List.length l1 = List.length l2 ->
  l1 = l2 /\ r1 = r2.
Proof.
  induction l1 as [|x l1 IH]; intros [|y l2] r1 r2 E L;
    simpl in *; try discriminate; [now split|].
  injection E as -> E. injection L as L.
  destruct (IH _ _ _ E L) as [-> ->]. now split.
Qed.

Lemma orders_split (col : list Task.t) (n k : nat) :
  orders col = upto n -> k <= n ->
  orders (firstn k col) = upto k /\
  orders (skipn k col) = map Z.of_nat (seq k (n - k)).
Proof.
  intros Ho Hk.
  assert (Hlen : List.length col = n).
  { apply (f_equal (@List.length Z)) in Ho.
    unfold orders, upto in Ho. now rewrite !length_map, length_seq in Ho. }
  apply app_inv_length.
  - unfold orders. rewrite <- map_app, firstn_skipn.
    fold (orders col). rewrite Ho. now apply upto_split.
  - unfold orders, upto. rewrite !length_map, length_firstn, length_seq. lia.
Qed.

Lemma closeGap_low (i : nat) : map (closeGap (Z.of_nat i)) (upto i) = upto i.
Proof.
  unfold upto. rewrite map_map. apply map_ext_in.
  intros k Hk. apply in_seq in Hk. unfold closeGap.
  replace (Z.of_nat i <? Z.of_nat k)%Z with false
    by (symmetry; apply Z.ltb_ge; lia).
  reflexivity.
Qed.

Lemma closeGap_high (i k : nat) :
  map (closeGap (Z.of_nat i)) (map Z.of_nat (seq (S i) k))
  = map Z.of_nat (seq i k).
Proof.
  rewrite <- seq_shift, !map_map. apply map_ext_in.
  intros a Ha. apply in_seq in Ha. unfold closeGap.
  replace (Z.of_nat i <? Z.of_nat (S a))%Z with true
    by (symmetry; apply Z.ltb_lt; lia).
  lia.
Qed.

Lemma openGap_low (j : nat) : map (openGap (Z.of_nat j)) (upto j) = upto j.
Proof.
  unfold upto. rewrite map_map. apply map_ext_in.
  intros k Hk. apply in_seq in Hk. unfold openGap.
  replace (Z.of_nat j <=? Z.of_nat k)%Z with false
    by (symmetry; apply Z.leb_gt; lia).
  reflexivity.
Qed.

Lemma openGap_high (j k : nat) :
  map (openGap (Z.of_nat j)) (map Z.of_nat (seq j k))
  = map Z.of_nat (seq (S j) k).
Proof.
  rewrite <- seq_shift, !map_map. apply map_ext_in.
  intros a Ha. apply in_seq in Ha. unfold openGap.
  replace (Z.of_nat j <=? Z.of_nat a)%Z with true
    by (symmetry; apply Z.leb_le; lia).
  lia.
Qed.

Section AcrossSequence.
Variables (now : nat -> Z) (db : DB) (p tid : ObjectId) (A B : Status).
Variables (i j : nat) (T : Task.t).
Hypothesis Hu : uniqueIds (tasks db).
Hypothesis HdA : dense db p A.
Hypothesis HdB : dense db p B.
Hypothesis Hab : A <> B.
Hypothesis HT : nth_error (column db p A) i = Some T.
Hypothesis Hid : byId tid T = true.
Hypothesis Hj : j <= List.length (column db p B).

Let h := crossed now p (mkReorder tid A B (Z.of_nat j) true) T.
Let restA := firstn i (column db p A) ++ skipn (i + 1) (column db p A).

Local Lemma across_T : In T (tasks db) /\ inColumn p A T = true.
Proof. apply column_In. eapply nth_error_In; eauto. Qed.

Local Lemma across_order_T : Task.order T = Z.of_nat i.
Proof. exact (@dense_nth _ _ _ _ _ HdA HT). Qed.

Local Lemma across_uniq x : In x (tasks db) -> byId tid x = true -> x = T.
Proof.
  intros Hx Hq. destruct across_T as [Hin _].
  apply byId_spec in Hq, Hid.
  eapply uniqueIds_inj; eauto. congruence.
Qed.

Local Lemma across_notA s : s <> A -> inColumn p s T = false.
Proof.
  intros Hs. destruct across_T as [_ Hc].
  destruct (inColumn p s T) eqn:E; [|reflexivity].
  apply inColumn_spec in E, Hc. destruct E, Hc. congruence.
Qed.

Local Lemma across_select s (q' : Task.t -> bool) :
  (forall x, In x (tasks db) -> inColumn p s (h x) = q' x) ->
  Mongo.find (inColumn p s) (map h (tasks db)) = map h (filter q' (tasks db)).
Proof.
  intros Hq'. unfold Mongo.find. rewrite filter_map_gen.
  f_equal. apply filter_ext_in. exact Hq'.
Qed.

Local Lemma across_select_A :
  Mongo.find (inColumn p A) (map h (tasks db))
  = map h (filter (fun x => inColumn p A x && negb (byId (Task._id T) x))
             (tasks db)).
Proof.
  destruct across_T as [_ Hc].
  assert (Htid : tid = Task._id T) by (symmetry; now apply byId_spec).
  apply across_select. intros x Hx. rewrite <- Htid.
  destruct (byId tid x) eqn:Ex.
  - rewrite (across_uniq x Hx Ex). unfold h.
    rewrite crossed_moved_inColumn by assumption.
    rewrite (Status_eqb_neq (not_eq_sym Hab)), andb_false_r. reflexivity.
  - unfold h. rewrite crossed_other_inColumn by assumption.
    now rewrite andb_true_r.
Qed.

Local Lemma across_select_B :
  Mongo.find (inColumn p B) (map h (tasks db))
  = map h (filter (fun x => inColumn p B x || byId (Task._id T) x)
             (tasks db)).
Proof.
  destruct across_T as [_ Hc].
  assert (Htid : tid = Task._id T) by (symmetry; now apply byId_spec).
  apply across_select. intros x Hx. rewrite <- Htid.
  destruct (byId tid x) eqn:Ex.
  - rewrite (across_uniq x Hx Ex). unfold h.
    rewrite crossed_moved_inColumn by assumption.
    rewrite Status_eqb_refl, orb_true_r. reflexivity.
  - unfold h. rewrite crossed_other_inColumn by assumption.
    now rewrite orb_false_r.
Qed.

Local Lemma across_restA x :
  In x restA ->
  In x (tasks db) /\ inColumn p A x = true /\ byId tid x = false.
Proof.
  intros Hx.
  destruct (@column_cut _ _ _ tid (@column_ids db p A Hu) HT Hid)
    as (Hrest & _ & _).
  assert (In x (column db p A)).
  { unfold restA in Hx. apply in_app_or in Hx.
    destruct Hx; [eapply firstn_In | eapply skipn_In]; eauto. }
  apply column_In in H. destruct H. repeat split; auto.
Qed.

Local Lemma across_colB x :
  In x (column db p B) ->
  inColumn p B x = true /\ inColumn p A x = false /\ byId tid x = false.
Proof.
  intros Hx. apply column_In in Hx. destruct Hx as [Hx HxB].
  split; [exact HxB|]. split.
  - destruct (inColumn p A x) eqn:E; [|reflexivity].
    apply inColumn_spec in HxB, E. destruct HxB, E. congruence.
  - destruct (byId tid x) eqn:E; [|reflexivity].
    rewrite (across_uniq x Hx E) in HxB.
    rewrite (across_notA (not_eq_sym Hab)) in HxB. discriminate.
Qed.

(** The source column afterwards: the tasks that stay, in sequence. *)
Lemma across_source_sequence :
  sortByOrder (Mongo.find (inColumn p A) (map h (tasks db))) = map h restA.
Proof.
  destruct across_T as [Hin Hc].
  assert (Hi : i < List.length (column db p A))
    by (apply nth_error_Some; congruence).
  apply sortByOrder_is with (n := List.length (column db p A) - 1).
  - rewrite across_select_A. apply Permutation_map.
    pose proof (@filter_without (inColumn p A) (tasks db) T Hu Hin Hc) as PA.
    apply Permutation_cons_inv with (a := T).
    eapply Permutation_trans; [|exact PA].
    eapply Permutation_trans; [|apply column_perm].
    rewrite (nth_error_cut _ _ HT) at 1. apply Permutation_middle.
  - assert (Ho : orders (map h restA)
                 = map (closeGap (Z.of_nat i)) (orders restA)).
    { unfold orders. rewrite !map_map. apply map_ext_in. intros x Hx.
      destruct (across_restA x Hx) as (_ & HxA & Ex).
      unfold h. rewrite crossed_other by assumption.
      rewrite HxA, across_order_T. unfold closeGap. booleans.
      destruct (Z.of_nat i <? Task.order x)%Z; [reflexivity|].
      assert (EB : inColumn p B x = false).
      { destruct (inColumn p B x) eqn:E; [|reflexivity].
        apply inColumn_spec in HxA, E. destruct HxA, E. congruence. }
      now rewrite EB. }
    rewrite Ho. unfold restA, orders. rewrite map_app. fold (orders (firstn i (column db p A))).
    fold (orders (skipn (i + 1) (column db p A))).
    destruct (@orders_split (column db p A) _ i HdA) as [-> _]; [lia|].
    destruct (@orders_split (column db p A) _ (i + 1) HdA) as [_ ->]; [lia|].
    rewrite map_app, closeGap_low.
    replace (i + 1) with (S i) by lia. rewrite closeGap_high.
    rewrite (@upto_split i (List.length (column db p A) - 1)) by lia.
    do 3 f_equal. lia.
Qed.

(** The destination column afterwards: the task at index [j], the tasks
    that were there around it, in sequence. *)
Lemma across_destination_sequence :
  sortByOrder (Mongo.find (inColumn p B) (map h (tasks db)))
  = map h (firstn j (column db p B)) ++ h T :: map h (skipn j (column db p B)).
Proof.
  destruct across_T as [Hin Hc].
  apply sortByOrder_is with (n := S (List.length (column db p B))).
  - rewrite across_select_B.
    pose proof (@filter_with (inColumn p B) (tasks db) T Hu Hin
                  (across_notA (not_eq_sym Hab))) as PB.
    change (h T :: map h (skipn j (column db p B)))
      with (map h (T :: skipn j (column db p B))).
    rewrite <- map_app. apply Permutation_map.
    eapply Permutation_trans; [|apply Permutation_sym, PB].
    apply Permutation_sym, Permutation_cons_app.
    rewrite firstn_skipn. apply Permutation_sym, column_perm.
  - assert (Ho : forall l, (forall x, In x l -> In x (column db p B)) ->
                           orders (map h l)
                           = map (openGap (Z.of_nat j)) (orders l)).
    { intros l Hl. unfold orders. rewrite !map_map. apply map_ext_in.
      intros x Hx. destruct (across_colB x (Hl x Hx)) as (HxB & EA & Ex).
      unfold h. rewrite crossed_other by assumption.
      rewrite EA, HxB. unfold openGap. booleans.
      destruct (Z.of_nat j <=? Task.order x)%Z; reflexivity. }
    unfold orders. rewrite map_app. cbn [map].
    fold (orders (map h (firstn j (column db p B)))).
    fold (orders (map h (skipn j (column db p B)))).
    rewrite !Ho
      by (intros x Hx;
          solve [eapply firstn_In; eauto | eapply skipn_In; eauto]).
    destruct (@orders_split (column db p B) _ j HdB Hj) as [-> ->].
    rewrite openGap_low, openGap_high.
    unfold h. rewrite crossed_moved by assumption.
    rewrite order_setStatusOrder.
    rewrite (@upto_split j (S (List.length (column db p B)))) by lia.
    f_equal.
    replace (S (List.length (column db p B)) - j)
      with (S (List.length (column db p B) - j)) by lia.
    reflexivity.
Qed.
End AcrossSequence.

(** The columns of a cross-column move, with the hypotheses of
    [reorder_across_dense]: the source column is the old one without the
    task, the destination column is the old one with the task at the
    index, each numbered as the branch stores it. *)
Lemma reorder_across_sequence now db p tid A B i j :
  uniqueIds (tasks db) ->
  Mongo.findOne (projectById p) (projects db) <> None ->
  dense db p A -> dense db p B -> A <> B ->
  indexInColumn db p A tid = Some i ->
  j <= List.length (column db p B) ->
  let r := reorder now db p (mkReorder tid A B (Z.of_nat j) true) in
  map Task._id (column (fst r) p A) = idsWithout tid (column db p A) /\
  map Task._id (column (fst r) p B)
  = map Task._id (firstn j (column db p B))
    ++ tid :: map Task._id (skipn j (column db p B)).
Proof.
  intros Hu Hp HdA HdB Hab Hk Hj r.
  destruct (@indexInColumn_task db p A tid i Hu Hk)
    as (T & HT & Hin & Hid & Hc & Hf).
  assert (Hr : r = reorder now db p (mkReorder tid A B (Z.of_nat j) true))
    by reflexivity.
  rewrite (@reorder_across now db p (mkReorder tid A B (Z.of_nat j) true) T
             Hu (Nat2Z.is_nonneg j) Hp Hf Hab) in Hr.
  rewrite Hr. cbn [fst]. unfold column at 1 3. cbn [tasks].
  rewrite (@across_source_sequence now db p tid A B i j T
             Hu HdA Hab HT Hid Hj).
  rewrite (@across_destination_sequence now db p tid A B i j T
             Hu HdB Hab HT Hid Hj).
  set (h := crossed now p (mkReorder tid A B (Z.of_nat j) true) T).
  assert (Hh : forall l, map Task._id (map h l) = map Task._id l).
  { intros l. rewrite map_map. apply map_ext. intros x. apply crossed_id. }
  split.
  - rewrite Hh. unfold idsWithout.
    destruct (@column_cut _ _ _ tid (@column_ids db p A Hu) HT Hid)
      as (_ & _ & ->).
    reflexivity.
  - rewrite map_app. cbn [map]. rewrite !Hh. unfold h. rewrite crossed_id.
    apply byId_spec in Hid. now rewrite Hid.
Qed.

(** ** Moves: where the task lands, what stays in sequence, what is left alone *)

Lemma idsWithout_ids tid l :
  idsWithout tid l = filter (fun i => negb (i =? tid)) (map Task._id l).
Proof.
  unfold idsWithout. induction l as [|x l IH]; simpl; [reflexivity|].
  unfold byId at 1. destruct (Task._id x =? tid); simpl; now rewrite IH.
Qed.

Lemma findIndex_ids tid l :
  JsArray.findIndex (byId tid) l
  = JsArray.findIndex (fun i => i =? tid) (map Task._id l).
Proof.
  induction l as [|x l IH]; simpl; [reflexivity|].
  unfold byId at 1. now rewrite IH.
Qed.

(** A task that is not in a column is not among its identifiers. *)
Lemma column_without db p s tid :
  (forall x, In x (column db p s) -> byId tid x = false) ->
  idsWithout tid (column db p s) = map Task._id (column db p s).
Proof.
  intros H. unfold idsWithout. f_equal.
  apply forallb_filter_id. apply forallb_forall.
  intros x Hx. now rewrite (H x Hx).
Qed.

Lemma elsewhere_not_here db p A B tid T :
  uniqueIds (tasks db) -> A <> B ->
  In T (tasks db) -> byId tid T = true -> inColumn p A T = true ->
  forall x, In x (column db p B) -> byId tid x = false.
Proof.
  intros Hu Hab Hin Hid Hc x Hx.
  apply column_In in Hx. destruct Hx as [Hx HxB].
  destruct (byId tid x) eqn:E; [exfalso | reflexivity].
  apply byId_spec in E, Hid.
  assert (x = T) by (eapply uniqueIds_inj; eauto; congruence). subst x.
  apply inColumn_spec in Hc, HxB. destruct Hc, HxB. congruence.
Qed.

(** X1: on a board with unique identifiers whose columns are all dense, a
    move of a task that is in the source column the request names, to any
    non-negative index (in-column, for a request that spells the
    identifier of the task in lower case, as the server does) or to an
    index up to the length of the destination column (cross-column),
    succeeds and leaves every column of the project dense. *)
Theorem X1_valid_move_keeps_density
    (now : nat -> Z) (db : DB) (p : ObjectId) (body : ReorderBody) (i : nat) :
  uniqueIds (tasks db) ->
  Mongo.findOne (projectById p) (projects db) <> None ->
  (forall s, dense db p s) ->
  indexInColumn db p (sourceStatus body) (taskId body) = Some i ->
  (0 <= destinationIndex body)%Z ->
  (sourceStatus body <> destinationStatus body ->
   (destinationIndex body
    <= Z.of_nat (List.length (column db p (destinationStatus body))))%Z) ->
  (sourceStatus body = destinationStatus body ->
   taskIdLowerCase body = true) ->
  succeeded (snd (reorder now db p body)) = true /\
  forall s, dense (fst (reorder now db p body)) p s.
Proof.
  intros Hu Hp Hd Hk Hi Hj Hl.
  exact (@reorder_keeps_density now db p body i Hu Hp Hd Hk Hi Hj Hl).
Qed.

(** X2: an in-column move whose request spells the identifier of the task
    in lower case, as the server does, renumbers its column from 0
    whatever the orders were before (gaps, duplicates), keeps its length,
    and leaves the other columns of the project as they were. *)
Theorem X2_in_column_move_restores_density
    (now : nat -> Z) (db : DB) (p : ObjectId) (s : Status) (tid : ObjectId)
    (idx : Z) (i : nat) :
  uniqueIds (tasks db) -> (0 <= idx)%Z ->
  Mongo.findOne (projectById p) (projects db) <> None ->
  indexInColumn db p s tid = Some i ->
  let db' := fst (reorder now db p (mkReorder tid s s idx true)) in
  dense db' p s /\
  List.length (column db' p s) = List.length (column db p s) /\
  forall C, C <> s -> column db' p C = column db p C.
Proof.
  intros Hu Hi Hp Hk db'.
  destruct (@reorder_in_column_dense now db p s tid idx i Hu Hi Hp Hk)
    as (_ & Hd & Hl).
  repeat split; auto.
  intros C HC. apply (@reorder_in_column_others now db p s tid idx i C); auto.
Qed.

(** X3: after an in-column move whose request spells the identifier of
    the task in lower case, as the server does, the task is at the
    requested index of its column, or at the last position when the index
    is beyond the end, and the other tasks of the column follow one
    another as before. *)
Theorem X3_in_column_move_lands_at_index
    (now : nat -> Z) (db : DB) (p : ObjectId) (s : Status) (tid : ObjectId)
    (idx : Z) (i : nat) :
  uniqueIds (tasks db) -> (0 <= idx)%Z ->
  Mongo.findOne (projectById p) (projects db) <> None ->
  indexInColumn db p s tid = Some i ->
  let db' := fst (reorder now db p (mkReorder tid s s idx true)) in
  indexInColumn db' p s tid
  = Some (Nat.min (Z.to_nat idx) (List.length (column db p s) - 1)) /\
  idsWithout tid (column db' p s) = idsWithout tid (column db p s).
Proof.
  intros Hu Hi Hp Hk db'. split.
  - apply (@reorder_in_column_index now db p s tid idx i); auto.
  - apply (@reorder_in_column_relative now db p s tid idx i); auto.
Qed.

(** X4: after a cross-column move between dense columns, to an index
    within the destination column, the task is at that index of the
    destination column and no longer in the source column; the tasks
    that were in either column follow one another as before. *)
Theorem X4_cross_column_move_lands_at_index
    (now : nat -> Z) (db : DB) (p tid : ObjectId) (A B : Status) (i j : nat)
    (lower : bool) :
  uniqueIds (tasks db) ->
  Mongo.findOne (projectById p) (projects db) <> None ->
  dense db p A -> dense db p B -> A <> B ->
  indexInColumn db p A tid = Some i ->
  j <= List.length (column db p B) ->
  let db' := fst (reorder now db p (mkReorder tid A B (Z.of_nat j) lower)) in
  indexInColumn db' p B tid = Some j /\
  indexInColumn db' p A tid = None /\
  map Task._id (column db' p A) = idsWithout tid (column db p A) /\
  idsWithout tid (column db' p B) = map Task._id (column db p B).
Proof.
  intros Hu Hp HdA HdB Hab Hk Hj db'. subst db'.
  rewrite (@reorder_across_spelling now db p tid A B (Z.of_nat j) lower Hab).
  set (db' := fst (reorder now db p (mkReorder tid A B (Z.of_nat j) true))).
  destruct (@reorder_across_sequence now db p tid A B i j
              Hu Hp HdA HdB Hab Hk Hj) as [SA SB].
  fold db' in SA, SB.
  destruct (@indexInColumn_task db p A tid i Hu Hk)
    as (T & HT & Hin & Hid & Hc & _).
  pose proof (@elsewhere_not_here db p A B tid T Hu Hab Hin Hid Hc) as HB.
  assert (HBids : forall y, In y (map Task._id (column db p B)) ->
                            (y =? tid) = false).
  { intros y Hy. apply in_map_iff in Hy. destruct Hy as (x & <- & Hx).
    exact (HB x Hx). }
  repeat split.
  - unfold indexInColumn. rewrite findIndex_ids, SB.
    rewrite findIndex_app_hit.
    + rewrite length_map, length_firstn. f_equal. lia.
    + intros y Hy. apply HBids. rewrite <- firstn_map in Hy.
      eapply firstn_In; eauto.
    + apply Nat.eqb_refl.
  - unfold indexInColumn. rewrite findIndex_ids, SA.
    apply findIndex_None. intros y Hy. unfold idsWithout in Hy.
    apply in_map_iff in Hy. destruct Hy as (x & <- & Hx).
    apply filter_In in Hx. destruct Hx as [_ Hx].
    now apply negb_true_iff in Hx.
  - exact SA.
  - rewrite idsWithout_ids, SB. rewrite filter_app_miss.
    + now rewrite <- map_app, firstn_skipn.
    + intros y Hy. rewrite <- map_app, firstn_skipn in Hy.
      now rewrite (HBids y Hy).
    + now rewrite Nat.eqb_refl.
Qed.

Lemma sample_board_ids : uniqueIds (tasks Sample.board).
Proof.
  unfold uniqueIds. simpl. repeat constructor; simpl; intuition discriminate.
Qed.

Lemma sample_gappy_ids : uniqueIds (tasks Sample.gappy).
Proof.
  unfold uniqueIds. simpl. repeat constructor; simpl; intuition discriminate.
Qed.

Lemma sample_todo3_ids : uniqueIds (tasks Sample.todo3).
Proof.
  unfold uniqueIds. simpl. repeat constructor; simpl; intuition discriminate.
Qed.

Lemma sample_board_dense s : dense Sample.board 7 s.
Proof. apply denseb_spec. destruct s; reflexivity. Qed.

Lemma X1_valid_move_keeps_density_witness :
  indexInColumn Sample.board 7 todo 1 = Some 0 /\
  forall s,
    dense (fst (reorder Sample.clock Sample.board 7
                  (mkReorder 1 todo inprogress 2 true))) 7 s.
Proof.
  split; [reflexivity|].
  apply (@X1_valid_move_keeps_density Sample.clock Sample.board 7
           (mkReorder 1 todo inprogress 2 true) 0).
  - exact sample_board_ids.
  - discriminate.
  - exact sample_board_dense.
  - reflexivity.
  - simpl. lia.
  - intros _. simpl. lia.
  - intros _. reflexivity.
Defined.

Lemma X2_in_column_move_restores_density_witness :
  ~ dense Sample.gappy 7 todo /\
  dense (fst (reorder Sample.clock Sample.gappy 7 (mkReorder 3 todo todo 0 true)))
    7 todo.
Proof.
  split.
  - intros H. apply denseb_spec in H. discriminate.
  - apply (@X2_in_column_move_restores_density Sample.clock Sample.gappy 7
             todo 3 0 1).
    + exact sample_gappy_ids.
    + lia.
    + discriminate.
    + reflexivity.
Defined.

Lemma X3_in_column_move_lands_at_index_witness :
  indexInColumn Sample.todo3 7 todo 1 = Some 0 /\
  indexInColumn
    (fst (reorder Sample.clock Sample.todo3 7 (mkReorder 1 todo todo 9 true)))
    7 todo 1
  = Some 2.
Proof.
  split; [reflexivity|].
  apply (@X3_in_column_move_lands_at_index Sample.clock Sample.todo3 7
           todo 1 9 0).
  - exact sample_todo3_ids.
  - lia.
  - discriminate.
  - reflexivity.
Defined.

Lemma X4_cross_column_move_lands_at_index_witness :
  indexInColumn Sample.board 7 todo 2 = Some 1 /\
  indexInColumn
    (fst (reorder Sample.clock Sample.board 7 (mkReorder 2 todo inprogress 1 true)))
    7 inprogress 2
  = Some 1.
Proof.
  split; [reflexivity|].
  apply (@X4_cross_column_move_lands_at_index Sample.clock Sample.board 7 2
           todo inprogress 1 1 true).
  - exact sample_board_ids.
  - discriminate.
  - apply sample_board_dense.
  - apply sample_board_dense.
  - discriminate.
  - reflexivity.
  - simpl. lia.
Defined.

(** X5: an in-column request for a task that exists in the project but is
    not in the column the request names is answered 500 REORDER_ERROR and
    nothing is written. *)
Theorem X5_in_column_wrong_column_is_rejected
    (now : nat -> Z) (db : DB) (p : ObjectId) (body : ReorderBody)
    (task : Task.t) :
  uniqueIds (tasks db) ->
  (0 <= destinationIndex body)%Z ->
  Mongo.findOne (projectById p) (projects db) <> None ->
  In task (tasks db) ->
  Task._id task = taskId body ->
  Task.projectId task = p ->
  Task.status task <> sourceStatus body ->
  destinationStatus body = sourceStatus body ->
  reorder now db p body = (db, Failure 500 REORDER_ERROR).
Proof.
  intros Hu Hi Hp Hin Hid Hpr Hs Hd.
  apply (@reorder_in_column_stale now db p body task); auto.
  destruct (Mongo.findOne _ (tasks db)) as [t|] eqn:E.
  - f_equal. apply find_some_In in E. destruct E as [Ht Hq].
    apply andb_true_iff in Hq. destruct Hq as [Hq _].
    apply byId_spec in Hq.
    eapply uniqueIds_inj; eauto. congruence.
  - exfalso. eapply findOne_found; [exact Hin | | exact E].
    cbv beta. unfold byId, inProject.
    now rewrite Hid, Hpr, !Nat.eqb_refl.
Qed.

Lemma X5_in_column_wrong_column_is_rejected_witness :
  reorder Sample.clock Sample.board 7 (mkReorder 1 inprogress inprogress 0 true)
  = (Sample.board, Failure 500 REORDER_ERROR).
Proof.
  apply (@X5_in_column_wrong_column_is_rejected Sample.clock Sample.board 7
           (mkReorder 1 inprogress inprogress 0 true) (Sample.task 1 todo 0)).
  - exact sample_board_ids.
  - simpl. lia.
  - discriminate.
  - simpl. auto.
  - reflexivity.
  - reflexivity.
  - discriminate.
  - reflexivity.
Defined.

(** X6: a request on project p for a task stored under another project is
    answered 404 TASK_NOT_FOUND and nothing is written, whatever the rest
    of the request says. *)
Theorem X6_task_of_another_project_is_not_found
    (now : nat -> Z) (db : DB) (p : ObjectId) (body : ReorderBody)
    (task : Task.t) :
  uniqueIds (tasks db) ->
  (0 <= destinationIndex body)%Z ->
  Mongo.findOne (projectById p) (projects db) <> None ->
  In task (tasks db) ->
  Task._id task = taskId body ->
  Task.projectId task <> p ->
  reorder now db p body = (db, Failure 404 TASK_NOT_FOUND).
Proof.
  intros Hu Hi Hp Hin Hid Hpr. unfold reorder.
  apply Z.ltb_ge in Hi. rewrite Hi.
  destruct (Mongo.findOne (projectById p) (projects db)); [|congruence].
  destruct (Mongo.findOne _ (tasks db)) as [found|] eqn:E;
    [exfalso | reflexivity].
  apply find_some_In in E. destruct E as [Ht Hq].
  apply andb_true_iff in Hq. destruct Hq as [Hq Hq'].
  apply byId_spec in Hq. unfold inProject in Hq'. apply Nat.eqb_eq in Hq'.
  assert (found = task) by (eapply uniqueIds_inj; eauto; congruence).
  subst found. contradiction.
Qed.

Lemma X6_task_of_another_project_is_not_found_witness :
  reorder Sample.clock
    (mkDB [Sample.project; Project.mk 8 "Other" ""] (tasks Sample.board))
    8 (mkReorder 1 todo done 0 true)
  = (mkDB [Sample.project; Project.mk 8 "Other" ""] (tasks Sample.board),
     Failure 404 TASK_NOT_FOUND).
Proof.
  apply (@X6_task_of_another_project_is_not_found Sample.clock
           (mkDB [Sample.project; Project.mk 8 "Other" ""] (tasks Sample.board))
           8 (mkReorder 1 todo done 0 true) (Sample.task 1 todo 0)).
  - exact sample_board_ids.
  - simpl. lia.
  - discriminate.
  - simpl. auto.
  - reflexivity.
  - discriminate.
Defined.

Lemma renumbered_projectId now i l x :
  Task.projectId (renumbered now i l x) = Task.projectId x.
Proof. unfold renumbered. destruct (JsArray.findIndex _ l); reflexivity. Qed.

(** Every answer of the reorder route stores the tasks it found, each one
    possibly rewritten, and rewrites none that belongs to another
    project. *)
Lemma reorder_map_form now db p body :
  uniqueIds (tasks db) ->
  exists g,
    tasks (fst (reorder now db p body)) = map g (tasks db) /\
    forall x, In x (tasks db) ->
      Task.projectId (g x) = Task.projectId x /\
      (Task.projectId x <> p -> g x = x).
Proof.
  intros Hu.
  assert (Hsame : exists g,
             tasks db = map g (tasks db) /\
             forall x, In x (tasks db) ->
               Task.projectId (g x) = Task.projectId x /\
               (Task.projectId x <> p -> g x = x)).
  { exists (fun x => x). split; [now rewrite map_id | auto]. }
  unfold reorder.
  destruct (destinationIndex body <? 0)%Z; [exact Hsame|].
  destruct (Mongo.findOne _ (projects db)); [|exact Hsame].
  destruct (Mongo.findOne _ (tasks db)) as [task|] eqn:Et; [|exact Hsame].
  apply find_some_In in Et. destruct Et as [Hin Hq].
  apply andb_true_iff in Hq. destruct Hq as [Hid Hpr].
  unfold inProject in Hpr. apply Nat.eqb_eq in Hpr.
  destruct (Status_eqb _ _) eqn:Es.
  - destruct (taskIdLowerCase body) eqn:El;
      [|rewrite (@reorderInColumn_other now body _ (tasks db) El);
        exact Hsame].
    destruct (JsArray.findIndex (byId (taskId body))
                (sortByOrder
                   (Mongo.find (inColumn p (sourceStatus body)) (tasks db))))
      as [i|] eqn:Ek.
    + fold (column db p (sourceStatus body)) in Ek.
      destruct (findIndex_Some _ _ Ek) as (x & Hx & _).
      fold (column db p (sourceStatus body)).
      rewrite (@reorderInColumn_eq now body _ (tasks db) i x El Ek Hx).
      cbn [fst tasks].
      set (l' := movedColumn _ _ _).
      assert (Hl' : Permutation l' (column db p (sourceStatus body)))
        by apply movedColumn_perm.
      rewrite bulkWrite_renumbered; [|exact Hu|].
      * exists (renumbered now 0 l'). split; [reflexivity|].
        intros y Hy. split; [apply renumbered_projectId|].
        intros Hne. unfold renumbered.
        destruct (JsArray.findIndex _ l') as [k|] eqn:E; [exfalso | reflexivity].
        destruct (findIndex_Some _ _ E) as (z & Hz & Hzq).
        apply nth_error_In in Hz. apply (Permutation_in _ Hl') in Hz.
        apply column_In in Hz. destruct Hz as [Hz Hzc].
        apply byId_spec in Hzq.
        assert (z = y) by (eapply uniqueIds_inj; eauto). subst z.
        apply inColumn_spec in Hzc. tauto.
      * eapply Permutation_NoDup;
          [apply Permutation_map, Permutation_sym, Hl'|].
        apply column_ids, Hu.
    + unfold reorderInColumn.
      rewrite (@findIndex_sameIdString body _ El), Ek. exact Hsame.
  - cbn [fst tasks].
    rewrite reorderAcrossColumns_crossed by exact Hu.
    assert (Hab : sourceStatus body <> destinationStatus body)
      by (intros E; rewrite E, Status_eqb_refl in Es; discriminate).
    exists (crossed now p body task). split; [reflexivity|].
    intros y Hy. split; [apply crossed_projectId|].
    intros Hne.
    assert (Ey : byId (taskId body) y = false).
    { destruct (byId (taskId body) y) eqn:E; [exfalso | reflexivity].
      apply byId_spec in E, Hid.
      assert (y = task) by (eapply uniqueIds_inj; eauto; congruence).
      subst y. contradiction. }
    assert (Hnc : forall s, inColumn p s y = false).
    { intros s. unfold inColumn, inProject.
      apply Nat.eqb_neq in Hne. now rewrite Hne. }
    destruct body as [tid A B idx lower].
    cbn [taskId sourceStatus destinationStatus] in *.
    change (crossed now p (mkReorder tid A B idx lower) task y)
      with (crossed now p (mkReorder tid A B idx true) task y).
    rewrite crossed_other by assumption.
    now rewrite !Hnc.
Qed.

Lemma Forall2_map_in (A : Type) (R : A -> A -> Prop) (g : A -> A) (l : list A) :
  (forall x, In x l -> R x (g x)) -> Forall2 R l (map g l).
Proof.
  induction l as [|x l IH]; intros H; simpl; constructor.
  - apply H. now left.
  - apply IH. intros y Hy. apply H. now right.
Qed.

(** ** The scenario of the in-column move *)

(** A column whose tasks are known, with the orders [0 .. n-1] in
    sequence, is read in that sequence. *)
Lemma scenario_column db p s (L : list Task.t) (n : nat) :
  uniqueIds (tasks db) ->
  (forall x, In x (tasks db) /\ inColumn p s x = true <-> In x L) ->
  orders L = upto n ->
  column db p s = L.
Proof.
  intros Hu Hm Ho. unfold column. apply (@sortByOrder_is L _ n); [|exact Ho].
  apply NoDup_Permutation.
  - apply (NoDup_map_inv Task.order). fold (orders L). rewrite Ho.
    apply upto_NoDup.
  - unfold Mongo.find. apply NoDup_filter.
    apply (NoDup_map_inv Task._id). exact Hu.
  - intros x. rewrite <- Hm. unfold Mongo.find. rewrite filter_In. tauto.
Qed.

(** The tasks outside the column of an in-column move are not written. *)
Lemma reorder_in_column_outside now db p s tid idx i :
  uniqueIds (tasks db) -> (0 <= idx)%Z ->
  Mongo.findOne (projectById p) (projects db) <> None ->
  indexInColumn db p s tid = Some i ->
  Forall2 (fun a b => inColumn p s a = false -> b = a)
    (tasks db)
    (tasks (fst (reorder now db p (mkReorder tid s s idx true)))).
Proof.
  intros Hu Hi Hp Hk.
  rewrite (@reorder_in_column now db p s tid idx i Hu Hi Hp Hk).
  cbn [fst tasks]. apply Forall2_map_in. intros x Hx Hc.
  unfold renumbered.
  destruct (JsArray.findIndex _ _) as [k|] eqn:Ek; [exfalso | reflexivity].
  destruct (findIndex_Some _ _ Ek) as (y & Hy & Hq).
  apply nth_error_In in Hy.
  apply (Permutation_in _ (movedColumn_perm _ _ _)) in Hy.
  apply column_In in Hy. destruct Hy as [Hy Hys].
  apply byId_spec in Hq.
  assert (y = x) by (eapply uniqueIds_inj; eauto). subst y.
  congruence.
Qed.

(** C8: on a board with unique identifiers whose column "todo" holds
    exactly T1, T2 and T3 at the orders 0, 1 and 2, whatever else the
    board holds, the in-column move of T1 to index 2, requested with the
    identifier of T1 as the server spells it, succeeds and leaves the
    column as [T2, T3, T1] with T2 at order 0, T3 at order 1 and T1 at
    order 2; no task outside the column is written. *)
Theorem C8_in_column_scenario
    (now : nat -> Z) (db : DB) (p : ObjectId) (T1 T2 T3 : Task.t) :
  uniqueIds (tasks db) ->
  Mongo.findOne (projectById p) (projects db) <> None ->
  (forall x,
     In x (tasks db) /\ inColumn p todo x = true <-> In x [T1; T2; T3]) ->
  orders [T1; T2; T3] = [0; 1; 2]%Z ->
  let r := reorder now db p (mkReorder (Task._id T1) todo todo 2 true) in
  succeeded (snd r) = true /\
  assignments (column (fst r) p todo)
  = [(Task._id T2, 0%Z); (Task._id T3, 1%Z); (Task._id T1, 2%Z)] /\
  Forall2 (fun a b => inColumn p todo a = false -> b = a)
    (tasks db) (tasks (fst r)).
Proof.
  intros Hu Hp Hm Ho r.
  assert (Hcol : column db p todo = [T1; T2; T3])
    by (apply (@scenario_column db p todo [T1; T2; T3] 3 Hu Hm); exact Ho).
  assert (Hn : NoDup [Task._id T1; Task._id T2; Task._id T3]).
  { change (NoDup (map Task._id [T1; T2; T3])). rewrite <- Hcol.
    apply column_ids, Hu. }
  assert (Task._id T1 <> Task._id T2 /\ Task._id T1 <> Task._id T3
          /\ Task._id T2 <> Task._id T3) as (H12 & H13 & H23).
  { inversion Hn as [|? ? N1 Hn']; subst. inversion Hn' as [|? ? N2 _]; subst.
    simpl in N1, N2. repeat split; intros E; rewrite E in *; tauto. }
  assert (Hk : indexInColumn db p todo (Task._id T1) = Some 0).
  { unfold indexInColumn. rewrite Hcol. simpl. unfold byId.
    now rewrite Nat.eqb_refl. }
  assert (Hi : (0 <= 2)%Z) by lia.
  destruct (@reorder_in_column_dense now db p todo (Task._id T1) 2 0
              Hu Hi Hp Hk) as (Hok & _ & _).
  fold r in Hok.
  split; [exact Hok|]. split.
  - unfold r.
    rewrite (@reorder_in_column_sequence now db p todo (Task._id T1) 2 0
               Hu Hi Hp Hk).
    rewrite Hcol.
    change (movedColumn [T1; T2; T3] 0 (Z.to_nat 2)) with [T2; T3; T1].
    assert (H21 : Task._id T2 <> Task._id T1) by congruence.
    assert (H31 : Task._id T3 <> Task._id T1) by congruence.
    assert (H32 : Task._id T3 <> Task._id T2) by congruence.
    apply Nat.eqb_neq in H12, H13, H23, H21, H31, H32.
    unfold assignments, renumbered. simpl. unfold byId.
    repeat (first [ rewrite Nat.eqb_refl | rewrite H12 | rewrite H13
                  | rewrite H23 | rewrite H21 | rewrite H31 | rewrite H32 ];
            simpl).
    reflexivity.
  - apply (@reorder_in_column_outside now db p todo (Task._id T1) 2 0);
      assumption.
Qed.

Lemma C8_in_column_scenario_witness :
  let db :=
    mkDB [Sample.project]
      [Sample.task 4 inprogress 0; Sample.task 1 todo 0;
       Sample.task 2 todo 1; Sample.task 5 done 0; Sample.task 3 todo 2] in
  let r := reorder Sample.clock db 7 (mkReorder 1 todo todo 2 true) in
  assignments (column (fst r) 7 todo) = [(2, 0%Z); (3, 1%Z); (1, 2%Z)] /\
  column (fst r) 7 inprogress = column db 7 inprogress /\
  column (fst r) 7 done = column db 7 done.
Proof.
  intros db r.
  destruct (@C8_in_column_scenario Sample.clock db 7
              (Sample.task 1 todo 0) (Sample.task 2 todo 1)
              (Sample.task 3 todo 2))
    as (_ & H & _).
  - unfold uniqueIds. simpl.
    repeat constructor; simpl; intuition discriminate.
  - discriminate.
  - intros x. split.
    + intros [[<-|[<-|[<-|[<-|[<-|[]]]]]] Hc]; simpl in *;
        try discriminate; auto.
    + intros [<-|[<-|[<-|[]]]]; simpl; auto 10.
  - reflexivity.
  - split; [exact H|]. split; reflexivity.
Defined.

(** ** The spelling of the identifier *)

(** X25: an in-column request that spells the identifier of a task of the
    project otherwise than in lower case (a spelling the validator admits
    and the queries accept) is answered 500 REORDER_ERROR and nothing is
    written, even when the task is in the column the request names: the
    in-column branch looks for the task by comparing strings.  Across
    columns the same spelling is served as the lower-case one is. *)
Theorem X25_in_column_spelling_is_rejected
    (now : nat -> Z) (db : DB) (p : ObjectId) (task : Task.t) (s : Status)
    (idx : Z) :
  (0 <= idx)%Z ->
  Mongo.findOne (projectById p) (projects db) <> None ->
  In task (tasks db) ->
  Task.projectId task = p ->
  reorder now db p (mkReorder (Task._id task) s s idx false)
  = (db, Failure 500 REORDER_ERROR) /\
  forall B, B <> s ->
    reorder now db p (mkReorder (Task._id task) s B idx false)
    = reorder now db p (mkReorder (Task._id task) s B idx true).
Proof.
  intros Hi Hp Hin Hpr. split.
  - unfold reorder.
    cbn [taskId sourceStatus destinationStatus destinationIndex].
    apply Z.ltb_ge in Hi. rewrite Hi.
    destruct (Mongo.findOne (projectById p) (projects db)); [|congruence].
    destruct (Mongo.findOne _ (tasks db)) as [found|] eqn:E.
    + rewrite Status_eqb_refl.
      now rewrite (@reorderInColumn_other now
                     (mkReorder (Task._id task) s s idx false) _ (tasks db)
                     eq_refl).
    + exfalso. eapply findOne_found; [exact Hin | | exact E].
      cbv beta. unfold byId, inProject.
      now rewrite Hpr, !Nat.eqb_refl.
  - intros B HB. apply reorder_across_spelling. congruence.
Qed.

Lemma X25_in_column_spelling_is_rejected_witness :
  indexInColumn Sample.board 7 todo 1 = Some 0 /\
  reorder Sample.clock Sample.board 7 (mkReorder 1 todo todo 1 false)
  = (Sample.board, Failure 500 REORDER_ERROR) /\
  succeeded
    (snd (reorder Sample.clock Sample.board 7 (mkReorder 1 todo todo 1 true)))
  = true.
Proof.
  split; [reflexivity|]. split; [|reflexivity].
  apply (@X25_in_column_spelling_is_rejected Sample.clock Sample.board 7
           (Sample.task 1 todo 0) todo 1).
  - lia.
  - discriminate.
  - simpl. auto.
  - reflexivity.
Defined.

(** X7: a move on project p, whatever its outcome, leaves every task of
    every other project exactly as it was, so the ordered columns of the
    other projects are unchanged. *)
Theorem X7_move_leaves_other_projects_alone
    (now : nat -> Z) (db : DB) (p : ObjectId) (body : ReorderBody) :
  uniqueIds (tasks db) ->
  let db' := fst (reorder now db p body) in
  Forall2 (fun a b => Task.projectId a <> p -> b = a) (tasks db) (tasks db') /\
  forall p' s, p' <> p -> column db' p' s = column db p' s.
Proof.
  intros Hu db'.
  destruct (@reorder_map_form now db p body Hu) as (g & Hg & Hprop).
  fold db' in Hg. split.
  - rewrite Hg. apply Forall2_map_in.
    intros x Hx. apply Hprop, Hx.
  - intros p' s Hp'. unfold column. rewrite Hg. f_equal.
    unfold Mongo.find. rewrite filter_map_gen.
    rewrite (filter_ext_in (fun x => inColumn p' s (g x)) (inColumn p' s)).
    + apply map_fixed. intros x Hx. apply filter_In in Hx.
      destruct Hx as [Hx Hc]. apply Hprop; [exact Hx|].
      apply inColumn_spec in Hc. destruct Hc. congruence.
    + intros x Hx. destruct (Hprop x Hx) as [Hpid Hfix].
      destruct (Nat.eq_dec (Task.projectId x) p) as [E|E].
      * unfold inColumn, inProject. rewrite Hpid, E.
        apply Nat.eqb_neq in Hp'. rewrite Nat.eqb_sym in Hp'.
        now rewrite Hp'.
      * now rewrite (Hfix E).
Qed.

Lemma X7_move_leaves_other_projects_alone_witness :
  let db := mkDB [Sample.project; Project.mk 8 "Other" ""]
              (tasks Sample.board ++ [Task.mk 5 8 "Elsewhere" "" todo 0 10 10]) in
  column (fst (reorder Sample.clock db 7 (mkReorder 1 todo todo 1 true))) 8 todo
  = [Task.mk 5 8 "Elsewhere" "" todo 0 10 10].
Proof.
  intros db.
  destruct (@X7_move_leaves_other_projects_alone Sample.clock db 7
              (mkReorder 1 todo todo 1 true)) as [_ H].
  - unfold uniqueIds. simpl.
    repeat constructor; simpl; intuition discriminate.
  - rewrite (H 8 todo); [reflexivity | discriminate].
Defined.

(** ** Appending to a column: new tasks and changes of status *)

Lemma insert_sorted_snoc (D : Type) (leb : D -> D -> bool) (x t : D)
    (l : list D) :
  leb x t = true ->
  Mongo.insert_sorted leb x (l ++ [t]) = Mongo.insert_sorted leb x l ++ [t].
Proof.
  intros H. induction l as [|y l IH]; simpl.
  - now rewrite H.
  - destruct (leb x y); [reflexivity | now rewrite IH].
Qed.

(** A document that is above all the others sorts last. *)
Lemma sort_snoc (D : Type) (leb : D -> D -> bool) (t : D) (l : list D) :
  (forall x, In x l -> leb x t = true) ->
  Mongo.sort leb (l ++ [t]) = Mongo.sort leb l ++ [t].
Proof.
  induction l as [|x l IH]; intros H; simpl; [reflexivity|].
  rewrite IH by (intros; apply H; now right).
  apply insert_sorted_snoc. apply H. now left.
Qed.

(** The next order of a column is above every order of the column, and is
    the length of the column when the column is dense. *)
Lemma nextOrderIn_above c p s x :
  In x (Mongo.find (inColumn p s) c) ->
  (Task.order x < nextOrderIn c p s)%Z.
Proof.
  intros Hx. unfold nextOrderIn.
  destruct (sortByOrderDesc (Mongo.find (inColumn p s) c)) as [|m r] eqn:E.
  - exfalso. unfold sortByOrderDesc in E.
    apply (Permutation_in _ (Permutation_sym (sort_perm order_desc _))) in Hx.
    rewrite E in Hx. destruct Hx.
  - simpl.
    destruct (@sort_head_least _ _ order_desc_total order_desc_trans _ _ _ E)
      as [_ Hmax].
    destruct (Hmax x Hx) as [->|Hd]; [lia|].
    unfold order_desc in Hd. apply Z.leb_le in Hd. lia.
Qed.

Lemma nextOrderIn_dense db p s :
  dense db p s ->
  nextOrderIn (tasks db) p s = Z.of_nat (List.length (column db p s)).
Proof.
  intros Hd. unfold nextOrderIn.
  destruct (sortByOrderDesc (Mongo.find (inColumn p s) (tasks db)))
    as [|m r] eqn:E.
  - simpl.
    assert (H : Mongo.find (inColumn p s) (tasks db) = []).
    { apply length_zero_iff_nil. unfold sortByOrderDesc in E.
      rewrite <- (sort_length order_desc), E. reflexivity. }
    apply column_nil in H. now rewrite H.
  - simpl.
    destruct (@sort_head_least _ _ order_desc_total order_desc_trans _ _ _ E)
      as [Hm Hmax].
    assert (Hmc : In m (column db p s)).
    { apply column_In. unfold Mongo.find in Hm. apply filter_In in Hm. exact Hm. }
    pose proof (@dense_bound _ _ _ _ Hd Hmc) as Hb.
    destruct (List.length (column db p s)) as [|n] eqn:El; [lia|].
    assert (Hn : n < List.length (column db p s)) by lia.
    apply nth_error_Some in Hn.
    destruct (nth_error (column db p s) n) as [x|] eqn:Ex; [|congruence].
    pose proof (@dense_nth _ _ _ _ _ Hd Ex) as Ho.
    apply nth_error_In in Ex. apply column_In in Ex.
    assert (Hxf : In x (Mongo.find (inColumn p s) (tasks db)))
      by (unfold Mongo.find; apply filter_In; exact Ex).
    destruct (Hmax x Hxf) as [->|Hdx]; [lia|].
    unfold order_desc in Hdx. apply Z.leb_le in Hdx. lia.
Qed.

(** A task stored after the others with the next order of its column is
    the last task of that column, and the other columns do not see it. *)
Lemma column_appended ps c t :
  let p := Task.projectId t in
  let s := Task.status t in
  Task.order t = nextOrderIn c p s ->
  column (mkDB ps (c ++ [t])) p s = column (mkDB ps c) p s ++ [t] /\
  forall p' s', (p', s') <> (p, s) ->
    column (mkDB ps (c ++ [t])) p' s' = column (mkDB ps c) p' s'.
Proof.
  intros p s Ho. split.
  - unfold column, Mongo.find. cbn [tasks]. rewrite filter_app. simpl.
    replace (inColumn p s t) with true
      by (symmetry; apply inColumn_spec; split; reflexivity).
    unfold sortByOrder. apply sort_snoc.
    intros x Hx. unfold order_asc. apply Z.leb_le.
    pose proof (@nextOrderIn_above c p s x Hx). lia.
  - intros p' s' Hne. unfold column, Mongo.find. cbn [tasks].
    rewrite filter_app. simpl.
    replace (inColumn p' s' t) with false; [now rewrite app_nil_r|].
    symmetry. destruct (inColumn p' s' t) eqn:E; [|reflexivity].
    apply inColumn_spec in E. destruct E. exfalso. apply Hne.
    unfold p, s. congruence.
Qed.

Lemma upto_snoc (n : nat) : upto (S n) = upto n ++ [Z.of_nat n].
Proof.
  unfold upto. rewrite seq_S, map_app. reflexivity.
Qed.

(** X8: with the database connected, a valid creation request for an
    existing project puts the new task last in its column: the column
    afterwards is the old column followed by the new task, every other
    column is unchanged, and a dense column stays dense. *)
Theorem X8_created_task_is_last_in_its_column
    (freshId mockId : ObjectId) (now : Z) (db : DB) (p : ObjectId)
    (body : CreateBody) :
  validTask body = true ->
  Mongo.findOne (projectById p) (projects db) <> None ->
  let r := createTask true freshId mockId now db p body in
  exists t,
    snd r = Created201 t false /\
    column (fst r) p (newStatus body) = column db p (newStatus body) ++ [t] /\
    (forall s, s <> newStatus body -> column (fst r) p s = column db p s) /\
    (dense db p (newStatus body) -> dense (fst r) p (newStatus body)).
Proof.
  intros Hv Hp r. subst r. unfold createTask. rewrite Hv. simpl.
  destruct (Mongo.findOne (projectById p) (projects db)) as [proj|];
    [|congruence].
  cbn [fst snd].
  fold (nextOrderIn (tasks db) p (newStatus body)).
  set (t := Task.mk freshId p (newTitle body) (newDescription body)
              (newStatus body) (nextOrderIn (tasks db) p (newStatus body))
              now now).
  destruct (@column_appended (projects db) (tasks db) t eq_refl) as [H1 H2].
  cbn [Task.projectId Task.status t] in H1, H2.
  assert (Hdb : mkDB (projects db) (tasks db) = db) by (destruct db; reflexivity).
  rewrite Hdb in H1, H2.
  exists t. split; [reflexivity|]. split; [exact H1|]. split.
  - intros s Hs. apply H2. congruence.
  - intros Hd. unfold dense. rewrite H1. unfold orders.
    rewrite map_app, length_app. simpl. rewrite Nat.add_1_r, upto_snoc.
    fold (orders (column db p (newStatus body))). rewrite Hd.
    f_equal. f_equal. apply nextOrderIn_dense, Hd.
Qed.

Lemma X8_created_task_is_last_in_its_column_witness :
  exists t,
    column
      (fst (createTask true 9 99 50 Sample.board 7 (mkCreate "New" "" todo)))
      7 todo
    = column Sample.board 7 todo ++ [t].
Proof.
  destruct (@X8_created_task_is_last_in_its_column 9 99 50 Sample.board 7
              (mkCreate "New" "" todo)) as (t & _ & H & _).
  - reflexivity.
  - discriminate.
  - exists t. exact H.
Defined.

(** ** Sorting and selecting commute *)

Section SortFilter.
Variable D : Type.
Variable leb : D -> D -> bool.
Variable f : D -> bool.
Hypothesis leb_total : forall a b, leb a b = false -> leb b a = true.
Hypothesis leb_trans :
  forall a b c, leb a b = true -> leb b c = true -> leb a c = true.

Lemma filter_insert_sorted_out (x : D) (l : list D) :
  f x = false -> filter f (Mongo.insert_sorted leb x l) = filter f l.
Proof.
  intros Hx. induction l as [|y l IH]; simpl.
  - now rewrite Hx.
  - destruct (leb x y); simpl.
    + now rewrite Hx.
    + destruct (f y); now rewrite IH.
Qed.

Lemma insert_sorted_head (x : D) (l : list D) :
  (forall z, In z l -> leb x z = true) -> Mongo.insert_sorted leb x l = x :: l.
Proof.
  destruct l as [|y l]; simpl; [reflexivity|].
  intros H. now rewrite (H y (or_introl eq_refl)).
Qed.

Lemma filter_insert_sorted_in (x : D) (l : list D) :
  StronglySorted (fun a b => leb a b = true) l -> f x = true ->
  filter f (Mongo.insert_sorted leb x l)
  = Mongo.insert_sorted leb x (filter f l).
Proof.
  intros S Hx. induction S as [|y l S IH Hy]; simpl.
  - now rewrite Hx.
  - rewrite Forall_forall in Hy. destruct (leb x y) eqn:E; simpl.
    + rewrite Hx. destruct (f y) eqn:Ey; simpl.
      * now rewrite E.
      * symmetry. apply insert_sorted_head. intros z Hz.
        apply filter_In in Hz. destruct Hz as [Hz _].
        eapply leb_trans; [exact E | apply Hy, Hz].
    + destruct (f y) eqn:Ey; simpl.
      * now rewrite E, IH.
      * exact IH.
Qed.

(** Selecting from a sorted query is sorting the selection. *)
Lemma sort_filter (l : list D) :
  Mongo.sort leb (filter f l) = filter f (Mongo.sort leb l).
Proof.
  induction l as [|x l IH]; simpl; [reflexivity|].
  destruct (f x) eqn:Ex; simpl.
  - rewrite filter_insert_sorted_in; [now rewrite IH | | exact Ex].
    apply (@sort_sorted _ _ leb_total leb_trans).
  - now rewrite filter_insert_sorted_out.
Qed.
End SortFilter.

Lemma sort_ext (D : Type) (leb leb' : D -> D -> bool) (l : list D) :
  (forall a b, leb a b = leb' a b) -> Mongo.sort leb l = Mongo.sort leb' l.
Proof.
  intros H.
  assert (Hins : forall x r,
             Mongo.insert_sorted leb x r = Mongo.insert_sorted leb' x r).
  { intros x r. induction r as [|y r IH]; simpl; [reflexivity|].
    rewrite H. destruct (leb' x y); [reflexivity | now rewrite IH]. }
  induction l as [|x l IH]; simpl; [reflexivity|].
  now rewrite IH, Hins.
Qed.

Lemma filter_filter_comm (A : Type) (f g : A -> bool) (l : list A) :
  filter f (filter g l) = filter g (filter f l).
Proof.
  induction l as [|x l IH]; simpl; [reflexivity|].
  destruct (f x) eqn:Ef, (g x) eqn:Eg; simpl;
    rewrite ?Ef, ?Eg, IH; reflexivity.
Qed.

(** The ordered column of a selection of the stored tasks. *)
Lemma column_filter ps c f p s :
  column (mkDB ps (filter f c)) p s = filter f (column (mkDB ps c) p s).
Proof.
  unfold column, Mongo.find. cbn [tasks]. rewrite filter_filter_comm.
  unfold sortByOrder. apply sort_filter.
  - exact order_asc_total.
  - exact order_asc_trans.
Qed.

(** ** Deleting a task *)

Lemma deleteOne_byId c i :
  uniqueIds c -> deleteOne (byId i) c = filter (fun x => negb (byId i x)) c.
Proof.
  unfold uniqueIds. induction c as [|x r IH]; simpl; [reflexivity|].
  intros Hn. inversion Hn as [|? ? Hnin Hr]; subst.
  destruct (byId i x) eqn:E; simpl.
  - symmetry. apply forallb_filter_id. apply forallb_forall.
    intros y Hy. apply negb_true_iff.
    destruct (byId i y) eqn:Ey; [exfalso | reflexivity].
    apply byId_spec in E, Ey. apply Hnin. rewrite E, <- Ey. now apply in_map.
  - f_equal. auto.
Qed.

Lemma db_eta db : mkDB (projects db) (tasks db) = db.
Proof. destruct db; reflexivity. Qed.

(** X9: with the database connected, deleting a stored task removes that
    task and writes to no other: every column is the column it was
    without the task, in the same sequence and with the same orders;
    nothing is renumbered. *)
Theorem X9_delete_task_removes_only_it
    (db : DB) (id : ObjectId) (task : Task.t) :
  uniqueIds (tasks db) ->
  In task (tasks db) -> Task._id task = id ->
  let r := deleteTask true db id in
  snd r = TaskDeleted id (Task.title task) (Task.projectId task) /\
  projects (fst r) = projects db /\
  tasks (fst r) = filter (fun x => negb (byId id x)) (tasks db) /\
  S (List.length (tasks (fst r))) = List.length (tasks db) /\
  forall p s,
    column (fst r) p s = filter (fun x => negb (byId id x)) (column db p s).
Proof.
  intros Hu Hin Hid r. subst r. unfold deleteTask. simpl.
  assert (Hq : byId id task = true) by now apply byId_spec.
  rewrite (@findOne_byId _ _ _ Hu Hin Hq). cbn [fst snd projects tasks].
  rewrite deleteOne_byId by exact Hu.
  split; [now rewrite Hid|]. split; [reflexivity|]. split; [reflexivity|].
  split.
  - pose proof (@filter_without (fun _ => true) (tasks db) task Hu Hin eq_refl)
      as P.
    rewrite forallb_filter_id in P by (apply forallb_forall; reflexivity).
    apply Permutation_length in P. simpl in P. rewrite P. f_equal.
    rewrite Hid. reflexivity.
  - intros p s. rewrite column_filter. now rewrite db_eta.
Qed.

Lemma X9_delete_task_removes_only_it_witness :
  assignments (column (fst (deleteTask true Sample.todo3 2)) 7 todo)
  = [(1, 0%Z); (3, 2%Z)].
Proof.
  destruct (@X9_delete_task_removes_only_it Sample.todo3 2
              (Sample.task 2 todo 1)) as (_ & _ & _ & _ & H).
  - exact sample_todo3_ids.
  - simpl. auto.
  - reflexivity.
  - rewrite H. reflexivity.
Defined.

Lemma deleteTask_tasks db id task :
  uniqueIds (tasks db) -> In task (tasks db) -> Task._id task = id ->
  fst (deleteTask true db id)
  = mkDB (projects db) (filter (fun x => negb (byId id x)) (tasks db)).
Proof.
  intros Hu Hin Hid. unfold deleteTask. simpl.
  assert (Hq : byId id task = true) by now apply byId_spec.
  rewrite (@findOne_byId _ _ _ Hu Hin Hq). cbn [fst].
  now rewrite deleteOne_byId.
Qed.

Lemma filter_uniqueIds (f : Task.t -> bool) c :
  uniqueIds c -> uniqueIds (filter f c).
Proof. apply NoDup_map_filter. Qed.

(** X10: deleting the task at index i of a dense column of n tasks leaves
    the column dense exactly when the task was the last one (i = n - 1);
    in every other case the orders of the column keep a gap at i. *)
Theorem X10_delete_leaves_a_gap
    (db : DB) (p : ObjectId) (s : Status) (id : ObjectId) (i : nat) :
  uniqueIds (tasks db) ->
  dense db p s ->
  indexInColumn db p s id = Some i ->
  let db' := fst (deleteTask true db id) in
  orders (column db' p s)
  = upto i ++ map Z.of_nat (seq (S i) (List.length (column db p s) - S i)) /\
  (dense db' p s <-> S i = List.length (column db p s)).
Proof.
  intros Hu Hd Hk db'.
  destruct (@indexInColumn_task db p s id i Hu Hk)
    as (T & HT & Hin & Hid & _ & _).
  assert (Hi : i < List.length (column db p s))
    by (apply nth_error_Some; congruence).
  assert (Hdb' : db' = mkDB (projects db)
                         (filter (fun x => negb (byId id x)) (tasks db))).
  { apply (@deleteTask_tasks db id T Hu Hin). now apply byId_spec. }
  assert (Hcol : column db' p s
                 = firstn i (column db p s) ++ skipn (i + 1) (column db p s)).
  { rewrite Hdb', column_filter, db_eta.
    destruct (@column_cut _ _ _ id (@column_ids db p s Hu) HT Hid)
      as (_ & _ & ->). reflexivity. }
  assert (Ho : orders (column db' p s)
               = upto i
                 ++ map Z.of_nat
                      (seq (S i) (List.length (column db p s) - S i))).
  { rewrite Hcol. unfold orders. rewrite map_app.
    fold (orders (firstn i (column db p s))).
    fold (orders (skipn (i + 1) (column db p s))).
    destruct (@orders_split (column db p s) _ i Hd) as [-> _]; [lia|].
    destruct (@orders_split (column db p s) _ (i + 1) Hd) as [_ ->]; [lia|].
    now rewrite Nat.add_1_r. }
  split; [exact Ho|].
  assert (Hlen : List.length (column db' p s)
                 = List.length (column db p s) - 1).
  { rewrite Hcol, length_app, length_firstn, length_skipn. lia. }
  unfold dense at 1. rewrite Ho, Hlen.
  rewrite (@upto_split i (List.length (column db p s) - 1)) by lia.
  replace (List.length (column db p s) - 1 - i)
    with (List.length (column db p s) - S i) by lia.
  split.
  - intros E. apply app_inv_head in E.
    destruct (List.length (column db p s) - S i) as [|k] eqn:Ek; [lia|].
    simpl in E. injection E as E _. lia.
  - intros E. replace (List.length (column db p s) - S i) with 0 by lia.
    reflexivity.
Qed.

Lemma X10_delete_leaves_a_gap_witness :
  let db' := fst (deleteTask true Sample.todo3 2) in
  orders (column db' 7 todo) = [0; 2]%Z /\ ~ dense db' 7 todo.
Proof.
  destruct (@X10_delete_leaves_a_gap Sample.todo3 7 todo 2 1) as [Ho Hd].
  - exact sample_todo3_ids.
  - apply denseb_spec. reflexivity.
  - reflexivity.
  - split; [exact Ho|]. intros H. apply Hd in H. discriminate.
Defined.

(** X11: the gap a deletion leaves lasts until the next in-column move:
    after deleting a task, an in-column move of any task that remains in
    the column, requested with the identifier spelled in lower case as
    the server spells it, succeeds and leaves the column dense. *)
Theorem X11_move_after_delete_restores_density
    (now : nat -> Z) (db : DB) (p : ObjectId) (s : Status)
    (id tid : ObjectId) (deleted : Task.t) (idx : Z) (i : nat) :
  uniqueIds (tasks db) ->
  Mongo.findOne (projectById p) (projects db) <> None ->
  In deleted (tasks db) -> Task._id deleted = id ->
  tid <> id ->
  indexInColumn db p s tid = Some i ->
  (0 <= idx)%Z ->
  let db1 := fst (deleteTask true db id) in
  let r := reorder now db1 p (mkReorder tid s s idx true) in
  succeeded (snd r) = true /\ dense (fst r) p s.
Proof.
  intros Hu Hp Hin Hid Hne Hk Hi db1 r.
  assert (Hdb1 : db1 = mkDB (projects db)
                         (filter (fun x => negb (byId id x)) (tasks db)))
    by (apply (@deleteTask_tasks db id deleted Hu Hin Hid)).
  assert (Hu1 : uniqueIds (tasks db1))
    by (rewrite Hdb1; apply filter_uniqueIds, Hu).
  assert (Hp1 : Mongo.findOne (projectById p) (projects db1) <> None)
    by (rewrite Hdb1; exact Hp).
  destruct (@indexInColumn_task db p s tid i Hu Hk)
    as (T & HT & _ & HTid & _ & _).
  destruct (indexInColumn db1 p s tid) as [i1|] eqn:Ek1.
  - destruct (@reorder_in_column_dense now db1 p s tid idx i1 Hu1 Hi Hp1 Ek1)
      as (S1 & D1 & _).
    split; assumption.
  - exfalso. unfold indexInColumn in Ek1.
    rewrite Hdb1, column_filter, db_eta in Ek1.
    rewrite findIndex_None in Ek1.
    assert (HTin : In T (filter (fun x => negb (byId id x)) (column db p s))).
    { apply filter_In. split; [eapply nth_error_In; eauto|].
      apply negb_true_iff. apply byId_spec in HTid.
      unfold byId. apply Nat.eqb_neq. congruence. }
    rewrite (Ek1 T HTin) in HTid. discriminate.
Qed.

Lemma X11_move_after_delete_restores_density_witness :
  let db1 := fst (deleteTask true Sample.todo3 2) in
  ~ dense db1 7 todo /\
  dense (fst (reorder Sample.clock db1 7 (mkReorder 3 todo todo 1 true))) 7 todo.
Proof.
  split.
  - intros H. apply denseb_spec in H. discriminate.
  - apply (@X11_move_after_delete_restores_density Sample.clock Sample.todo3
             7 todo 2 3 (Sample.task 2 todo 1) 1 2).
    + exact sample_todo3_ids.
    + discriminate.
    + simpl. auto.
    + reflexivity.
    + discriminate.
    + reflexivity.
    + lia.
Defined.

(** ** Deleting a project *)

Lemma filter_length_split (A : Type) (f : A -> bool) (l : list A) :
  List.length (filter f l) + List.length (filter (fun x => negb (f x)) l)
  = List.length l.
Proof.
  induction l as [|x l IH]; simpl; [reflexivity|].
  destruct (f x); simpl; lia.
Qed.

Lemma filter_negb_none (A : Type) (f : A -> bool) (l : list A) :
  filter f (filter (fun x => negb (f x)) l) = [].
Proof.
  induction l as [|x l IH]; simpl; [reflexivity|].
  destruct (f x) eqn:E; simpl; [exact IH | now rewrite E].
Qed.

Lemma deleteOne_gone ps p :
  NoDup (map Project._id ps) ->
  Mongo.findOne (projectById p) (deleteOne (projectById p) ps) = None.
Proof.
  unfold Mongo.findOne.
  induction ps as [|x ps IH]; simpl; [reflexivity|].
  intros Hn. inversion Hn as [|? ? Hnin Hps]; subst.
  destruct (projectById p x) eqn:E.
  - destruct (find (projectById p) ps) as [y|] eqn:Ey; [exfalso | reflexivity].
    apply find_some in Ey. destruct Ey as [Hy Hq].
    unfold projectById in E, Hq. apply Nat.eqb_eq in E, Hq.
    apply Hnin. rewrite E, <- Hq. now apply in_map.
  - simpl. rewrite E. auto.
Qed.

Lemma deleteOne_others ps p p' :
  p' <> p ->
  Mongo.findOne (projectById p') (deleteOne (projectById p) ps)
  = Mongo.findOne (projectById p') ps.
Proof.
  intros Hne. unfold Mongo.findOne.
  induction ps as [|x ps IH]; simpl; [reflexivity|].
  destruct (projectById p x) eqn:E.
  - replace (projectById p' x) with false; [reflexivity|].
    unfold projectById in *. apply Nat.eqb_eq in E.
    symmetry. apply Nat.eqb_neq. congruence.
  - simpl. destruct (projectById p' x); [reflexivity | exact IH].
Qed.

(** X12: with the database connected, deleting an existing project deletes
    all its tasks and only them: no task of the project remains, the
    count in the answer is the number of tasks removed, and every column
    of every other project is as it was. *)
Theorem X12_delete_project_cascades
    (db : DB) (p : ObjectId) :
  Mongo.findOne (projectById p) (projects db) <> None ->
  let r := deleteProject true db p in
  exists name n,
    snd r = ProjectDeleted name n false /\
    Mongo.find (inProject p) (tasks (fst r)) = [] /\
    List.length (tasks (fst r)) + n = List.length (tasks db) /\
    (forall x, In x (tasks (fst r)) <->
               In x (tasks db) /\ Task.projectId x <> p) /\
    forall p' s, p' <> p -> column (fst r) p' s = column db p' s.
Proof.
  intros Hp r. subst r. unfold deleteProject. simpl.
  destruct (Mongo.findOne (projectById p) (projects db)) as [proj|];
    [|congruence].
  cbn [fst snd tasks]. unfold deleteMany, countDocuments.
  exists (Project.name proj), (List.length (filter (inProject p) (tasks db))).
  split; [reflexivity|]. split; [|split; [|split]].
  - apply filter_negb_none.
  - pose proof (filter_length_split (inProject p) (tasks db)). lia.
  - intros x. rewrite filter_In. unfold inProject.
    rewrite negb_true_iff, Nat.eqb_neq. reflexivity.
  - intros p' s Hne. rewrite column_filter.
    change (column (mkDB _ (tasks db)) p' s) with (column db p' s).
    apply forallb_filter_id. apply forallb_forall.
    intros x Hx. apply column_In in Hx. destruct Hx as [_ Hx].
    apply inColumn_spec in Hx. destruct Hx as [Hx _].
    apply negb_true_iff. unfold inProject. apply Nat.eqb_neq. congruence.
Qed.

Lemma X12_delete_project_cascades_witness :
  exists name,
    snd (deleteProject true Sample.board 7) = ProjectDeleted name 4 false /\
    tasks (fst (deleteProject true Sample.board 7)) = [].
Proof.
  destruct (@X12_delete_project_cascades Sample.board 7)
    as (name & n & E & _ & Hl & _).
  - discriminate.
  - exists name. split; [|reflexivity].
    rewrite E. f_equal. simpl in Hl. lia.
Defined.

(** X13: once a project is deleted (project identifiers being unique),
    listing its tasks, creating a task in it and moving a task in it are
    all answered 404 PROJECT_NOT_FOUND and change nothing, while the
    other projects are still found. *)
Theorem X13_deleted_project_is_gone
    (now : nat -> Z) (db : DB) (p : ObjectId) (body : ReorderBody)
    (freshId mockId : ObjectId) (d : Z) (create : CreateBody) :
  NoDup (map Project._id (projects db)) ->
  Mongo.findOne (projectById p) (projects db) <> None ->
  (0 <= destinationIndex body)%Z ->
  validTask create = true ->
  let db' := fst (deleteProject true db p) in
  getTasks true db' p = TasksFailure 404 PROJECT_NOT_FOUND /\
  createTask true freshId mockId d db' p create
  = (db', Failure 404 PROJECT_NOT_FOUND) /\
  reorder now db' p body = (db', Failure 404 PROJECT_NOT_FOUND) /\
  forall p', p' <> p ->
    Mongo.findOne (projectById p') (projects db')
    = Mongo.findOne (projectById p') (projects db).
Proof.
  intros Hn Hp Hi Hv db'.
  assert (Hgone : Mongo.findOne (projectById p) (projects db') = None).
  { subst db'. unfold deleteProject. simpl.
    destruct (Mongo.findOne (projectById p) (projects db)); [|congruence].
    cbn [fst projects]. apply deleteOne_gone, Hn. }
  repeat split.
  - unfold getTasks. simpl. now rewrite Hgone.
  - unfold createTask. rewrite Hv. simpl. now rewrite Hgone.
  - unfold reorder. apply Z.ltb_ge in Hi. now rewrite Hi, Hgone.
  - intros p' Hne. subst db'. unfold deleteProject. simpl.
    destruct (Mongo.findOne (projectById p) (projects db)); [|congruence].
    cbn [fst projects]. now apply deleteOne_others.
Qed.

Lemma X13_deleted_project_is_gone_witness :
  let db' := fst (deleteProject true Sample.board 7) in
  reorder Sample.clock db' 7 (mkReorder 1 todo todo 0 true)
  = (db', Failure 404 PROJECT_NOT_FOUND).
Proof.
  intros db'.
  destruct (@X13_deleted_project_is_gone Sample.clock Sample.board 7
              (mkReorder 1 todo todo 0 true) 9 99 50 (mkCreate "New" "" todo))
    as (_ & _ & H & _).
  - simpl. repeat constructor. simpl. tauto.
  - discriminate.
  - simpl. lia.
  - reflexivity.
  - exact H.
Defined.

(** ** Listing the tasks, and what the board shows *)

Lemma Permutation_filter_compat (A : Type) (f : A -> bool) (l l' : list A) :
  Permutation l l' -> Permutation (filter f l) (filter f l').
Proof.
  induction 1 as [|x l l' _ IH|x y l|l l' l'' _ IH1 _ IH2]; simpl.
  - constructor.
  - destruct (f x); [now apply perm_skip | exact IH].
  - destruct (f x), (f y); try apply Permutation_refl. apply perm_swap.
  - eapply Permutation_trans; eauto.
Qed.

Lemma filter_andb (A : Type) (f g : A -> bool) (l : list A) :
  filter f (filter g l) = filter (fun x => g x && f x) l.
Proof.
  induction l as [|x l IH]; simpl; [reflexivity|].
  destruct (g x); simpl; [destruct (f x); now rewrite IH | exact IH].
Qed.

Lemma orZero_id o : orZero o = o.
Proof. unfold orZero. destruct (o =? 0)%Z eqn:E; [|reflexivity].
  apply Z.eqb_eq in E. now subst. Qed.

(** A column of the page is the tasks of that status, sorted by order. *)
Lemma getTasksByStatus_sort l s :
  getTasksByStatus l s
  = sortByOrder (filter (fun x => Status_eqb (Task.status x) s) l).
Proof.
  unfold getTasksByStatus, arraySort, sortByOrder. apply sort_ext.
  intros a b. unfold order_asc. rewrite !orZero_id.
  destruct (Task.order a <=? Task.order b)%Z eqn:E.
  - apply Z.leb_le in E. apply Z.leb_le. lia.
  - apply Z.leb_gt in E. apply Z.leb_gt. lia.
Qed.

(** Two arrangements of the same tasks show the same column when the
    orders of that column are distinct. *)
Lemma getTasksByStatus_perm l l' s :
  Permutation l l' ->
  NoDup (orders (getTasksByStatus l s)) ->
  getTasksByStatus l' s = getTasksByStatus l s.
Proof.
  intros P Hn. rewrite !getTasksByStatus_sort in *. symmetry.
  apply sorted_tasks_eq; auto.
  - apply (@sort_sorted _ _ order_asc_total order_asc_trans).
  - apply (@sort_sorted _ _ order_asc_total order_asc_trans).
  - unfold sortByOrder.
    eapply Permutation_trans; [apply sort_perm|].
    eapply Permutation_trans; [|apply Permutation_sym, sort_perm].
    now apply Permutation_filter_compat.
Qed.

(** X14: with the database connected, the task list of an existing
    project is its stored tasks, rearranged, with their count; and the
    column the page shows for a status, built from that list, is the
    column as the server orders it, provided the orders of the column are
    distinct (as in a dense column). *)
Theorem X14_board_shows_server_columns
    (db : DB) (p : ObjectId) (s : Status) :
  Mongo.findOne (projectById p) (projects db) <> None ->
  NoDup (orders (column db p s)) ->
  exists data,
    getTasks true db p
    = TasksOk data (List.length (Mongo.find (inProject p) (tasks db))) /\
    Permutation data (Mongo.find (inProject p) (tasks db)) /\
    getTasksByStatus data s = column db p s.
Proof.
  intros Hp Hn. unfold getTasks. simpl.
  destruct (Mongo.findOne (projectById p) (projects db)); [|congruence].
  eexists. split; [|split].
  - rewrite sort_length. reflexivity.
  - apply sort_perm.
  - assert (Hcol : column db p s
                   = getTasksByStatus (Mongo.find (inProject p) (tasks db)) s).
    { rewrite getTasksByStatus_sort. unfold column, Mongo.find.
      rewrite filter_andb. reflexivity. }
    rewrite Hcol. apply getTasksByStatus_perm.
    + apply Permutation_sym, sort_perm.
    + now rewrite <- Hcol.
Qed.

Lemma X14_board_shows_server_columns_witness :
  exists data,
    getTasks true Sample.board 7 = TasksOk data 4 /\
    getTasksByStatus data inprogress = column Sample.board 7 inprogress.
Proof.
  destruct (@X14_board_shows_server_columns Sample.board 7 inprogress)
    as (data & E & _ & H).
  - discriminate.
  - simpl. repeat constructor; simpl; intuition discriminate.
  - exists data. split; assumption.
Defined.

(** ** Updating a task *)

Lemma insert_sorted_last (D : Type) (leb : D -> D -> bool) (t : D)
    (l : list D) :
  (forall x, In x l -> leb t x = false) ->
  Mongo.insert_sorted leb t l = l ++ [t].
Proof.
  induction l as [|y l IH]; intros H; simpl; [reflexivity|].
  rewrite (H y (or_introl eq_refl)). f_equal. apply IH.
  intros; apply H; now right.
Qed.

(** A document strictly above all the others sorts last, wherever it is
    stored. *)
Lemma sort_max_anywhere (D : Type) (leb : D -> D -> bool) (t : D)
    (l1 l2 : list D) :
  (forall x, In x (l1 ++ l2) -> leb x t = true /\ leb t x = false) ->
  Mongo.sort leb (l1 ++ t :: l2) = Mongo.sort leb (l1 ++ l2) ++ [t].
Proof.
  induction l1 as [|x l1 IH]; intros H; simpl.
  - apply insert_sorted_last. intros x Hx. apply sort_In in Hx.
    apply (H x Hx).
  - rewrite IH by (intros; apply H; now right).
    apply insert_sorted_snoc. apply (H x). now left.
Qed.

Lemma split_at_task c T :
  uniqueIds c -> In T c ->
  exists c1 c2,
    c = c1 ++ T :: c2 /\
    forall x, In x (c1 ++ c2) -> byId (Task._id T) x = false.
Proof.
  intros Hu Hin. destruct (in_split _ _ Hin) as (c1 & c2 & E).
  exists c1, c2. split; [exact E|].
  intros x Hx. destruct (byId (Task._id T) x) eqn:Eq; [exfalso | reflexivity].
  unfold uniqueIds in Hu. rewrite E, map_app in Hu. simpl in Hu.
  apply NoDup_remove_2 in Hu. apply Hu.
  apply byId_spec in Eq. rewrite <- Eq, <- map_app. now apply in_map.
Qed.

Lemma updateOne_at (q : Task.t -> bool) (u : Task.t -> Task.t) c1 c2 T :
  (forall x, In x c1 -> q x = false) -> q T = true ->
  Mongo.updateOne q u (c1 ++ T :: c2) = c1 ++ u T :: c2.
Proof.
  intros H1 HT. induction c1 as [|x c1 IH]; simpl.
  - now rewrite HT.
  - rewrite (H1 x (or_introl eq_refl)). f_equal. apply IH.
    intros; apply H1; now right.
Qed.

Lemma filter_fixed (A : Type) (f : A -> bool) (l : list A) :
  (forall x, In x l -> f x = true) -> filter f l = l.
Proof.
  intros H. apply forallb_filter_id. apply forallb_forall. exact H.
Qed.

(** X15: with the database connected, an update that changes the status
    of a stored task and names no project puts the task last in the new
    column of its project, with the next order of that column; every
    other column is the column it was without the task, in sequence and
    with the orders it had (the column the task leaves is not
    renumbered); and a dense new column stays dense. *)
Theorem X15_status_change_appends_to_new_column
    (now : Z) (db : DB) (id : ObjectId) (body : UpdateBody)
    (current : Task.t) (s' : Status) :
  validUpdate body = true ->
  uniqueIds (tasks db) ->
  In current (tasks db) -> Task._id current = id ->
  u_status body = Some s' -> s' <> Task.status current ->
  u_projectId body = None ->
  let r := updateTask true now db id body in
  let p := Task.projectId current in
  exists t',
    snd r = TaskUpdated (Some t') /\
    Task._id t' = id /\ Task.projectId t' = p /\ Task.status t' = s' /\
    Task.order t' = nextOrderIn (tasks db) p s' /\
    column (fst r) p s' = column db p s' ++ [t'] /\
    (forall p2 s2, (p2, s2) <> (p, s') ->
       column (fst r) p2 s2
       = filter (fun x => negb (byId id x)) (column db p2 s2)) /\
    (dense db p s' -> dense (fst r) p s').
Proof.
  intros Hv Hu Hin Hid Hs Hne Hpj r p. subst r.
  unfold updateTask. rewrite Hv. simpl.
  assert (Hq : byId id current = true) by now apply byId_spec.
  rewrite (@findOne_byId _ _ _ Hu Hin Hq). rewrite Hs.
  rewrite (Status_eqb_neq Hne). simpl.
  fold p.
  set (g := applyUpdate body (Some (nextOrderIn (tasks db) p s')) now).
  destruct (@split_at_task _ _ Hu Hin) as (c1 & c2 & Ec & Hothers).
  rewrite Hid in Hothers.
  assert (H1 : forall x, In x c1 -> byId id x = false)
    by (intros x Hx; apply Hothers, in_or_app; now left).
  assert (Hupd : Mongo.updateOne (byId id) g (tasks db)
                 = c1 ++ g current :: c2)
    by (rewrite Ec at 1; apply updateOne_at; assumption).
  set (t' := g current) in *.
  exists t'. rewrite Hupd.
  assert (Ht'id : Task._id t' = id) by exact Hid.
  assert (Ht'p : Task.projectId t' = p)
    by (unfold t', g, applyUpdate; simpl; now rewrite Hpj).
  assert (Ht's : Task.status t' = s')
    by (unfold t', g, applyUpdate; simpl; now rewrite Hs).
  assert (Ht'o : Task.order t' = nextOrderIn (tasks db) p s') by reflexivity.
  assert (Hfind : Mongo.findOne (byId id) (c1 ++ t' :: c2) = Some t').
  { unfold Mongo.findOne. clear - H1 Ht'id.
    induction c1 as [|x c1 IH]; simpl.
    - unfold byId. now rewrite Ht'id, Nat.eqb_refl.
    - rewrite (H1 x (or_introl eq_refl)). apply IH.
      intros; apply H1; now right. }
  rewrite Hfind.
  assert (Hrest : filter (fun x => negb (byId id x)) (tasks db) = c1 ++ c2).
  { rewrite Ec. apply filter_app_miss.
    - intros y Hy. now rewrite (Hothers y Hy).
    - now rewrite Hq. }
  assert (Hcolrest : forall p2 s2,
             column (mkDB (projects db) (c1 ++ c2)) p2 s2
             = filter (fun x => negb (byId id x)) (column db p2 s2)).
  { intros p2 s2. rewrite <- Hrest. rewrite column_filter. now rewrite db_eta. }
  assert (Hnot : inColumn p s' current = false).
  { destruct (inColumn p s' current) eqn:E; [|reflexivity].
    apply inColumn_spec in E. destruct E. congruence. }
  assert (Htarget : filter (fun x => negb (byId id x)) (column db p s')
                    = column db p s').
  { apply filter_fixed. intros x Hx. apply negb_true_iff.
    destruct (byId id x) eqn:E; [exfalso | reflexivity].
    apply column_In in Hx. destruct Hx as [Hx Hc].
    apply byId_spec in E.
    assert (x = current) by (eapply uniqueIds_inj; eauto; congruence).
    subst x. congruence. }
  assert (Hcol' : column (mkDB (projects db) (c1 ++ t' :: c2)) p s'
                  = column db p s' ++ [t']).
  { rewrite <- Htarget, <- Hcolrest.
    unfold column, Mongo.find. cbn [tasks]. rewrite !filter_app. simpl.
    replace (inColumn p s' t') with true
      by (symmetry; apply inColumn_spec; split; assumption).
    unfold sortByOrder. apply sort_max_anywhere.
    intros x Hx. rewrite <- filter_app in Hx.
    assert (Hxc : In x (Mongo.find (inColumn p s') (tasks db))).
    { unfold Mongo.find. rewrite Ec. rewrite filter_app. simpl.
      rewrite Hnot. now rewrite <- filter_app. }
    pose proof (@nextOrderIn_above _ _ _ _ Hxc) as Hlt.
    unfold order_asc. rewrite Ht'o. split.
    - apply Z.leb_le. lia.
    - apply Z.leb_gt. lia. }
  split; [reflexivity|]. split; [exact Ht'id|]. split; [exact Ht'p|].
  split; [exact Ht's|]. split; [exact Ht'o|]. split; [exact Hcol'|]. split.
  - intros p2 s2 Hne2. rewrite <- Hcolrest.
    unfold column, Mongo.find. cbn [tasks]. rewrite !filter_app. simpl.
    replace (inColumn p2 s2 t') with false; [reflexivity|].
    symmetry. destruct (inColumn p2 s2 t') eqn:E; [|reflexivity].
    apply inColumn_spec in E. destruct E. exfalso. apply Hne2. congruence.
  - intros Hd. unfold dense. rewrite Hcol'. unfold orders.
    rewrite map_app, length_app. cbn [map List.length].
    rewrite Nat.add_1_r, upto_snoc.
    fold (orders (column db p s')). rewrite Hd.
    rewrite Ht'o, (@nextOrderIn_dense db p s' Hd). reflexivity.
Qed.

Lemma X15_status_change_appends_to_new_column_witness :
  let r := updateTask true 50 Sample.board 1
             (mkUpdate None None (Some inprogress) None None) in
  assignments (column (fst r) 7 inprogress) = [(3, 0%Z); (4, 1%Z); (1, 2%Z)] /\
  assignments (column (fst r) 7 todo) = [(2, 1%Z)].
Proof.
  destruct (@X15_status_change_appends_to_new_column 50 Sample.board 1
              (mkUpdate None None (Some inprogress) None None)
              (Sample.task 1 todo 0) inprogress)
    as (t' & _ & Hi & _ & _ & Ho & Hc & Hr & _).
  - reflexivity.
  - exact sample_board_ids.
  - simpl. auto.
  - reflexivity.
  - reflexivity.
  - discriminate.
  - reflexivity.
  - change (Task.projectId (Sample.task 1 todo 0)) with 7 in Hc, Hr, Ho.
    cbv zeta. split.
    + rewrite Hc. unfold assignments. rewrite map_app. cbn [map].
      rewrite Hi, Ho. reflexivity.
    + rewrite (Hr 7 todo); [reflexivity | discriminate].
Defined.

Lemma updateOne_rel (D : Type) (R : D -> D -> Prop) (q : D -> bool)
    (u : D -> D) (c : list D) :
  (forall x, R x x) -> (forall x, q x = true -> R x (u x)) ->
  Forall2 R c (Mongo.updateOne q u c).
Proof.
  intros Hr Hu. induction c as [|x c IH]; simpl; [constructor|].
  destruct (q x) eqn:E; constructor; auto.
  apply kept_refl, Hr.
Qed.

Lemma keptByUpdate_refl id x : keptByUpdate id x x.
Proof. repeat split. Qed.

(** X16: an update of a task, whatever title, description, status, order
    and project its body carries and whatever its outcome, leaves the
    projects alone, creates and deletes no task, keeps the identifier and
    the creation date of every task, and changes no task other than the
    one it names.  The project of a task is kept when the body names
    none; a body that names one can change it. *)
Theorem X16_update_writes_one_task
    (connected : bool) (now : Z) (db : DB) (id : ObjectId)
    (body : UpdateBody) :
  let db' := fst (updateTask connected now db id body) in
  projects db' = projects db /\
  Forall2 (keptByUpdate id) (tasks db) (tasks db') /\
  (u_projectId body = None ->
   Forall2 (fun a b => Task.projectId b = Task.projectId a)
     (tasks db) (tasks db')).
Proof.
  assert (Hsame : forall c : list Task.t,
             Forall2 (fun a b => Task.projectId b = Task.projectId a) c c)
    by (intros c; apply kept_refl; reflexivity).
  intros db'. subst db'. unfold updateTask.
  destruct (negb (validUpdate body));
    [split; [reflexivity | split; [apply kept_refl, keptByUpdate_refl | auto]]|].
  destruct (negb connected);
    [split; [reflexivity | split; [apply kept_refl, keptByUpdate_refl | auto]]|].
  destruct (Mongo.findOne (byId id) (tasks db)) as [current|];
    [|split; [reflexivity | split; [apply kept_refl, keptByUpdate_refl | auto]]].
  cbn [fst projects tasks]. split; [reflexivity|]. split.
  - apply updateOne_rel; [apply keptByUpdate_refl|].
    intros x Hx. apply byId_spec in Hx.
    repeat split. intros Hne. contradiction.
  - intros Hpj. apply updateOne_rel; [reflexivity|].
    intros x _. unfold applyUpdate. simpl. now rewrite Hpj.
Qed.

Lemma column_bare db p s :
  map bare (column db p s)
  = sortByOrder (Mongo.find (inColumn p s) (map bare (tasks db))).
Proof.
  unfold column, sortByOrder, Mongo.find.
  rewrite (sort_map order_asc order_asc bare) by reflexivity.
  rewrite filter_map_comm by reflexivity. reflexivity.
Qed.

Lemma assignments_bare l : assignments (map bare l) = assignments l.
Proof. unfold assignments. rewrite map_map. reflexivity. Qed.

(** X17: an update whose body leaves the status, the order and the
    project of the task as they are (an edit of the title or the
    description) changes the arrangement of no column: every column holds
    the same tasks in the same sequence with the same orders. *)
Theorem X17_text_update_keeps_columns
    (now : Z) (db : DB) (id : ObjectId) (body : UpdateBody) :
  (forall t, In t (tasks db) -> Task._id t = id ->
     orElse (u_status body) (Task.status t) = Task.status t /\
     orElse (u_order body) (Task.order t) = Task.order t /\
     orElse (u_projectId body) (Task.projectId t) = Task.projectId t) ->
  let db' := fst (updateTask true now db id body) in
  forall p s,
    assignments (column db' p s) = assignments (column db p s) /\
    map bare (column db' p s) = map bare (column db p s).
Proof.
  intros Hsame db' p s.
  assert (Hbare : map bare (tasks db') = map bare (tasks db)).
  { subst db'. unfold updateTask.
    destruct (negb (validUpdate body)); [reflexivity|]. simpl.
    destruct (Mongo.findOne (byId id) (tasks db)) as [current|] eqn:Ec;
      [|reflexivity].
    cbn [fst tasks].
    apply find_some_In in Ec. destruct Ec as [Hin Hq].
    apply byId_spec in Hq.
    destruct (Hsame current Hin Hq) as (Hs & Ho & _).
    set (ord := match u_status body with
                | Some s0 =>
                    if negb (Status_eqb s0 (Task.status current))
                    then Some (nextOrderIn (tasks db)
                                 (Task.projectId current) s0)
                    else u_order body
                | None => u_order body
                end).
    assert (Hord : ord = u_order body).
    { unfold ord. destruct (u_status body) as [s0|]; [|reflexivity].
      simpl in Hs. subst s0. now rewrite Status_eqb_refl. }
    rewrite Hord. clear ord Hord.
    assert (Hall : forall x, In x (tasks db) -> byId id x = true ->
                             bare (applyUpdate body (u_order body) now x)
                             = bare x).
    { intros x Hx Hxq. apply byId_spec in Hxq.
      destruct (Hsame x Hx Hxq) as (Hxs & Hxo & Hxp).
      unfold bare, applyUpdate. simpl. now rewrite Hxs, Hxo, Hxp. }
    clear - Hall. induction (tasks db) as [|x c IH]; simpl; [reflexivity|].
    destruct (byId id x) eqn:E; simpl.
    - f_equal. apply Hall; [now left | exact E].
    - f_equal. apply IH. intros y Hy. apply Hall. now right. }
  assert (Hcol : map bare (column db' p s) = map bare (column db p s))
    by (rewrite !column_bare, Hbare; reflexivity).
  split; [|exact Hcol].
  rewrite <- (assignments_bare (column db' p s)), Hcol.
  apply assignments_bare.
Qed.

Lemma X17_text_update_keeps_columns_witness :
  assignments
    (column
       (fst (updateTask true 50 Sample.board 1
               (mkUpdate (Some "Renamed"%string) None (Some todo) None None)))
       7 todo)
  = assignments (column Sample.board 7 todo).
Proof.
  apply (@X17_text_update_keeps_columns 50 Sample.board 1
           (mkUpdate (Some "Renamed"%string) None (Some todo) None None)).
  intros t Ht Hid. simpl in Ht.
  destruct Ht as [<-|[<-|[<-|[<-|[]]]]]; try discriminate Hid.
  repeat split; reflexivity.
Defined.

(** ** The page: the optimistic update *)

Lemma find_findIndex (A : Type) (q : A -> bool) (l : list A) (x : A) :
  find q l = Some x ->
  exists k before after,
    JsArray.findIndex q l = Some k /\
    l = before ++ x :: after /\ List.length before = k /\
    snd (JsArray.splice k 1 [] l) = before ++ after.
Proof.
  induction l as [|y l IH]; simpl; [discriminate|].
  destruct (q y) eqn:E.
  - intros [= <-]. exists 0, [], l. repeat split.
  - intros Hx. destruct (IH Hx) as (k & before & after & Hk & El & Hlen & Hs).
    exists (S k), (y :: before), after. rewrite Hk.
    repeat split; simpl; try congruence.
    unfold JsArray.splice in *. simpl in *. now rewrite Hs.
Qed.

(** The tasks of the page after the optimistic update of a drop. *)
Lemma handleDragEnd_optimistic tasks result api l :
  hd_error (Board.rendered (Board.handleDragEnd tasks result api)) = Some l ->
  exists dest task before after,
    Board.destination result = Some dest /\
    find (byId (Board.draggableId result)) tasks = Some task /\
    tasks = before ++ task :: after /\
    let D := fun x => Status_eqb (Task.status x) (Board.droppableId dest) in
    l = filter (fun x => negb (D x)) (before ++ after)
        ++ firstn (Board.index dest) (filter D (before ++ after))
        ++ [Task.with_status (Board.droppableId dest) task]
        ++ skipn (Board.index dest) (filter D (before ++ after)).
Proof.
  unfold Board.handleDragEnd.
  destruct (Board.destination result) as [dest|]; [|discriminate].
  destruct (_ && _); [discriminate|].
  destruct (find _ tasks) as [task|] eqn:Ef; [|discriminate].
  destruct (find_findIndex _ _ Ef)
    as (k & before & after & Hk & El & _ & Hs).
  rewrite Hk, Hs.
  intros H. exists dest, task, before, after.
  repeat split; auto.
  destruct api; simpl in H; injection H as <-; reflexivity.
Qed.

Lemma filter_partition_perm (A : Type) (f : A -> bool) (l : list A) :
  Permutation l (filter (fun x => negb (f x)) l ++ filter f l).
Proof.
  induction l as [|x l IH]; simpl; [constructor|].
  destruct (f x); simpl.
  - eapply Permutation_trans; [apply perm_skip, IH|]. apply Permutation_middle.
  - now apply perm_skip.
Qed.

Lemma filter_none (A : Type) (f : A -> bool) (l : list A) :
  (forall x, In x l -> f x = false) -> filter f l = [].
Proof.
  induction l as [|x l IH]; simpl; [reflexivity|]. intros H.
  rewrite (H x (or_introl eq_refl)). apply IH. intros y Hy. apply H. now right.
Qed.

Lemma optimistic_perm (D : Task.t -> bool) (n : nat) (moved : Task.t)
    (rest : list Task.t) :
  Permutation
    (filter (fun x => negb (D x)) rest
     ++ firstn n (filter D rest) ++ [moved] ++ skipn n (filter D rest))
    (moved :: rest).
Proof.
  change ([moved] ++ skipn n (filter D rest))
    with (moved :: skipn n (filter D rest)).
  rewrite app_assoc.
  eapply Permutation_trans; [apply Permutation_sym, Permutation_middle|].
  apply perm_skip. rewrite <- app_assoc, firstn_skipn.
  apply Permutation_sym, filter_partition_perm.
Qed.

(** X18: the optimistic update of a drop loses and duplicates no card:
    the tasks it renders are the tasks of the page with the dragged card
    given the status of the destination column; among the cards of the
    destination column the dragged card is at the drop index (last when
    the index is beyond them), and the cards of the other columns and of
    the destination column follow one another as before. *)
Theorem X18_optimistic_update_keeps_cards
    (tasks : list Task.t) (result : Board.DropResult) (api : Board.ApiRun)
    (l : list Task.t) :
  hd_error (Board.rendered (Board.handleDragEnd tasks result api)) = Some l ->
  exists dest task before after,
    Board.destination result = Some dest /\
    tasks = before ++ task :: after /\
    Task._id task = Board.draggableId result /\
    let moved := Task.with_status (Board.droppableId dest) task in
    let D := fun x => Status_eqb (Task.status x) (Board.droppableId dest) in
    Permutation l (moved :: before ++ after) /\
    List.length l = List.length tasks /\
    filter D l
    = firstn (Board.index dest) (filter D (before ++ after))
      ++ moved :: skipn (Board.index dest) (filter D (before ++ after)) /\
    filter (fun x => negb (D x)) l
    = filter (fun x => negb (D x)) (before ++ after).
Proof.
  intros H.
  destruct (handleDragEnd_optimistic _ _ _ H)
    as (dest & task & before & after & Hd & Hf & Et & El).
  exists dest, task, before, after.
  split; [exact Hd|]. split; [exact Et|].
  split; [apply find_some in Hf; now apply byId_spec|].
  intros moved D. fold D in El. cbv zeta in El. fold moved in El.
  set (rest := before ++ after) in *.
  assert (HD : D moved = true) by (unfold D, moved; apply Status_eqb_refl).
  assert (Hperm : Permutation l (moved :: rest)).
  { rewrite El. apply optimistic_perm. }
  split; [exact Hperm|]. split.
  - rewrite (Permutation_length Hperm), Et. unfold rest.
    cbn [List.length]. rewrite !length_app. cbn [List.length]. lia.
  - assert (Hin : forall n x, In x (firstn n (filter D rest)
                                   ++ skipn n (filter D rest)) ->
                             D x = true).
    { intros n x Hx. rewrite firstn_skipn in Hx.
      apply filter_In in Hx. tauto. }
    assert (Hout : forall x, In x (filter (fun y => negb (D y)) rest) ->
                             D x = false).
    { intros x Hx. apply filter_In in Hx. destruct Hx as [_ Hx].
      now apply negb_true_iff. }
    split.
    + rewrite El, filter_app.
      rewrite (@filter_none _ D (filter (fun x => negb (D x)) rest)).
      * simpl. rewrite filter_app. simpl. rewrite HD.
        rewrite (@filter_fixed _ D (firstn (Board.index dest) (filter D rest)))
          by (intros x Hx; apply (Hin (Board.index dest)), in_or_app;
              now left).
        rewrite (@filter_fixed _ D (skipn (Board.index dest) (filter D rest)))
          by (intros x Hx; apply (Hin (Board.index dest)), in_or_app;
              now right).
        reflexivity.
      * intros x Hx. apply Hout, Hx.
    + rewrite El, filter_app.
      rewrite filter_fixed
        by (intros x Hx; apply negb_true_iff, Hout, Hx).
      rewrite (@filter_none _ (fun x => negb (D x))
                 (firstn (Board.index dest) (filter D rest)
                  ++ [moved] ++ skipn (Board.index dest) (filter D rest))).
      * apply app_nil_r.
      * intros x Hx.
        change ([moved] ++ skipn (Board.index dest) (filter D rest))
          with (moved :: skipn (Board.index dest) (filter D rest)) in Hx.
        apply in_app_or in Hx. apply negb_false_iff.
        destruct Hx as [Hx|[<-|Hx]]; [|exact HD|].
        -- apply (Hin (Board.index dest)), in_or_app. now left.
        -- apply (Hin (Board.index dest)), in_or_app. now right.
Qed.

Lemma X18_optimistic_update_keeps_cards_witness :
  exists l,
    hd_error
      (Board.rendered
         (Board.handleDragEnd (tasks Sample.board)
            (Board.mkDrop (Some (Board.mkLoc inprogress 1))
               (Board.mkLoc todo 0) 1)
            Board.ReorderRejects))
    = Some l /\
    List.length l = 4.
Proof.
  eexists. split; [reflexivity|].
  destruct (@X18_optimistic_update_keeps_cards (tasks Sample.board)
              (Board.mkDrop (Some (Board.mkLoc inprogress 1))
                 (Board.mkLoc todo 0) 1)
              Board.ReorderRejects _ eq_refl)
    as (dest & task & before & after & _ & _ & _ & _ & Hl & _).
  exact Hl.
Defined.

Lemma with_status_same (x : Task.t) : Task.with_status (Task.status x) x = x.
Proof. destruct x; reflexivity. Qed.

(** X19: the optimistic update of a drop inside one column changes nothing
    of what the page shows: the columns are drawn sorted by order, the
    update leaves every order alone, so with distinct orders in a column
    the cards stay where they were until the server has answered. *)
Theorem X19_in_column_optimistic_update_is_invisible
    (tasks : list Task.t) (result : Board.DropResult) (api : Board.ApiRun)
    (l : list Task.t) (dest : Board.Location) (task : Task.t) :
  hd_error (Board.rendered (Board.handleDragEnd tasks result api)) = Some l ->
  Board.destination result = Some dest ->
  find (byId (Board.draggableId result)) tasks = Some task ->
  Task.status task = Board.droppableId dest ->
  forall s,
    NoDup (orders (getTasksByStatus tasks s)) ->
    getTasksByStatus l s = getTasksByStatus tasks s.
Proof.
  intros H Hd Hf Hs s Hn.
  destruct (handleDragEnd_optimistic _ _ _ H)
    as (dest' & task' & before & after & Hd' & Hf' & Et & El).
  rewrite Hd in Hd'. injection Hd' as <-.
  rewrite Hf in Hf'. injection Hf' as <-.
  cbv zeta in El. rewrite <- Hs, with_status_same in El.
  apply getTasksByStatus_perm; [|exact Hn].
  rewrite El, Et. apply Permutation_sym.
  eapply Permutation_trans; [apply optimistic_perm|].
  apply Permutation_middle.
Qed.

Lemma X19_in_column_optimistic_update_is_invisible_witness :
  getTasksByStatus
    (filter (fun x => negb (Status_eqb (Task.status x) todo))
       [Sample.task 1 inprogress 0; Sample.task 3 todo 1]
     ++ firstn 2 (filter (fun x => Status_eqb (Task.status x) todo)
                    [Sample.task 1 inprogress 0; Sample.task 3 todo 1])
     ++ [Sample.task 2 todo 0]
     ++ skipn 2 (filter (fun x => Status_eqb (Task.status x) todo)
                   [Sample.task 1 inprogress 0; Sample.task 3 todo 1]))
    todo
  = [Sample.task 2 todo 0; Sample.task 3 todo 1].
Proof.
  apply (@X19_in_column_optimistic_update_is_invisible
           [Sample.task 1 inprogress 0; Sample.task 2 todo 0;
            Sample.task 3 todo 1]
           (Board.mkDrop (Some (Board.mkLoc todo 1)) (Board.mkLoc todo 0) 2)
           Board.ReorderRejects _ (Board.mkLoc todo 1) (Sample.task 2 todo 0)
           eq_refl eq_refl eq_refl eq_refl todo).
  vm_compute. repeat constructor; simpl; intuition discriminate.
Defined.

(** ** The page and the server: the task callbacks *)

(** X20: when the create route answers with the task it stored (the
    database connected, the project found), a page in step with the
    database stays in step: the handler appends the task of the answer.
    When the route answers 201 with a demo task that it did not store
    (the database not connected), the page appends it all the same and
    is no longer in step. *)
Theorem X20_create_keeps_page_in_sync
    (connected : bool) (freshId mockId : ObjectId) (now : Z) (db : DB)
    (p : ObjectId) (body : CreateBody) (page : list Task.t) (t : Task.t)
    (demo : bool) :
  inSync page db p ->
  snd (createTask connected freshId mockId now db p body)
  = Created201 t demo ->
  let db' := fst (createTask connected freshId mockId now db p body) in
  (demo = false -> inSync (handleTaskCreate t page) db' p) /\
  (demo = true -> db' = db /\ ~ inSync (handleTaskCreate t page) db' p).
Proof.
  unfold inSync, createTask, handleTaskCreate. intros Hs.
  destruct (negb (validTask body)); [discriminate|].
  destruct connected; cbn [negb].
  - destruct (Mongo.findOne (projectById p) (projects db)); [|discriminate].
    cbn [fst snd tasks]. intros [= <- <-]. split; [intros _ | discriminate].
    unfold Mongo.find. rewrite filter_app. apply Permutation_app; [exact Hs|].
    simpl. unfold inProject at 1. cbn [Task.projectId].
    rewrite Nat.eqb_refl. apply Permutation_refl.
  - cbn [fst snd]. intros [= <- <-]. split; [discriminate | intros _].
    split; [reflexivity|]. intros Hs'.
    apply Permutation_length in Hs, Hs'. rewrite length_app in Hs'.
    simpl in Hs'. lia.
Qed.

Lemma X20_create_keeps_page_in_sync_witness :
  inSync
    (handleTaskCreate (Task.mk 9 7 "a"%string EmptyString todo 3 50 50)
       (rev (tasks Sample.todo3)))
    (fst (createTask true 9 0 50 Sample.todo3 7
            (mkCreate "a"%string EmptyString todo))) 7 /\
  ~ inSync
      (handleTaskCreate (Task.mk 0 7 "a"%string EmptyString todo 0 50 50)
         (rev (tasks Sample.todo3)))
      (fst (createTask false 9 0 50 Sample.todo3 7
              (mkCreate "a"%string EmptyString todo))) 7.
Proof.
  assert (Hs : inSync (rev (tasks Sample.todo3)) Sample.todo3 7)
    by (unfold inSync; vm_compute; apply Permutation_sym, Permutation_rev).
  split.
  - apply (@X20_create_keeps_page_in_sync true 9 0 50 Sample.todo3 7
             (mkCreate "a"%string EmptyString todo) (rev (tasks Sample.todo3))
             (Task.mk 9 7 "a"%string EmptyString todo 3 50 50) false Hs
             eq_refl).
    reflexivity.
  - apply (@X20_create_keeps_page_in_sync false 9 0 50 Sample.todo3 7
             (mkCreate "a"%string EmptyString todo) (rev (tasks Sample.todo3))
             (Task.mk 0 7 "a"%string EmptyString todo 0 50 50) true Hs
             eq_refl).
    reflexivity.
Defined.

Lemma filter_swap (A : Type) (f g : A -> bool) (l : list A) :
  filter f (filter g l) = filter g (filter f l).
Proof.
  induction l as [|x l IH]; simpl; [reflexivity|].
  destruct (f x) eqn:Ef, (g x) eqn:Eg; simpl; rewrite ?Ef, ?Eg, IH;
    reflexivity.
Qed.

(** X21: a page in step with the database stays in step when a task is
    deleted: with unique identifiers, dropping from the page every task
    of the identifier removes what the server removed. *)
Theorem X21_delete_keeps_page_in_sync
    (db : DB) (p id : ObjectId) (page : list Task.t)
    (tid : ObjectId) (title : string) (pid : ObjectId) :
  uniqueIds (tasks db) ->
  inSync page db p ->
  snd (deleteTask true db id) = TaskDeleted tid title pid ->
  inSync (handleTaskDelete id page) (fst (deleteTask true db id)) p.
Proof.
  intros Hu Hs Hr. unfold inSync in *.
  assert (Hin : exists task, In task (tasks db) /\ Task._id task = id).
  { unfold deleteTask in Hr. cbn [negb] in Hr.
    destruct (Mongo.findOne (byId id) (tasks db)) as [task|] eqn:E;
      [|discriminate].
    apply find_some_In in E. exists task. split; [tauto|].
    now apply byId_spec. }
  destruct Hin as (task & Hin & Hid).
  rewrite (@deleteTask_tasks db id task Hu Hin Hid). cbn [tasks].
  unfold handleTaskDelete, Mongo.find.
  change (fun task0 : Task.t => negb (Task._id task0 =? id))
    with (fun x => negb (byId id x)).
  eapply Permutation_trans; [apply Permutation_filter_compat, Hs|].
  unfold Mongo.find.
  replace (filter (fun x => negb (byId id x)) (filter (inProject p) (tasks db)))
    with (filter (inProject p) (filter (fun x => negb (byId id x)) (tasks db))).
  - apply Permutation_refl.
  - apply filter_swap.
Qed.

Lemma X21_delete_keeps_page_in_sync_witness :
  inSync (handleTaskDelete 2 (rev (tasks Sample.todo3)))
    (fst (deleteTask true Sample.todo3 2)) 7.
Proof.
  apply (@X21_delete_keeps_page_in_sync Sample.todo3 7 2
           (rev (tasks Sample.todo3)) 2 "Task"%string 7).
  - apply sample_todo3_ids.
  - unfold inSync. vm_compute. apply Permutation_sym, Permutation_rev.
  - reflexivity.
Defined.

Lemma updateOne_as_replace c id u cur :
  uniqueIds c ->
  (forall x, Task._id (u x) = Task._id x) ->
  Mongo.findOne (byId id) c = Some cur ->
  Mongo.updateOne (byId id) u c
  = map (fun x => if Task._id x =? Task._id (u cur) then u cur else x) c
  /\ Mongo.findOne (byId id) (Mongo.updateOne (byId id) u c) = Some (u cur).
Proof.
  intros Hu Hid Hf. apply find_some_In in Hf. destruct Hf as [Hin Hq].
  assert (Hmap : Mongo.updateOne (byId id) u c
                 = map (fun x => if Task._id x =? Task._id (u cur)
                                 then u cur else x) c).
  { rewrite (@updateOne_byId c id u Hu). unfold Mongo.updateMany.
    apply map_ext_in. intros x Hx. rewrite Hid.
    apply byId_spec in Hq. rewrite Hq. unfold byId.
    destruct (Task._id x =? id) eqn:E; [|reflexivity].
    apply Nat.eqb_eq in E. f_equal.
    apply (@uniqueIds_inj c x cur Hu Hx Hin). congruence. }
  split; [exact Hmap|].
  apply findOne_byId.
  - unfold uniqueIds. rewrite (@updateOne_byId c id u Hu).
    rewrite updateMany_ids by exact Hid. exact Hu.
  - rewrite Hmap. apply in_map_iff. exists cur. split; [|exact Hin].
    rewrite Hid, Nat.eqb_refl. reflexivity.
  - apply byId_spec. rewrite Hid. now apply byId_spec.
Qed.

(** What a performed update leaves, with unique identifiers: the task of
    the answer is the stored task, in the place of the task it was. *)
Lemma updateTask_stored now db id body t :
  uniqueIds (tasks db) ->
  snd (updateTask true now db id body) = TaskUpdated (Some t) ->
  exists cur,
    In cur (tasks db) /\ Task._id cur = id /\ Task._id t = id /\
    Task.projectId t = orElse (u_projectId body) (Task.projectId cur) /\
    (forall s', u_status body = Some s' -> s' <> Task.status cur ->
       Task.order t = nextOrderIn (tasks db) (Task.projectId cur) s') /\
    tasks (fst (updateTask true now db id body))
    = map (fun x => if Task._id x =? Task._id t then t else x) (tasks db) /\
    In t (tasks (fst (updateTask true now db id body))).
Proof.
  intros Hu. unfold updateTask.
  destruct (negb (validUpdate body)); [discriminate|]. cbn [negb].
  destruct (Mongo.findOne (byId id) (tasks db)) as [cur|] eqn:Ef;
    [|discriminate].
  cbv zeta. cbn [fst snd tasks].
  set (order := match u_status body with
                | Some s => _
                | None => _
                end).
  destruct (@updateOne_as_replace (tasks db) id (applyUpdate body order now)
              cur Hu (fun x => eq_refl) Ef) as [Hmap Hfind].
  rewrite Hfind. intros [= <-].
  pose proof (find_some_In _ _ Ef) as [Hc Hq]. apply byId_spec in Hq.
  exists cur. split; [exact Hc|]. split; [exact Hq|]. split; [exact Hq|].
  split; [reflexivity|]. split; [|split].
  - intros s' Hs Hne. unfold applyUpdate, order. cbn [Task.order].
    rewrite Hs, (Status_eqb_neq Hne). reflexivity.
  - exact Hmap.
  - apply find_some_In in Hfind. tauto.
Qed.

Lemma filter_map_in (A : Type) (q : A -> bool) (f : A -> A) (l : list A) :
  (forall x, In x l -> q (f x) = q x) ->
  filter q (map f l) = map f (filter q l).
Proof.
  induction l as [|x l IH]; simpl; intros H; [reflexivity|].
  rewrite (H x (or_introl eq_refl)).
  destruct (q x); simpl; rewrite IH; auto; intros y Hy; apply H; now right.
Qed.

(** X22: a page in step with the database stays in step when a task is
    updated by a body that names no project: with unique identifiers the
    task of the answer is the stored task after the update, and putting
    it in the place of the task of its identifier gives the page what
    the server has, also when the update moved the task to the end of
    another column. *)
Theorem X22_update_keeps_page_in_sync
    (now : Z) (db : DB) (p id : ObjectId) (body : UpdateBody)
    (page : list Task.t) (t : Task.t) :
  uniqueIds (tasks db) ->
  inSync page db p ->
  u_projectId body = None ->
  snd (updateTask true now db id body) = TaskUpdated (Some t) ->
  inSync (handleTaskUpdate t page) (fst (updateTask true now db id body)) p
  /\ In t (tasks (fst (updateTask true now db id body)))
  /\ Task._id t = id.
Proof.
  intros Hu Hs Hpj Hr.
  destruct (@updateTask_stored now db id body t Hu Hr)
    as (cur & Hc & Hcid & Htid & Htp & _ & Hmap & Hin).
  rewrite Hpj in Htp. cbn [orElse] in Htp.
  split; [|split; [exact Hin | exact Htid]].
  unfold inSync, handleTaskUpdate in *. rewrite Hmap.
  unfold Mongo.find. rewrite filter_map_in.
  - apply Permutation_map, Hs.
  - intros x Hx. destruct (Task._id x =? Task._id t) eqn:E; [|reflexivity].
    apply Nat.eqb_eq in E.
    assert (x = cur) by (eapply uniqueIds_inj; eauto; congruence).
    subst x. unfold inProject. now rewrite Htp.
Qed.

Lemma X22_update_keeps_page_in_sync_witness :
  inSync
    (handleTaskUpdate (Task.mk 2 7 "Task" EmptyString inprogress 2 10 50)
       (rev (tasks Sample.board)))
    (fst (updateTask true 50 Sample.board 2
            (mkUpdate None None (Some inprogress) None None))) 7.
Proof.
  apply (@X22_update_keeps_page_in_sync 50 Sample.board 7 2
           (mkUpdate None None (Some inprogress) None None)
           (rev (tasks Sample.board))
           (Task.mk 2 7 "Task" EmptyString inprogress 2 10 50)).
  - apply sample_board_ids.
  - unfold inSync. vm_compute. apply Permutation_sym, Permutation_rev.
  - reflexivity.
  - reflexivity.
Defined.

Lemma filter_shorter (A : Type) (f : A -> bool) (l : list A) (x : A) :
  In x l -> f x = false -> List.length (filter f l) < List.length l.
Proof.
  induction l as [|y l IH]; simpl; [tauto|].
  intros [->|Hx] Hf.
  - rewrite Hf. pose proof (filter_length_le f l). lia.
  - specialize (IH Hx Hf). destruct (f y); simpl; lia.
Qed.

(** X26: with the database connected, an update whose body names a
    project other than the one the task is stored under is answered with
    the updated task and moves the task there: it leaves the task list
    of its project, which is otherwise as it was, and is stored under the
    project of the body, with, when the status changes too, the next
    order of the column of the project it leaves.  The page of the
    project it leaves, which puts the answer in the place of the task,
    is then no longer in step with the database. *)
Theorem X26_update_moves_task_to_named_project
    (now : Z) (db : DB) (id : ObjectId) (body : UpdateBody)
    (current : Task.t) (q : ObjectId) (page : list Task.t) :
  validUpdate body = true ->
  uniqueIds (tasks db) ->
  In current (tasks db) -> Task._id current = id ->
  u_projectId body = Some q -> q <> Task.projectId current ->
  let r := updateTask true now db id body in
  let p := Task.projectId current in
  exists t,
    snd r = TaskUpdated (Some t) /\
    Task._id t = id /\ Task.projectId t = q /\
    (forall s', u_status body = Some s' -> s' <> Task.status current ->
       Task.order t = nextOrderIn (tasks db) p s') /\
    Mongo.find (inProject p) (tasks (fst r))
    = filter (fun x => negb (byId id x)) (Mongo.find (inProject p) (tasks db)) /\
    In t (Mongo.find (inProject q) (tasks (fst r))) /\
    (inSync page db p -> ~ inSync (handleTaskUpdate t page) (fst r) p).
Proof.
  intros Hv Hu Hin Hid Hpj Hne r p.
  assert (Hq : byId id current = true) by now apply byId_spec.
  assert (Hr : exists t, snd r = TaskUpdated (Some t)).
  { unfold r, updateTask. rewrite Hv. cbn [negb].
    rewrite (@findOne_byId _ _ _ Hu Hin Hq). cbv zeta. cbn [snd].
    set (order := match u_status body with
                  | Some s => _
                  | None => _
                  end).
    destruct (@updateOne_as_replace (tasks db) id
                (applyUpdate body order now) current Hu (fun x => eq_refl)
                (@findOne_byId _ _ _ Hu Hin Hq)) as [_ Hfind].
    rewrite Hfind. eauto. }
  destruct Hr as [t Hr]. exists t.
  destruct (@updateTask_stored now db id body t Hu Hr)
    as (cur & Hc & Hcid & Htid & Htp & Hord & Hmap & Hint).
  assert (cur = current) by (eapply uniqueIds_inj; eauto; congruence).
  subst cur. rewrite Hpj in Htp. cbn [orElse] in Htp. fold p in Hord.
  fold r in Hmap, Hint.
  assert (Hleft : Mongo.find (inProject p) (tasks (fst r))
                  = filter (fun x => negb (byId id x))
                      (Mongo.find (inProject p) (tasks db))).
  { rewrite Hmap, Htid. unfold Mongo.find.
    assert (Hone : forall x, In x (tasks db) -> Task._id x = id ->
                             x = current)
      by (intros x Hx E; eapply uniqueIds_inj; eauto; congruence).
    assert (Ht : inProject p t = false)
      by (unfold inProject; rewrite Htp; apply Nat.eqb_neq; exact Hne).
    assert (Hcur : inProject p current = true)
      by (unfold inProject, p; apply Nat.eqb_refl).
    revert Hone. generalize (tasks db). intros c Hone.
    induction c as [|x c IH]; simpl; [reflexivity|].
    assert (IH' := IH (fun y Hy => Hone y (or_intror Hy))).
    destruct (Task._id x =? id) eqn:E.
    - apply Nat.eqb_eq in E.
      pose proof (Hone x (or_introl eq_refl) E) as ->.
      rewrite Ht, Hcur. simpl. unfold byId at 1.
      rewrite E, Nat.eqb_refl. simpl. exact IH'.
    - destruct (inProject p x) eqn:Ep; simpl;
        [unfold byId at 1; rewrite E; simpl; f_equal|]; exact IH'. }
  split; [exact Hr|]. split; [exact Htid|]. split; [exact Htp|].
  split; [exact Hord|]. split; [exact Hleft|]. split.
  - unfold Mongo.find. apply filter_In. split; [exact Hint|].
    unfold inProject. rewrite Htp. apply Nat.eqb_refl.
  - intros Hs Hs'. unfold inSync in *. rewrite Hleft in Hs'.
    apply Permutation_length in Hs, Hs'.
    unfold handleTaskUpdate in Hs'. rewrite length_map in Hs'.
    assert (Hcur : In current (Mongo.find (inProject p) (tasks db))).
    { unfold Mongo.find. apply filter_In. split; [exact Hin|].
      unfold inProject, p. apply Nat.eqb_refl. }
    assert (Hlt : List.length
                    (filter (fun x => negb (byId id x))
                       (Mongo.find (inProject p) (tasks db)))
                  < List.length (Mongo.find (inProject p) (tasks db))).
    { apply (@filter_shorter _ (fun x => negb (byId id x)) _ current Hcur).
      cbv beta. now rewrite Hq. }
    lia.
Qed.

Lemma X26_update_moves_task_to_named_project_witness :
  let r := updateTask true 50 Sample.board 1
             (mkUpdate None None (Some inprogress) None (Some 8)) in
  snd r = TaskUpdated (Some (Task.mk 1 8 "Task" EmptyString inprogress 2 10 50)) /\
  map Task._id (Mongo.find (inProject 7) (tasks (fst r))) = [2; 3; 4] /\
  ~ inSync
      (handleTaskUpdate (Task.mk 1 8 "Task" EmptyString inprogress 2 10 50)
         (tasks Sample.board))
      (fst r) 7.
Proof.
  intros r. split; [reflexivity|]. split; [reflexivity|].
  destruct (@X26_update_moves_task_to_named_project 50 Sample.board 1
              (mkUpdate None None (Some inprogress) None (Some 8))
              (Sample.task 1 todo 0) 8 (tasks Sample.board))
    as (t & Ht & _ & _ & _ & _ & _ & Hout).
  - reflexivity.
  - apply sample_board_ids.
  - simpl. auto.
  - reflexivity.
  - reflexivity.
  - discriminate.
  - change (snd r = TaskUpdated (Some t)) in Ht.
    assert (E : t = Task.mk 1 8 "Task" "" inprogress 2 10 50)
      by (vm_compute in Ht; congruence).
    rewrite <- E. apply Hout. unfold inSync. apply Permutation_refl.
Defined.

(** ** A move taken back *)

Lemma sameIdentity_ids (l l' : list Task.t) :
  Forall2 sameIdentity l l' -> map Task._id l' = map Task._id l.
Proof.
  induction 1 as [|x y l l' Hxy _ IH]; simpl; [reflexivity|].
  destruct Hxy as (E & _). now rewrite E, IH.
Qed.

Lemma reorder_uniqueIds now db p body :
  uniqueIds (tasks db) -> uniqueIds (tasks (fst (reorder now db p body))).
Proof.
  unfold uniqueIds. intros Hu.
  now rewrite (sameIdentity_ids (proj2 (reorder_identity now db p body))).
Qed.

Lemma reorder_project now db p body :
  Mongo.findOne (projectById p) (projects db) <> None ->
  Mongo.findOne (projectById p) (projects (fst (reorder now db p body)))
  <> None.
Proof. now rewrite (proj1 (reorder_identity now db p body)). Qed.

(** A list without repetition is known by the place of one element and
    the sequence of the others. *)
Lemma ids_determined (tid : ObjectId) : forall (l1 l2 : list ObjectId) i,
  NoDup l1 -> NoDup l2 ->
  JsArray.findIndex (fun y => y =? tid) l1 = Some i ->
  JsArray.findIndex (fun y => y =? tid) l2 = Some i ->
  filter (fun y => negb (y =? tid)) l1 = filter (fun y => negb (y =? tid)) l2 ->
  l1 = l2.
Proof.
  assert (Hfix : forall l, ~ In tid l ->
                           filter (fun y => negb (y =? tid)) l = l).
  { intros l Hl. apply filter_fixed. intros x Hx. apply negb_true_iff.
    apply Nat.eqb_neq. intros ->. contradiction. }
  induction l1 as [|x r1 IH]; intros l2 i N1 N2 H1 H2 Hf; [discriminate|].
  destruct l2 as [|y r2]; [discriminate|].
  inversion N1 as [|? ? Hx1 N1']; inversion N2 as [|? ? Hy2 N2']; subst.
  simpl in H1, H2, Hf.
  destruct (x =? tid) eqn:Ex.
  - injection H1 as <-.
    destruct (y =? tid) eqn:Ey;
      [|destruct (JsArray.findIndex (fun y => y =? tid) r2); discriminate].
    apply Nat.eqb_eq in Ex, Ey. subst. simpl in Hf.
    rewrite !Hfix in Hf by assumption. now subst.
  - destruct (JsArray.findIndex (fun y => y =? tid) r1) as [k|] eqn:E1;
      [|discriminate].
    injection H1 as <-.
    destruct (y =? tid) eqn:Ey; [discriminate|].
    destruct (JsArray.findIndex (fun y => y =? tid) r2) as [k'|] eqn:E2;
      [|discriminate].
    injection H2 as ->. simpl in Hf. injection Hf as -> Hf.
    f_equal. eapply IH; eauto.
Qed.

Lemma column_determined db db' p s tid i :
  uniqueIds (tasks db) -> uniqueIds (tasks db') ->
  indexInColumn db p s tid = Some i ->
  indexInColumn db' p s tid = Some i ->
  idsWithout tid (column db' p s) = idsWithout tid (column db p s) ->
  map Task._id (column db' p s) = map Task._id (column db p s).
Proof.
  intros Hu Hu' Hk Hk' Hw. unfold indexInColumn in *.
  rewrite findIndex_ids in Hk, Hk'. rewrite !idsWithout_ids in Hw.
  eapply ids_determined; eauto using column_ids.
Qed.

Lemma dense_same_ids db db' p s :
  dense db p s -> dense db' p s ->
  map Task._id (column db' p s) = map Task._id (column db p s) ->
  assignments (column db' p s) = assignments (column db p s).
Proof.
  unfold dense, orders, assignments. intros Hd Hd' Hi.
  assert (Hl : List.length (column db' p s) = List.length (column db p s)).
  { now rewrite <- (length_map Task._id), Hi, length_map. }
  rewrite Hl, <- Hd in Hd'.
  revert Hi Hd'. generalize (column db p s), (column db' p s).
  induction l as [|x l IH]; intros [|y l']; simpl; try discriminate;
    [reflexivity|].
  intros [= Ei Hi] [= Eo Ho]. rewrite Ei, Eo. f_equal. now apply IH.
Qed.

Lemma indexInColumn_bound db p s tid i :
  indexInColumn db p s tid = Some i -> i < List.length (column db p s).
Proof.
  unfold indexInColumn. generalize (column db p s). intros l. revert i.
  induction l as [|x l IH]; simpl; intros i; [discriminate|].
  destruct (byId tid x); [intros [= <-]; lia|].
  destruct (JsArray.findIndex (byId tid) l) as [k|]; [|discriminate].
  intros [= <-]. specialize (IH k eq_refl). lia.
Qed.

(** X23: on a board with unique identifiers, an in-column move followed
    by the move of the same task back to the index it came from, both
    requested with the identifier spelled in lower case as the server
    spells it, succeeds and puts the column back in its sequence,
    numbered from 0; when the column was dense before, every task of it
    has its order back.  The other columns of the project are as they
    were. *)
Theorem X23_in_column_move_taken_back
    (now now' : nat -> Z) (db : DB) (p : ObjectId) (s : Status)
    (tid : ObjectId) (idx : Z) (i : nat) :
  uniqueIds (tasks db) -> (0 <= idx)%Z ->
  Mongo.findOne (projectById p) (projects db) <> None ->
  indexInColumn db p s tid = Some i ->
  let db1 := fst (reorder now db p (mkReorder tid s s idx true)) in
  let r2 := reorder now' db1 p (mkReorder tid s s (Z.of_nat i) true) in
  succeeded (snd r2) = true /\
  map Task._id (column (fst r2) p s) = map Task._id (column db p s) /\
  dense (fst r2) p s /\
  (dense db p s ->
   assignments (column (fst r2) p s) = assignments (column db p s)) /\
  forall C, C <> s -> column (fst r2) p C = column db p C.
Proof.
  intros Hu Hi Hp Hk db1 r2.
  pose proof (@reorder_uniqueIds now db p (mkReorder tid s s idx true) Hu) as Hu1.
  pose proof (@reorder_project now db p (mkReorder tid s s idx true) Hp) as Hp1.
  fold db1 in Hu1, Hp1.
  pose proof (@reorder_in_column_index now db p s tid idx i Hu Hi Hp Hk)
    as Hk1.
  fold db1 in Hk1.
  set (k := Nat.min (Z.to_nat idx) (List.length (column db p s) - 1)) in *.
  destruct (@reorder_in_column_dense now db p s tid idx i Hu Hi Hp Hk)
    as (_ & _ & Hl1).
  fold db1 in Hl1.
  assert (Hi0 : (0 <= Z.of_nat i)%Z) by lia.
  destruct (@reorder_in_column_dense now' db1 p s tid (Z.of_nat i) k
              Hu1 Hi0 Hp1 Hk1) as (Hok & Hd2 & Hl2).
  fold r2 in Hok, Hd2, Hl2.
  assert (Hids : map Task._id (column (fst r2) p s)
                 = map Task._id (column db p s)).
  { apply (@column_determined db (fst r2) p s tid i); auto.
    - apply reorder_uniqueIds, Hu1.
    - unfold r2.
      rewrite (@reorder_in_column_index now' db1 p s tid (Z.of_nat i) k
                 Hu1 Hi0 Hp1 Hk1).
      f_equal. rewrite Hl1, Nat2Z.id.
      pose proof (@indexInColumn_bound db p s tid i Hk). lia.
    - unfold r2.
      rewrite (@reorder_in_column_relative now' db1 p s tid (Z.of_nat i) k
                 Hu1 Hi0 Hp1 Hk1).
      apply (@reorder_in_column_relative now db p s tid idx i Hu Hi Hp Hk). }
  split; [exact Hok|]. split; [exact Hids|]. split; [exact Hd2|].
  split; [intros Hd; now apply dense_same_ids|].
  intros C HC. unfold r2.
  rewrite (@reorder_in_column_others now' db1 p s tid (Z.of_nat i) k C
             Hu1 Hi0 Hp1 Hk1 HC).
  unfold db1.
  now rewrite (@reorder_in_column_others now db p s tid idx i C
                 Hu Hi Hp Hk HC).
Qed.

Lemma X23_in_column_move_taken_back_witness :
  map Task._id
    (column
       (fst (reorder Sample.clock
               (fst (reorder Sample.clock Sample.gappy 7
                       (mkReorder 1 todo todo 5 true)))
               7 (mkReorder 1 todo todo 0 true))) 7 todo)
  = map Task._id (column Sample.gappy 7 todo).
Proof.
  apply (@X23_in_column_move_taken_back Sample.clock Sample.clock
           Sample.gappy 7 todo 1 5 0).
  - apply sample_gappy_ids.
  - lia.
  - discriminate.
  - reflexivity.
Defined.

(** ** A drop, from the page to the server and back *)

Lemma reorder_across_index now db p tid A B i j :
  uniqueIds (tasks db) ->
  Mongo.findOne (projectById p) (projects db) <> None ->
  dense db p A -> dense db p B -> A <> B ->
  indexInColumn db p A tid = Some i ->
  j <= List.length (column db p B) ->
  let db' := fst (reorder now db p (mkReorder tid A B (Z.of_nat j) true)) in
  indexInColumn db' p B tid = Some j /\
  idsWithout tid (column db' p B) = map Task._id (column db p B).
Proof.
  intros Hu Hp HdA HdB Hab Hk Hj db'.
  destruct (@reorder_across_sequence now db p tid A B i j
              Hu Hp HdA HdB Hab Hk Hj) as [SA SB].
  fold db' in SA, SB.
  destruct (@indexInColumn_task db p A tid i Hu Hk)
    as (T & HT & Hin & Hid & Hc & _).
  pose proof (@elsewhere_not_here db p A B tid T Hu Hab Hin Hid Hc) as HB.
  assert (HBids : forall y, In y (map Task._id (column db p B)) ->
                            (y =? tid) = false).
  { intros y Hy. apply in_map_iff in Hy. destruct Hy as (x & <- & Hx).
    exact (HB x Hx). }
  split.
  - unfold indexInColumn. rewrite findIndex_ids, SB.
    rewrite findIndex_app_hit.
    + rewrite length_map, length_firstn. f_equal. lia.
    + intros y Hy. apply HBids. rewrite <- firstn_map in Hy.
      eapply firstn_In; eauto.
    + apply Nat.eqb_refl.
  - rewrite idsWithout_ids, SB. rewrite filter_app_miss.
    + now rewrite <- map_app, firstn_skipn.
    + intros y Hy. rewrite <- map_app, firstn_skipn in Hy.
      now rewrite (HBids y Hy).
    + now rewrite Nat.eqb_refl.
Qed.

Lemma getTasks_columns db p s data n :
  getTasks true db p = TasksOk data n ->
  NoDup (orders (column db p s)) ->
  getTasksByStatus data s = column db p s.
Proof.
  unfold getTasks. cbn [negb].
  destruct (Mongo.findOne (projectById p) (projects db)); [|discriminate].
  cbv zeta. intros [= <- _] Hn.
  assert (Hcol : column db p s
                 = getTasksByStatus (Mongo.find (inProject p) (tasks db)) s).
  { rewrite getTasksByStatus_sort. unfold column, Mongo.find.
    rewrite filter_andb. reflexivity. }
  rewrite Hcol. apply getTasksByStatus_perm.
  - apply Permutation_sym, sort_perm.
  - now rewrite <- Hcol.
Qed.

Lemma dense_distinct db p s : dense db p s -> NoDup (orders (column db p s)).
Proof. intros Hd. rewrite Hd. apply upto_NoDup. Qed.

(** X24: a drop that moves a card, on a board with unique identifiers and
    dense columns, for a card that is in the source column, to an index
    the destination column has (the page names the card by its
    identifier as the server spelled it): the move succeeds on the
    server, and once the reload has answered with the task list of the
    project the page shows every column as the server orders it, with
    the card at the index of the drop (at the last place of its column
    when an in-column drop names an index beyond it). *)
Theorem X24_drop_ends_on_server_board
    (now : nat -> Z) (db : DB) (p : ObjectId) (page : list Task.t)
    (result : Board.DropResult) (dest : Board.Location) (task : Task.t)
    (i : nat) (data : list Task.t) (n : nat) :
  let src := Board.droppableId (Board.source result) in
  let dst := Board.droppableId dest in
  let tid := Board.draggableId result in
  let body := mkReorder tid src dst (Z.of_nat (Board.index dest)) true in
  let db' := fst (reorder now db p body) in
  let page' :=
    Board.tasksAfter page
      (Board.handleDragEnd page result
         (Board.GetTasksResolves (Some data))) in
  uniqueIds (tasks db) ->
  Mongo.findOne (projectById p) (projects db) <> None ->
  (forall s, dense db p s) ->
  Board.destination result = Some dest ->
  dst <> src \/ Board.index dest <> Board.index (Board.source result) ->
  find (byId tid) page = Some task ->
  indexInColumn db p src tid = Some i ->
  (src <> dst -> Board.index dest <= List.length (column db p dst)) ->
  getTasks true db' p = TasksOk data n ->
  succeeded (snd (reorder now db p body)) = true /\
  (forall s, getTasksByStatus page' s = column db' p s) /\
  JsArray.findIndex (byId tid) (getTasksByStatus page' dst)
  = Some (if Status_eqb src dst
          then Nat.min (Board.index dest) (List.length (column db p dst) - 1)
          else Board.index dest).
Proof.
  intros src dst tid body db' page' Hu Hp Hd Hdest Hmove Hf Hk Hj Hget.
  assert (Hpage : page' = data).
  { unfold page', Board.handleDragEnd. rewrite Hdest.
    fold dst src.
    assert (E : Status_eqb dst src
                && (Board.index dest =? Board.index (Board.source result))
                = false).
    { apply andb_false_iff. destruct Hmove as [H|H].
      - left. now apply Status_eqb_neq.
      - right. now apply Nat.eqb_neq. }
    rewrite E. fold tid. rewrite Hf. reflexivity. }
  assert (Hidx : (0 <= destinationIndex body)%Z) by (simpl; lia).
  assert (Hjz : sourceStatus body <> destinationStatus body ->
                (destinationIndex body
                 <= Z.of_nat
                      (List.length (column db p (destinationStatus body))))%Z).
  { intros H. simpl in *. specialize (Hj H). lia. }
  destruct (@reorder_keeps_density now db p body i Hu Hp Hd Hk Hidx Hjz
              (fun _ => eq_refl))
    as [Hok Hd'].
  fold db' in Hd'.
  assert (Hcols : forall s, getTasksByStatus page' s = column db' p s).
  { intros s. rewrite Hpage.
    apply (@getTasks_columns db' p s data n Hget).
    apply dense_distinct, Hd'. }
  split; [exact Hok|]. split; [exact Hcols|].
  rewrite Hcols. fold (indexInColumn db' p dst tid).
  destruct (Status_eqb src dst) eqn:E.
  - apply Status_eqb_eq in E. unfold db', body. rewrite <- E in *.
    rewrite (@reorder_in_column_index now db p src tid
               (Z.of_nat (Board.index dest)) i Hu Hidx Hp Hk).
    now rewrite Nat2Z.id.
  - assert (Hne : src <> dst).
    { intros H. apply Status_eqb_eq in H. congruence. }
    apply (@reorder_across_index now db p tid src dst i (Board.index dest)
             Hu Hp (Hd src) (Hd dst) Hne Hk (Hj Hne)).
Qed.

Lemma X24_drop_ends_on_server_board_witness :
  let result :=
    Board.mkDrop (Some (Board.mkLoc inprogress 1)) (Board.mkLoc todo 0) 1 in
  let db' :=
    fst (reorder Sample.clock Sample.board 7
           (mkReorder 1 todo inprogress 1 true)) in
  let data :=
    match getTasks true db' 7 with
    | TasksOk d _ => d
    | _ => []
    end in
  JsArray.findIndex (byId 1)
    (getTasksByStatus
       (Board.tasksAfter (tasks Sample.board)
          (Board.handleDragEnd (tasks Sample.board) result
             (Board.GetTasksResolves (Some data))))
       inprogress)
  = Some 1.
Proof.
  intros result db' data.
  apply (@X24_drop_ends_on_server_board Sample.clock Sample.board 7
           (tasks Sample.board) result (Board.mkLoc inprogress 1)
           (Sample.task 1 todo 0) 0 data 4).
  - apply sample_board_ids.
  - discriminate.
  - apply sample_board_dense.
  - reflexivity.
  - left. discriminate.
  - reflexivity.
  - reflexivity.
  - intros _. simpl. lia.
  - reflexivity.
Defined.
